(** * Mern_NOtes: the note and account services, embedded and verified

    A shallow embedding of [server/models/Note.js] and of the two routers
    [server/routes/notes.js] and [server/routes/auth.js].

    Conventions of the embedding:
    - a JavaScript string is a Rocq [string]; a character stands for one
      code unit below 256, so the white space removed by
      [String.prototype.trim] is 9..13, 32 and 160;
    - a JavaScript number that holds an integer is a [Z]; counts and
      limits stay far inside the exactly represented range, while the page
      number of a request is as large as the client likes, so [parseInt]
      and the arithmetic on the page round as doubles do ([roundDouble]);
      a [Date] is its millisecond count;
    - an [ObjectId] is the 96-bit value it denotes;
    - a collection is the list of its documents in natural order, and every
      handler is a computation in a small state monad over the collection;
      the clock reading of a request and a freshly generated [ObjectId] are
      arguments of the handler that uses them;
    - [undefined] is [None]; request bodies and query strings are well typed
      (a field that is present holds a value of the type its validator
      demands);
    - a [catch] branch (status 500) is reached by a [save()] that the
      schema or the unique index on [_id] rejects, and by [trim] called on
      [undefined]; a failure of the database driver itself is not
      modelled;
    - [mongoose.Types.ObjectId(userId)] yields the id it is given. *)

From Stdlib Require Import List String Ascii ZArith NArith Bool Lia Arith.
From Stdlib Require Import Permutation Sorted.
Import ListNotations.

Open Scope string_scope.
Open Scope Z_scope.

(** ** JavaScript strings *)

Definition isSpace (c : ascii) : bool :=
  let n := nat_of_ascii c in
  ((9 <=? n)%nat && (n <=? 13)%nat) || (n =? 32)%nat || (n =? 160)%nat.

Fixpoint dropSpaces (l : list ascii) : list ascii :=
  match l with
  | [] => []
  | c :: r => if isSpace c then dropSpaces r else l
  end.

(** [String.prototype.trim] *)
Definition trim (s : string) : string :=
  string_of_list_ascii
    (rev (dropSpaces (rev (dropSpaces (list_ascii_of_string s))))).

Arguments trim : simpl never.

(** Truthiness of a string: every string but the empty one. *)
Definition truthy (s : string) : bool :=
  match s with EmptyString => false | String _ _ => true end.

(** Truthiness of a value that may be [undefined]. *)
Definition truthyOpt (o : option string) : bool :=
  match o with Some s => truthy s | None => false end.

Definition strLen (s : string) : Z := Z.of_nat (String.length s).

Definition between (lo hi x : Z) : bool := (lo <=? x) && (x <=? hi).

Definition isHexDigit (c : ascii) : bool :=
  let n := nat_of_ascii c in
  ((48 <=? n)%nat && (n <=? 57)%nat)
  || ((65 <=? n)%nat && (n <=? 70)%nat)
  || ((97 <=? n)%nat && (n <=? 102)%nat).

(** The pattern [/^#([A-Fa-f0-9]{6}|[A-Fa-f0-9]{3})$/]. *)
Definition isHexColor (s : string) : bool :=
  match s with
  | String "#" r =>
      forallb isHexDigit (list_ascii_of_string r)
      && ((String.length r =? 6)%nat || (String.length r =? 3)%nat)
  | _ => false
  end.

(** ** The Note schema ([models/Note.js]) *)

Definition ObjectId := N.
Definition Date := Z.
Bind Scope N_scope with ObjectId.

Record Note := mkNote {
  _id : ObjectId;
  title : string;
  content : string;
  category : string;
  tags : list string;
  isPinned : bool;
  isArchived : bool;
  color : string;
  userId : ObjectId;
  createdAt : Date;
  updatedAt : Date
}.

Definition categoryEnum : list string := ["personal"; "work"; "creative"; "study"].

Definition isIn (s : string) (l : list string) : bool :=
  existsb (String.eqb s) l.

(** Field assignments on a document.  The schema declares [trim: true] on
    [title], [content] and the elements of [tags], so the setter trims. *)
Definition set_title (v : string) (n : Note) : Note :=
  mkNote (_id n) (trim v) (content n) (category n) (tags n) (isPinned n)
         (isArchived n) (color n) (userId n) (createdAt n) (updatedAt n).
Definition set_content (v : string) (n : Note) : Note :=
  mkNote (_id n) (title n) (trim v) (category n) (tags n) (isPinned n)
         (isArchived n) (color n) (userId n) (createdAt n) (updatedAt n).
Definition set_category (v : string) (n : Note) : Note :=
  mkNote (_id n) (title n) (content n) v (tags n) (isPinned n)
         (isArchived n) (color n) (userId n) (createdAt n) (updatedAt n).
Definition set_tags (v : list string) (n : Note) : Note :=
  mkNote (_id n) (title n) (content n) (category n) (map trim v) (isPinned n)
         (isArchived n) (color n) (userId n) (createdAt n) (updatedAt n).
Definition set_isPinned (v : bool) (n : Note) : Note :=
  mkNote (_id n) (title n) (content n) (category n) (tags n) v
         (isArchived n) (color n) (userId n) (createdAt n) (updatedAt n).
Definition set_isArchived (v : bool) (n : Note) : Note :=
  mkNote (_id n) (title n) (content n) (category n) (tags n) (isPinned n)
         v (color n) (userId n) (createdAt n) (updatedAt n).
Definition set_color (v : string) (n : Note) : Note :=
  mkNote (_id n) (title n) (content n) (category n) (tags n) (isPinned n)
         (isArchived n) v (userId n) (createdAt n) (updatedAt n).
Definition set_updatedAt (v : Date) (n : Note) : Note :=
  mkNote (_id n) (title n) (content n) (category n) (tags n) (isPinned n)
         (isArchived n) (color n) (userId n) (createdAt n) v.

(** The weighted text index: [noteSchema.index({title: 'text', content:
    'text', tags: 'text'}, {weights: {title: 10, content: 5, tags: 8}})]. *)
Record TextIndex := mkTextIndex {
  indexedFields : list string;
  weights : list (string * Z)
}.

Definition noteTextIndex : TextIndex :=
  mkTextIndex ["title"; "content"; "tags"]
              [("title", 10); ("content", 5); ("tags", 8)].

Fixpoint weightOf (f : string) (w : list (string * Z)) : option Z :=
  match w with
  | [] => None
  | (k, v) :: r => if String.eqb k f then Some v else weightOf f r
  end.

(** ** Filter documents and the collection *)

(** A MongoDB filter over notes: each field that is present is a condition,
    and a document matches when all of them hold. *)
Record Filter := mkFilter {
  f_id : option ObjectId;
  f_userId : option ObjectId;
  f_isArchived : option bool;
  f_category : option string;
  f_isPinned : option bool;
  f_text : option string
}.

Definition Store := list Note.

(** The small state monad of the handlers, over the collection they use. *)
Definition State (S A : Type) : Type := S -> A * S.
Definition ret {S A} (a : A) : State S A := fun s => (a, s).
Definition bind {S A B} (m : State S A) (k : A -> State S B) : State S B :=
  fun s => let (a, s') := m s in k a s'.

Definition M : Type -> Type := State Store.

Declare Scope db_scope.
Delimit Scope db_scope with db.
Notation "x <- m ;; k" := (bind m (fun x => k))
  (at level 61, m at next level, right associativity) : db_scope.
Notation "m ;;; k" := (bind m (fun _ => k))
  (at level 61, right associativity) : db_scope.

Section Server.

(** The [$text] operator: whether a document matches a search string is
    decided by the text index of the database, which is not part of the
    repository. *)
Variable textMatch : string -> Note -> bool.

Definition holds {A} (p : A -> bool) (o : option A) : bool :=
  match o with Some a => p a | None => true end.

Definition matches (q : Filter) (n : Note) : bool :=
  holds (N.eqb (_id n)) (f_id q)
  && holds (N.eqb (userId n)) (f_userId q)
  && holds (Bool.eqb (isArchived n)) (f_isArchived q)
  && holds (String.eqb (category n)) (f_category q)
  && holds (Bool.eqb (isPinned n)) (f_isPinned q)
  && holds (fun s => textMatch s n) (f_text q).

(** *** Collection primitives *)

Definition find (q : Filter) : M (list Note) :=
  fun s => (filter (matches q) s, s).

Definition findOne (q : Filter) : M (option Note) :=
  fun s => (List.find (matches q) s, s).

Definition countDocuments (q : Filter) : M Z :=
  fun s => (Z.of_nat (List.length (filter (matches q) s)), s).

Fixpoint removeFirst (p : Note -> bool) (s : Store) : Store :=
  match s with
  | [] => []
  | x :: r => if p x then r else x :: removeFirst p r
  end.

Definition findOneAndDelete (q : Filter) : M (option Note) :=
  fun s => (List.find (matches q) s, removeFirst (matches q) s).

(** [updateOne({_id: n._id}, n)]: the first document carrying the id of [n]
    is overwritten. *)
Fixpoint replaceById (n : Note) (s : Store) : Store :=
  match s with
  | [] => []
  | x :: r => if N.eqb (_id x) (_id n) then n :: r else x :: replaceById n r
  end.

(** [noteSchema.pre('save')]: [this.updatedAt = Date.now()]. *)
Definition preSave (now : Date) (n : Note) : Note := set_updatedAt now n.

(** The validators of the schema, which [save()] runs before it writes:
    [required], [minlength], [maxlength], [enum] and [match] ([match] lets
    the empty string through). *)
Definition schemaValid (n : Note) : bool :=
  between 1 200 (strLen (title n))
  && between 1 10000 (strLen (content n))
  && isIn (category n) categoryEnum
  && forallb (fun t => strLen t <=? 30) (tags n)
  && (negb (truthy (color n)) || isHexColor (color n)).

(** [note.save()] on a document read from the collection: the document in
    hand is validated, the hook runs, and the stored document of the same
    id is overwritten.  [None] is the rejected promise of a document that
    fails validation. *)
Definition save (now : Date) (n : Note) : M (option Note) :=
  fun s =>
    if schemaValid n
    then let n' := preSave now n in (Some n', replaceById n' s)
    else (None, s).

(** [note.save()] on a document built by [new Note(...)]: an insert, which
    the unique index on [_id] refuses when the id is taken. *)
Definition saveNew (now : Date) (n : Note) : M (option Note) :=
  fun s =>
    if schemaValid n && negb (existsb (fun x => N.eqb (_id x) (_id n)) s)
    then let n' := preSave now n in (Some n', (s ++ [n'])%list)
    else (None, s).

(** *** Sorting, skipping, limiting *)

(** Order of two documents under [sort({[sortBy]: 1})]; the keys are the
    three that [queryValidation] lets through, any other key leaves the
    documents unordered. *)
Definition keyCompare (sortBy : string) (a b : Note) : comparison :=
  if String.eqb sortBy "createdAt" then Z.compare (createdAt a) (createdAt b)
  else if String.eqb sortBy "updatedAt" then Z.compare (updatedAt a) (updatedAt b)
  else if String.eqb sortBy "title" then String.compare (title a) (title b)
  else Eq.

Definition sortLe (sortBy : string) (sortOrder : Z) (a b : Note) : bool :=
  match (if sortOrder <? 0 then keyCompare sortBy b a else keyCompare sortBy a b) with
  | Gt => false
  | _ => true
  end.

Fixpoint insertSorted (le : Note -> Note -> bool) (x : Note) (l : list Note) : list Note :=
  match l with
  | [] => [x]
  | y :: r => if le x y then x :: l else y :: insertSorted le x r
  end.

(** The sort of the database, as an insertion sort.  Where two documents
    tie on the key the database is free to put either first, and the
    insertion sort here keeps them in the order of the collection.  The
    statements below on the order of a listing do not rely on that
    choice: they hold of every sorted arrangement, or are made for notes
    that do not tie. *)
Definition sortNotes (le : Note -> Note -> bool) (l : list Note) : list Note :=
  fold_right (insertSorted le) [] l.

(** [limit(n)] for a limit that is not negative, as are the limits that
    the router passes (1 to 100) and the default of [findUserNotes] (50);
    [limit(0)] asks for every document. *)
Definition applyLimit (limit : Z) (l : list Note) : list Note :=
  if limit =? 0 then l else firstn (Z.to_nat limit) l.

Definition applySkip (skip : Z) (l : list Note) : list Note :=
  skipn (Z.to_nat skip) l.

(** *** [noteSchema.statics.findUserNotes] *)

Record Options := mkOptions {
  o_category : option string;
  o_isPinned : option bool;
  o_isArchived : option bool;
  o_search : option string;
  o_limit : option Z;
  o_skip : option Z;
  o_sortBy : option string;
  o_sortOrder : option Z
}.

Definition dflt {A} (d : A) (o : option A) : A :=
  match o with Some a => a | None => d end.

(** [if (v) query.k = v] *)
Definition whenTruthy (o : option string) : option string :=
  if truthyOpt o then o else None.

(** The [query] object of [findUserNotes]. *)
Definition userNotesQuery (uid : ObjectId) (o : Options) : Filter :=
  mkFilter None (Some uid) (Some (dflt false (o_isArchived o)))
           (whenTruthy (o_category o))
           (o_isPinned o)
           (whenTruthy (o_search o)).

(** A query runs sort, then skip, then limit, in whatever order the three
    were chained. *)
Definition findUserNotes (uid : ObjectId) (o : Options) : M (list Note) :=
  (found <- find (userNotesQuery uid o) ;;
   ret (applyLimit (dflt 50 (o_limit o))
          (applySkip (dflt 0 (o_skip o))
             (sortNotes (sortLe (dflt "updatedAt" (o_sortBy o))
                                (dflt (-1) (o_sortOrder o)))
                        found))))%db.

(** *** [noteSchema.statics.getUserStats] *)

Record GroupDoc := mkGroupDoc {
  g_totalNotes : Z;
  g_pinnedNotes : Z;
  g_categoryCounts : list string
}.

Record Categories := mkCategories {
  personal : Z;
  work : Z;
  creative : Z;
  study : Z
}.

Record Stats := mkStats {
  totalNotes : Z;
  pinnedNotes : Z;
  categories : Categories
}.

(** [$match: {userId, isArchived: false}] *)
Definition statsMatch (uid : ObjectId) : Filter :=
  mkFilter None (Some uid) (Some false) None None None.

(** One step of the [$group] accumulators: [$sum: 1], [$sum: {$cond: ...}]
    and [$push: '$category']. *)
Definition groupStep (g : GroupDoc) (n : Note) : GroupDoc :=
  mkGroupDoc (g_totalNotes g + 1)
             (g_pinnedNotes g + (if Bool.eqb (isPinned n) true then 1 else 0))
             (g_categoryCounts g ++ [category n])%list.

(** [$group] with [_id: null]: one group when there is a document, none
    otherwise. *)
Definition stageGroup (docs : list Note) : list GroupDoc :=
  match docs with
  | [] => []
  | _ => [fold_left groupStep docs (mkGroupDoc 0 0 [])]
  end.

(** [$size] of [$filter] with [$eq: ['$$this', c]]. *)
Definition sizeOfEq (c : string) (l : list string) : Z :=
  Z.of_nat (List.length (filter (String.eqb c) l)).

Definition stageProject (g : GroupDoc) : Stats :=
  mkStats (g_totalNotes g) (g_pinnedNotes g)
          (mkCategories (sizeOfEq "personal" (g_categoryCounts g))
                        (sizeOfEq "work" (g_categoryCounts g))
                        (sizeOfEq "creative" (g_categoryCounts g))
                        (sizeOfEq "study" (g_categoryCounts g))).

Definition getUserStats (uid : ObjectId) : M (list Stats) :=
  (docs <- find (statsMatch uid) ;;
   ret (map stageProject (stageGroup docs)))%db.


(** ** The notes router ([routes/notes.js]) *)

Record Pagination := mkPagination {
  currentPage : Z;
  totalPages : Z;
  pg_totalNotes : Z;
  hasNextPage : bool;
  hasPrevPage : bool
}.

(** The [data] member of a success envelope. *)
Inductive Data :=
  | DNotes (notes : list Note) (pagination : Pagination)
  | DStats (stats : Stats)
  | DNote (note : Note)
  | DId (id : ObjectId)
  | DPinned (id : ObjectId) (pinned : bool)
  | DArchived (id : ObjectId) (archived : bool).

(** One entry of the error list that the validators hand to
    [handleValidationErrors]: the path of the offending value and the
    message. *)
Inductive Path :=
  | Field (name : string)
  | Elem (name : string) (index : nat).

Definition FieldError : Type := Path * string.

(** What a route answers: [res.status(st).json({message, data})],
    [res.status(st).json({error, message})], or the answer of
    [handleValidationErrors] to a non-empty error list. *)
Inductive Response :=
  | Success (status : Z) (message : string) (data : Data)
  | Failure (status : Z) (error : string) (message : string)
  | Invalid (errors : list FieldError).

(** *** Validation chains *)

Definition check (ok : bool) (p : Path) (msg : string) : list FieldError :=
  if ok then [] else [(p, msg)].

(** [.optional()]: the chain is skipped when the value is [undefined]. *)
Definition optional {A} (o : option A) (k : A -> list FieldError) : list FieldError :=
  match o with Some a => k a | None => [] end.

(** validator's [isBoolean] on a string. *)
Definition isBooleanStr (s : string) : bool := isIn s ["true"; "false"; "1"; "0"].

Fixpoint checkTags (i : nat) (l : list string) : list FieldError :=
  match l with
  | [] => []
  | t :: r =>
      (check (strLen t <=? 30) (Elem "tags" i)
             "Each tag must be 30 characters or less"
       ++ checkTags (S i) r)%list
  end.

Record CreateBody := mkCreateBody {
  b_title : option string;
  b_content : option string;
  b_category : option string;
  b_tags : option (list string);
  b_color : option string
}.

(** The sanitizers of [createNoteValidation] rewrite the body: [trim()] on
    [title], [content] and every element of [tags]; a sanitizer that is not
    behind [optional()] turns [undefined] into the empty string. *)
Definition sanitizeCreate (b : CreateBody) : CreateBody :=
  mkCreateBody (Some (trim (dflt "" (b_title b))))
               (Some (trim (dflt "" (b_content b))))
               (b_category b)
               (option_map (map trim) (b_tags b))
               (b_color b).

(** The validators of [createNoteValidation], run on the sanitized body. *)
Definition createNoteValidation (b : CreateBody) : list FieldError :=
  (check (between 1 200 (strLen (dflt "" (b_title b)))) (Field "title")
         "Title must be between 1 and 200 characters"
   ++ check (between 1 10000 (strLen (dflt "" (b_content b)))) (Field "content")
         "Content must be between 1 and 10,000 characters"
   ++ check (isIn (dflt "" (b_category b)) categoryEnum) (Field "category")
         "Category must be one of: personal, work, creative, study"
   ++ optional (b_tags b) (fun tags =>
        check (negb (10 <? Z.of_nat (List.length tags))) (Field "tags")
              "Cannot have more than 10 tags")
   ++ optional (b_tags b) (checkTags 0)
   ++ optional (b_color b) (fun c =>
        check (isHexColor c) (Field "color")
              "Color must be a valid hex color code"))%list.

Record ListQuery := mkListQuery {
  q_page : option Z;
  q_limit : option Z;
  q_category : option string;
  q_isPinned : option string;
  q_isArchived : option string;
  q_search : option string;
  q_sortBy : option string;
  q_sortOrder : option string
}.

(** [queryValidation]; [page] and [limit] are the integers their query
    strings denote. *)
Definition queryValidation (q : ListQuery) : list FieldError :=
  (optional (q_page q) (fun p =>
     check (1 <=? p) (Field "page") "Page must be a positive integer")
   ++ optional (q_limit q) (fun l =>
     check (between 1 100 l) (Field "limit") "Limit must be between 1 and 100")
   ++ optional (q_category q) (fun c =>
     check (isIn c categoryEnum) (Field "category")
           "Category must be one of: personal, work, creative, study")
   ++ optional (q_isPinned q) (fun b =>
     check (isBooleanStr b) (Field "isPinned") "isPinned must be a boolean")
   ++ optional (q_isArchived q) (fun b =>
     check (isBooleanStr b) (Field "isArchived") "isArchived must be a boolean")
   ++ optional (q_sortBy q) (fun k =>
     check (isIn k ["createdAt"; "updatedAt"; "title"]) (Field "sortBy")
           "sortBy must be one of: createdAt, updatedAt, title")
   ++ optional (q_sortOrder q) (fun o =>
     check (isIn o ["asc"; "desc"]) (Field "sortOrder")
           "sortOrder must be either asc or desc"))%list.

(** [handleValidationErrors] in front of a handler. *)
Definition validated (errors : list FieldError) (handler : M Response) : M Response :=
  match errors with
  | [] => handler
  | _ => ret (Invalid errors)
  end.

(** *** GET /api/notes *)

(** [Math.ceil(a / b)] on integers, [b] not zero. *)
Definition mathCeilDiv (a b : Z) : Z := - ((- a) / b).

(** The numbers of the handler are doubles.  An integer of magnitude up
    to 2^53 is a double; a larger one is rounded to 53 significant bits,
    to the nearest double, a tie going to the even significand.  (From
    2^1024 on the double is [Infinity], which lies outside this model.) *)
Definition roundDouble (z : Z) : Z :=
  let a := Z.abs z in
  if a <=? 2 ^ 53 then z
  else
    let ulp := 2 ^ (Z.log2 a - 52) in
    let m := a / ulp in
    let r := a mod ulp in
    let up := if (ulp <? 2 * r) || ((ulp =? 2 * r) && Z.odd m) then 1 else 0 in
    Z.sgn z * ((m + up) * ulp).

Arguments roundDouble : simpl never.

(** [parseInt] on the decimal numeral of an integer. *)
Definition parseInt (z : Z) : Z := roundDouble z.

(** [Number.MAX_SAFE_INTEGER] *)
Definition maxSafeInteger : Z := 2 ^ 53 - 1.

(** [page] and [limit] as the destructuring of [req.query] leaves them,
    with its defaults. *)
Definition pageParam (q : ListQuery) : Z := dflt 1 (q_page q).
Definition limitParam (q : ListQuery) : Z := dflt 20 (q_limit q).

(** [parseInt(page)] and [parseInt(limit)] *)
Definition pageOf (q : ListQuery) : Z := parseInt (pageParam q).
Definition limitOf (q : ListQuery) : Z := parseInt (limitParam q).

(** [(parseInt(page) - 1) * parseInt(limit)], each operation rounding its
    result. *)
Definition skipOf (q : ListQuery) : Z :=
  roundDouble (roundDouble (pageOf q - 1) * limitOf q).
Definition archivedOf (q : ListQuery) : bool :=
  String.eqb (dflt "false" (q_isArchived q)) "true".

(** The [options] object handed to [findUserNotes]. *)
Definition listOptions (q : ListQuery) : Options :=
  let skip := skipOf q in
  let sortDirection := if String.eqb (dflt "desc" (q_sortOrder q)) "desc" then -1 else 1 in
  mkOptions (q_category q)
            (option_map (fun b => String.eqb b "true") (q_isPinned q))
            (Some (archivedOf q))
            (q_search q)
            (Some (limitOf q))
            (Some skip)
            (Some (dflt "updatedAt" (q_sortBy q)))
            (Some sortDirection).

(** The [countQuery] object. *)
Definition countQuery (uid : ObjectId) (q : ListQuery) : Filter :=
  mkFilter None (Some uid) (Some (archivedOf q))
           (if truthyOpt (q_category q) then q_category q else None)
           (match q_isPinned q with
            | Some b => Some (String.eqb b "true")
            | None => None
            end)
           (if truthyOpt (q_search q) then q_search q else None).

Definition getNotes (uid : ObjectId) (q : ListQuery) : M Response :=
  (notes <- findUserNotes uid (listOptions q) ;;
   totalNotes <- countDocuments (countQuery uid q) ;;
   let totalPages := mathCeilDiv totalNotes (limitOf q) in
   ret (Success 200 "Notes retrieved successfully"
          (DNotes notes
             (mkPagination (pageOf q) totalPages totalNotes
                           (pageOf q <? totalPages)
                           (1 <? pageOf q)))))%db.

Definition route_getNotes (uid : ObjectId) (q : ListQuery) : M Response :=
  validated (queryValidation q) (getNotes uid q).

(** *** GET /api/notes/stats *)

Definition zeroStats : Stats := mkStats 0 0 (mkCategories 0 0 0 0).

(** [stats[0] || {...}]; a document is always truthy. *)
Definition getStats (uid : ObjectId) : M Response :=
  (stats <- getUserStats uid ;;
   ret (Success 200 "Statistics retrieved successfully"
          (DStats (match stats with st :: _ => st | [] => zeroStats end))))%db.

(** *** The routes on one note *)

(** [{_id: req.params.id, userId: req.user._id}] *)
Definition byIdAndOwner (id uid : ObjectId) : Filter :=
  mkFilter (Some id) (Some uid) None None None None.

Definition notFound (what : string) : Response :=
  Failure 404 "Note not found"
    ("The requested note does not exist or you do not have permission to "
       ++ what ++ " it.").

(** GET /api/notes/:id *)
Definition getNote (uid id : ObjectId) : M Response :=
  (note <- findOne (byIdAndOwner id uid) ;;
   match note with
   | None => ret (notFound "view")
   | Some note => ret (Success 200 "Note retrieved successfully" (DNote note))
   end)%db.

(** [new Note({...})]: setters and defaults of the schema. *)
Definition newNote (id : ObjectId) (now : Date) (title content : string)
    (category : option string) (tags : list string) (color : option string)
    (uid : ObjectId) : Note :=
  mkNote id (trim title) (trim content) (dflt "personal" category)
         (map trim tags) false false (dflt "#ffffff" color) uid now now.

(** POST /api/notes.  [title.trim()] on [undefined] throws, which the
    [catch] branch answers like a rejected [save()]. *)
Definition createNote (uid newId : ObjectId) (now : Date) (b : CreateBody) : M Response :=
  let failed := Failure 500 "Failed to create note"
                            "Unable to create note. Please try again." in
  match b_title b, b_content b with
  | Some title, Some content =>
      let note :=
        newNote newId now (trim title) (trim content) (b_category b)
                (match b_tags b with
                 | Some tags => filter truthy (map trim tags)
                 | None => []
                 end)
                (b_color b) uid in
      (saved <- saveNew now note ;;
       match saved with
       | Some note => ret (Success 201 "Note created successfully" (DNote note))
       | None => ret failed
       end)%db
  | _, _ => ret failed
  end.

Definition route_createNote (uid newId : ObjectId) (now : Date) (b : CreateBody) : M Response :=
  let b' := sanitizeCreate b in
  validated (createNoteValidation b') (createNote uid newId now b').

Record UpdateBody := mkUpdateBody {
  u_title : option string;
  u_content : option string;
  u_category : option string;
  u_tags : option (list string);
  u_isPinned : option bool;
  u_isArchived : option bool;
  u_color : option string
}.

(** The sanitizers of [updateNoteValidation]; each stands behind
    [optional()], so an absent field stays absent. *)
Definition sanitizeUpdate (b : UpdateBody) : UpdateBody :=
  mkUpdateBody (option_map trim (u_title b))
               (option_map trim (u_content b))
               (u_category b)
               (option_map (map trim) (u_tags b))
               (u_isPinned b)
               (u_isArchived b)
               (u_color b).

(** The validators of [updateNoteValidation], run on the sanitized body;
    [isBoolean] holds of every boolean. *)
Definition updateNoteValidation (b : UpdateBody) : list FieldError :=
  (optional (u_title b) (fun t =>
     check (between 1 200 (strLen t)) (Field "title")
           "Title must be between 1 and 200 characters")
   ++ optional (u_content b) (fun c =>
     check (between 1 10000 (strLen c)) (Field "content")
           "Content must be between 1 and 10,000 characters")
   ++ optional (u_category b) (fun c =>
     check (isIn c categoryEnum) (Field "category")
           "Category must be one of: personal, work, creative, study")
   ++ optional (u_tags b) (fun tags =>
     check (negb (10 <? Z.of_nat (List.length tags))) (Field "tags")
           "Cannot have more than 10 tags")
   ++ optional (u_tags b) (checkTags 0)
   ++ optional (u_isPinned b) (fun _ =>
     check true (Field "isPinned") "isPinned must be a boolean")
   ++ optional (u_isArchived b) (fun _ =>
     check true (Field "isArchived") "isArchived must be a boolean")
   ++ optional (u_color b) (fun c =>
     check (isHexColor c) (Field "color")
           "Color must be a valid hex color code"))%list.

(** [if (v !== undefined) note.k = v] *)
Definition assign {A} (set : A -> Note -> Note) (v : option A) (n : Note) : Note :=
  match v with Some a => set a n | None => n end.

(** The assignments of PUT /api/notes/:id, in the order of the source. *)
Definition applyUpdate (b : UpdateBody) (note : Note) : Note :=
  let note := assign set_title (option_map trim (u_title b)) note in
  let note := assign set_content (option_map trim (u_content b)) note in
  let note := assign set_category (u_category b) note in
  let note := assign set_tags
                (option_map (fun tags => filter truthy (map trim tags)) (u_tags b))
                note in
  let note := assign set_isPinned (u_isPinned b) note in
  let note := assign set_isArchived (u_isArchived b) note in
  assign set_color (u_color b) note.

(** PUT /api/notes/:id *)
Definition updateNote (uid id : ObjectId) (now : Date) (b : UpdateBody) : M Response :=
  (note <- findOne (byIdAndOwner id uid) ;;
   match note with
   | None => ret (notFound "update")
   | Some note =>
       saved <- save now (applyUpdate b note) ;;
       match saved with
       | Some note => ret (Success 200 "Note updated successfully" (DNote note))
       | None => ret (Failure 500 "Failed to update note"
                                  "Unable to update note. Please try again.")
       end
   end)%db.

Definition route_updateNote (uid id : ObjectId) (now : Date) (b : UpdateBody) : M Response :=
  let b' := sanitizeUpdate b in
  validated (updateNoteValidation b') (updateNote uid id now b').

(** DELETE /api/notes/:id *)
Definition deleteNote (uid id : ObjectId) : M Response :=
  (note <- findOneAndDelete (byIdAndOwner id uid) ;;
   match note with
   | None => ret (notFound "delete")
   | Some note => ret (Success 200 "Note deleted successfully" (DId (_id note)))
   end)%db.

(** POST /api/notes/:id/pin *)
Definition togglePin (uid id : ObjectId) (now : Date) : M Response :=
  (note <- findOne (byIdAndOwner id uid) ;;
   match note with
   | None => ret (notFound "modify")
   | Some note =>
       saved <- save now (set_isPinned (negb (isPinned note)) note) ;;
       match saved with
       | Some note =>
           ret (Success 200
                  ("Note " ++ (if isPinned note then "pinned" else "unpinned")
                     ++ " successfully")
                  (DPinned (_id note) (isPinned note)))
       | None => ret (Failure 500 "Failed to pin/unpin note"
                                  "Unable to modify note. Please try again.")
       end
   end)%db.

(** POST /api/notes/:id/archive *)
Definition toggleArchive (uid id : ObjectId) (now : Date) : M Response :=
  (note <- findOne (byIdAndOwner id uid) ;;
   match note with
   | None => ret (notFound "modify")
   | Some note =>
       saved <- save now (set_isArchived (negb (isArchived note)) note) ;;
       match saved with
       | Some note =>
           ret (Success 200
                  ("Note " ++ (if isArchived note then "archived" else "unarchived")
                     ++ " successfully")
                  (DArchived (_id note) (isArchived note)))
       | None => ret (Failure 500 "Failed to archive/unarchive note"
                                  "Unable to modify note. Please try again.")
       end
   end)%db.

(** The five routes that address one note, as the router dispatches them
    once [idValidation] and the body validators have let the request
    through. *)
Inductive NoteOp :=
  | GetById
  | Update (b : UpdateBody)
  | Delete
  | TogglePin
  | ToggleArchive.

Definition perNote (op : NoteOp) (uid id : ObjectId) (now : Date) : M Response :=
  match op with
  | GetById => getNote uid id
  | Update b => updateNote uid id now b
  | Delete => deleteNote uid id
  | TogglePin => togglePin uid id now
  | ToggleArchive => toggleArchive uid id now
  end.

(** The verb in the 404 message of each route. *)
Definition verbOf (op : NoteOp) : string :=
  match op with
  | GetById => "view"
  | Update _ => "update"
  | Delete => "delete"
  | TogglePin | ToggleArchive => "modify"
  end.

(** No two documents of a collection share an [_id]. *)
Fixpoint uniqueIds (s : Store) : bool :=
  match s with
  | [] => true
  | x :: r => negb (existsb (fun y => N.eqb (_id y) (_id x)) r) && uniqueIds r
  end.

(** The shape that the notes collection has from the empty collection on:
    unique ids, and every document valid under the schema. *)
Definition wellFormed (s : Store) : bool :=
  uniqueIds s && forallb schemaValid s.

(** ** The authentication router ([routes/auth.js]) *)

Record User := mkUser {
  user_id : ObjectId;
  firstName : string;
  lastName : string;
  email : string;
  password : string;
  isActive : bool;
  lastLogin : option Date
}.

Definition Users := list User.
Definition MU : Type -> Type := State Users.

(** What the router takes from outside the sources: validator's [isEmail]
    and [normalizeEmail], the static [User.findByEmail] and the methods
    [comparePassword] and [getFullName] of the User model, and
    [jwt.sign] under the configured secret and expiry. *)
Variable isEmail : string -> bool.
Variable normalizeEmail : string -> string.
Variable findByEmail : string -> Users -> option User.
Variable comparePassword : User -> string -> bool.
Variable getFullName : User -> string.
Variable jwtSign : ObjectId -> Date -> string.

Record UserSummary := mkUserSummary {
  sum_id : ObjectId;
  sum_firstName : string;
  sum_lastName : string;
  sum_email : string;
  sum_fullName : string;
  sum_lastLogin : option Date
}.

Inductive AuthResponse :=
  | AuthSuccess (status : Z) (message : string) (token : string) (user : UserSummary)
  | AuthMessage (status : Z) (message : string)
  | AuthFailure (status : Z) (error : string) (message : string)
  | AuthInvalid (errors : list FieldError).

Definition generateToken (userId : ObjectId) (now : Date) : string :=
  jwtSign userId now.

(** [user.save()]: the stored document of the same id is overwritten. *)
Fixpoint replaceUser (u : User) (s : Users) : Users :=
  match s with
  | [] => []
  | x :: r => if N.eqb (user_id x) (user_id u) then u :: r else x :: replaceUser u r
  end.

Definition saveUser (u : User) : MU User :=
  fun s => (u, replaceUser u s).

Definition set_lastLogin (d : Date) (u : User) : User :=
  mkUser (user_id u) (firstName u) (lastName u) (email u) (password u)
         (isActive u) (Some d).

Record LoginBody := mkLoginBody {
  l_email : option string;
  l_password : option string
}.

(** [loginValidation]: [isEmail] sees the address as sent, [normalizeEmail]
    then rewrites it. *)
Definition loginValidation (b : LoginBody) : list FieldError :=
  (check (isEmail (dflt "" (l_email b))) (Field "email")
         "Please provide a valid email address"
   ++ check (truthy (dflt "" (l_password b))) (Field "password")
         "Password is required")%list.

Definition invalidCredentials : AuthResponse :=
  AuthFailure 400 "Invalid credentials" "Invalid email or password.".

Definition accountDeactivated : AuthResponse :=
  AuthFailure 400 "Account deactivated"
    "Your account has been deactivated. Please contact support.".

(** POST /api/auth/login *)
Definition login (now : Date) (reqEmail reqPassword : string) : MU AuthResponse :=
  fun s =>
    match findByEmail reqEmail s with
    | None => (invalidCredentials, s)
    | Some user =>
        if negb (isActive user) then (accountDeactivated, s)
        else if negb (comparePassword user reqPassword) then (invalidCredentials, s)
        else
          (user <- saveUser (set_lastLogin now user) ;;
           let token := generateToken (user_id user) now in
           ret (AuthSuccess 200 "Login successful" token
                  (mkUserSummary (user_id user) (firstName user) (lastName user)
                                 (email user) (getFullName user)
                                 (lastLogin user))))%db s
    end.

Definition route_login (now : Date) (b : LoginBody) : MU AuthResponse :=
  match loginValidation b with
  | [] => login now (normalizeEmail (dflt "" (l_email b))) (dflt "" (l_password b))
  | errors => ret (AuthInvalid errors)
  end.

Definition resetRequested : AuthResponse :=
  AuthMessage 200
    "If an account with that email exists, a password reset link has been sent.".

(** POST /api/auth/forgot-password.  Next to the answer stands what the
    handler writes to the console. *)
Definition forgotPassword (reqEmail : string) : MU (AuthResponse * list string) :=
  fun s =>
    let user := findByEmail reqEmail s in
    let res := resetRequested in
    match user with
    | Some user =>
        ((res, ["Password reset requested for user: " ++ email user]), s)
    | None => ((res, []), s)
    end.

Definition route_forgotPassword (reqEmail : option string) : MU (AuthResponse * list string) :=
  match check (isEmail (dflt "" reqEmail)) (Field "email")
              "Please provide a valid email address" with
  | [] => forgotPassword (normalizeEmail (dflt "" reqEmail))
  | errors => ret (AuthInvalid errors, [])
  end.

(** ** Statistics as specified *)

Definition countWhere (p : Note -> bool) (l : list Note) : Z :=
  Z.of_nat (List.length (filter p l)).

(** The notes of a user that are not archived. *)
Definition activeNotes (uid : ObjectId) (s : Store) : list Note :=
  filter (fun n => N.eqb (userId n) uid && negb (isArchived n)) s.

(** Statistics as the specification words them: the count of the user's
    unarchived notes, the count of the pinned ones among them, and one
    count for each of the four categories. *)
Definition statisticsSpec (uid : ObjectId) (s : Store) : Stats :=
  let own := activeNotes uid s in
  mkStats (Z.of_nat (List.length own))
          (countWhere isPinned own)
          (mkCategories
             (countWhere (fun n => String.eqb (category n) "personal") own)
             (countWhere (fun n => String.eqb (category n) "work") own)
             (countWhere (fun n => String.eqb (category n) "creative") own)
             (countWhere (fun n => String.eqb (category n) "study") own)).

(** ** Sample data *)

(** Stand-ins for what the routers take from outside the sources. *)
Definition sampleTextMatch (term : string) (n : Note) : bool :=
  String.eqb term (title n) || existsb (String.eqb term) (tags n).

Definition sampleIsEmail (s : string) : bool :=
  existsb (Ascii.eqb "@"%char) (list_ascii_of_string s).

Definition lowerChar (c : ascii) : ascii :=
  let n := nat_of_ascii c in
  if ((65 <=? n)%nat && (n <=? 90)%nat)%bool then ascii_of_nat (n + 32) else c.

Definition sampleNormalizeEmail (s : string) : string :=
  string_of_list_ascii (map lowerChar (list_ascii_of_string s)).

Definition sampleFindByEmail (e : string) (us : Users) : option User :=
  List.find (fun u => String.eqb (email u) e) us.

Definition sampleComparePassword (u : User) (p : string) : bool :=
  String.eqb (password u) ("hash of " ++ p)%string.

Definition sampleFullName (u : User) : string :=
  (firstName u ++ " " ++ lastName u)%string.

Definition sampleJwtSign (id : ObjectId) (now : Date) : string := "signed"%string.

(** A note of user [uid] with every field at a plain value. *)
Definition plainNote (id uid : ObjectId) : Note :=
  mkNote id "Shopping" "Milk and bread" "personal" ["home"; "food"] false false
         "#ffffff" uid 1000 1000.

(** Twenty-five unarchived notes of user 1, one archived note of user 1
    and one note of user 2. *)
Definition sampleStore : Store :=
  (map (fun i => plainNote (N.of_nat i) 1) (seq 1 25)
  ++ [set_isArchived true (plainNote 26 1); plainNote 27 2])%list.

Definition pageThree : ListQuery :=
  mkListQuery (Some 3) (Some 10) None None None None None None.

Definition sampleUsers : Users :=
  [ mkUser 1 "Ada" "Byron" "ada@example.com" "hash of Enchantress1" true None;
    mkUser 2 "Bob" "Stone" "bob@example.com" "hash of Quarry22" false (Some 500) ].

Definition onlyPinned : UpdateBody :=
  mkUpdateBody None None None None (Some true) None None.

Definition tenTags : list string :=
  ["work"; " work "; "work"; "   "; ""; "a"; "b"; "c"; "d"; "e"]%string.

Definition createWith (sent : list string) : CreateBody :=
  mkCreateBody (Some "  Plan "%string) (Some "Quarter goals"%string)
               (Some "work"%string) (Some sent) None.


(** ** Instance methods of the Note model ([models/Note.js]) *)

(** [this.tags.push(tag)]: the element is cast by the schema of the array,
    which trims it. *)
Definition push_tag (tag : string) (n : Note) : Note :=
  mkNote (_id n) (title n) (content n) (category n) (tags n ++ [trim tag])%list
         (isPinned n) (isArchived n) (color n) (userId n) (createdAt n)
         (updatedAt n).

(** [noteSchema.methods.addTag] *)
Definition addTag (tag : string) (n : Note) : Note :=
  if truthy tag && negb (existsb (String.eqb tag) (tags n))
  then push_tag tag n
  else n.

(** [noteSchema.methods.removeTag] *)
Definition removeTag (tag : string) (n : Note) : Note :=
  set_tags (filter (fun t => negb (String.eqb t tag)) (tags n)) n.

(** The tags that the validators of the router let into a note: at most
    ten, each trimmed, not empty and at most 30 characters long. *)
Definition tagsNormal (n : Note) : bool :=
  (Z.of_nat (List.length (tags n)) <=? 10)
  && forallb (fun t => truthy t && String.eqb (trim t) t && (strLen t <=? 30)) (tags n).

(** ** Reading a listing *)

(** The notes of a listing answer. *)
Definition notesOf (r : Response) : list Note :=
  match r with
  | Success _ _ (DNotes notes _) => notes
  | _ => []
  end.

(** The pagination block of a listing answer. *)
Definition paginationOf (r : Response) : option Pagination :=
  match r with
  | Success _ _ (DNotes _ pg) => Some pg
  | _ => None
  end.

(** The same request for another page. *)
Definition withPage (p : Z) (q : ListQuery) : ListQuery :=
  mkListQuery (Some p) (q_limit q) (q_category q) (q_isPinned q)
              (q_isArchived q) (q_search q) (q_sortBy q) (q_sortOrder q).

Definition withArchived (v : option string) (q : ListQuery) : ListQuery :=
  mkListQuery (q_page q) (q_limit q) (q_category q) (q_isPinned q)
              v (q_search q) (q_sortBy q) (q_sortOrder q).

Definition withPinned (v : option string) (q : ListQuery) : ListQuery :=
  mkListQuery (q_page q) (q_limit q) (q_category q) v
              (q_isArchived q) (q_search q) (q_sortBy q) (q_sortOrder q).

Definition withSearch (v : option string) (q : ListQuery) : ListQuery :=
  mkListQuery (q_page q) (q_limit q) (q_category q) (q_isPinned q)
              (q_isArchived q) v (q_sortBy q) (q_sortOrder q).

Definition withCategory (v : option string) (q : ListQuery) : ListQuery :=
  mkListQuery (q_page q) (q_limit q) v (q_isPinned q)
              (q_isArchived q) (q_search q) (q_sortBy q) (q_sortOrder q).

(** The request without any parameter. *)
Definition plainQuery : ListQuery :=
  mkListQuery None None None None None None None None.

(** The sort direction that the listing handler derives from [sortOrder]. *)
Definition directionOf (q : ListQuery) : Z :=
  if String.eqb (dflt "desc" (q_sortOrder q)) "desc" then -1 else 1.

(** All notes that a listing request selects, in the order of the
    listing, before skip and limit. *)
Definition selected (uid : ObjectId) (q : ListQuery) (s : Store) : list Note :=
  sortNotes (sortLe (dflt "updatedAt" (q_sortBy q)) (directionOf q))
            (filter (matches (userNotesQuery uid (listOptions q))) s).

(** The [totalNotes] of the pagination block of a listing answer. *)
Definition totalOf (r : Response) : Z :=
  match paginationOf r with
  | Some pg => pg_totalNotes pg
  | None => 0
  end.

(** The total of the statistics answer. *)
Definition statsOf (r : Response) : option Stats :=
  match r with
  | Success _ _ (DStats st) => Some st
  | _ => None
  end.

(** ** The password pattern *)

(** A character that [.] does not match. *)
Definition isLineTerminator (c : ascii) : bool :=
  let n := nat_of_ascii c in (n =? 10)%nat || (n =? 13)%nat.

Definition isLower (c : ascii) : bool :=
  let n := nat_of_ascii c in (97 <=? n)%nat && (n <=? 122)%nat.

Definition isUpper (c : ascii) : bool :=
  let n := nat_of_ascii c in (65 <=? n)%nat && (n <=? 90)%nat.

Definition isDigit (c : ascii) : bool :=
  let n := nat_of_ascii c in (48 <=? n)%nat && (n <=? 57)%nat.

(** The lookahead [(?=.*[x])] at the head of [l]: a character of the
    class, with none but characters that [.] matches before it. *)
Fixpoint aheadOnLine (p : ascii -> bool) (l : list ascii) : bool :=
  match l with
  | [] => false
  | c :: r => p c || (negb (isLineTerminator c) && aheadOnLine p r)
  end.

(** [(?=.*[a-z])(?=.*[A-Z])(?=.*\d)] at the head of [l]. *)
Definition strongAt (l : list ascii) : bool :=
  aheadOnLine isLower l && aheadOnLine isUpper l && aheadOnLine isDigit l.

(** The pattern has no anchor: it is tried at every position. *)
Fixpoint strongSomewhere (l : list ascii) : bool :=
  strongAt l
  || match l with
     | [] => false
     | _ :: r => strongSomewhere r
     end.

(** [/(?=.*[a-z])(?=.*[A-Z])(?=.*\d)/.test(s)] *)
Definition passwordPattern (s : string) : bool :=
  strongSomewhere (list_ascii_of_string s).

(** ** The users router ([routes/users.js]) *)

(** What the User model does to a password on [save()], and the clock
    arithmetic of the dashboard (midnight of the day of a date in the
    time zone of the server, and the midnight after it), are outside the
    sources. *)
Variable hashPassword : string -> string.
Variable startOfDay : Date -> Date.
Variable nextDay : Date -> Date.

(** [User.findById] *)
Definition findById (id : ObjectId) : MU (option User) :=
  fun s => (List.find (fun u => N.eqb (user_id u) id) s, s).

Record PasswordBody := mkPasswordBody {
  c_currentPassword : option string;
  c_newPassword : option string;
  c_confirmPassword : option string
}.

Definition optionEqb (a b : option string) : bool :=
  match a, b with
  | Some x, Some y => String.eqb x y
  | None, None => true
  | _, _ => false
  end.

(** [changePasswordValidation] *)
Definition changePasswordValidation (b : PasswordBody) : list FieldError :=
  (check (truthy (dflt "" (c_currentPassword b))) (Field "currentPassword")
         "Current password is required"
   ++ check (8 <=? strLen (dflt "" (c_newPassword b))) (Field "newPassword")
         "New password must be at least 8 characters long"
   ++ check (passwordPattern (dflt "" (c_newPassword b))) (Field "newPassword")
         "New password must contain at least one uppercase letter, one lowercase letter, and one number"
   ++ check (optionEqb (c_confirmPassword b) (c_newPassword b)) (Field "confirmPassword")
         "Password confirmation does not match new password")%list.

(** The data of an answer of the users router. *)
Record NoteSummary := mkNoteSummary {
  ns_id : ObjectId;
  ns_title : string;
  ns_content : string;
  ns_category : string;
  ns_updatedAt : Date
}.

Record DashboardUser := mkDashboardUser {
  du_id : ObjectId;
  du_fullName : string;
  du_email : string;
  du_lastLogin : option Date
}.

Record Dashboard := mkDashboard {
  d_user : DashboardUser;
  d_statistics : Stats;
  d_todayActivity : Z;
  d_recentNotes : list NoteSummary;
  d_pinnedNotes : list NoteSummary
}.

Inductive UserResponse :=
  | UserMessage (status : Z) (message : string)
  | UserNotice (status : Z) (message : string) (notice : string)
  | UserDashboard (status : Z) (message : string) (data : Dashboard)
  | UserFailure (status : Z) (error : string) (message : string)
  | UserInvalid (errors : list FieldError).

Definition set_password (p : string) (u : User) : User :=
  mkUser (user_id u) (firstName u) (lastName u) (email u) p
         (isActive u) (lastLogin u).


Definition passwordChanged : UserResponse :=
  UserMessage 200 "Password changed successfully".

(** POST /api/users/change-password.  The user is read again by id; a
    missing document makes [comparePassword] throw, which the [catch]
    branch answers.  Saving a document whose password was assigned
    stores the hash of it. *)
Definition changePassword (uid : ObjectId) (currentPassword newPassword : string)
  : MU UserResponse :=
  (user <- findById uid ;;
   match user with
   | None => ret (UserFailure 500 "Failed to change password"
                              "Unable to change password. Please try again.")
   | Some user =>
       if negb (comparePassword user currentPassword) then
         ret (UserFailure 400 "Invalid current password"
                          "The current password you entered is incorrect.")
       else if comparePassword user newPassword then
         ret (UserFailure 400 "Same password"
                          "New password must be different from your current password.")
       else
         (_ <- saveUser (set_password (hashPassword newPassword) user) ;;
          ret passwordChanged)
   end)%db.

Definition route_changePassword (uid : ObjectId) (b : PasswordBody) : MU UserResponse :=
  match changePasswordValidation b with
  | [] => changePassword uid (dflt "" (c_currentPassword b)) (dflt "" (c_newPassword b))
  | errors => ret (UserInvalid errors)
  end.


(** [.select('title content category updatedAt')] *)
Definition summaryOf (n : Note) : NoteSummary :=
  mkNoteSummary (_id n) (title n) (content n) (category n) (updatedAt n).

(** [{userId, updatedAt: {$gte: today, $lt: tomorrow}}] *)
Definition updatedWithin (uid : ObjectId) (today tomorrow : Date) (n : Note) : bool :=
  N.eqb (userId n) uid && (today <=? updatedAt n) && (updatedAt n <? tomorrow).

(** [Note.find(q).sort({updatedAt: -1}).limit(5)] *)
Definition newestFive (q : Filter) : M (list Note) :=
  (found <- find q ;;
   ret (applyLimit 5 (sortNotes (sortLe "updatedAt" (-1)) found)))%db.

(** GET /api/users/dashboard, for the document [user] that the
    authentication put on the request, at the time [now]. *)
Definition getDashboard (user : User) (now : Date) : M UserResponse :=
  let userId := user_id user in
  (stats <- getUserStats userId ;;
   let userStats := match stats with st :: _ => st | [] => zeroStats end in
   recentNotes <- newestFive (mkFilter None (Some userId) (Some false) None None None) ;;
   pinnedNotes <- newestFive (mkFilter None (Some userId) (Some false) None (Some true) None) ;;
   let today := startOfDay now in
   let tomorrow := nextDay today in
   todayActivity <- (fun s => (Z.of_nat (List.length
                                 (filter (updatedWithin userId today tomorrow) s)), s)) ;;
   ret (UserDashboard 200 "Dashboard data retrieved successfully"
          (mkDashboard
             (mkDashboardUser (user_id user) (getFullName user) (email user)
                              (lastLogin user))
             userStats todayActivity
             (map summaryOf recentNotes) (map summaryOf pinnedNotes))))%db.

(** ** Registration: the validators of the server and the form of the client *)

Record RegisterBody := mkRegisterBody {
  r_firstName : option string;
  r_lastName : option string;
  r_email : option string;
  r_password : option string
}.

(** The sanitizers of [registerValidation]: [trim()] on the names, and
    [normalizeEmail()] on the address once [isEmail] has seen it. *)
Definition sanitizeRegister (b : RegisterBody) : RegisterBody :=
  mkRegisterBody (Some (trim (dflt "" (r_firstName b))))
                 (Some (trim (dflt "" (r_lastName b))))
                 (Some (normalizeEmail (dflt "" (r_email b))))
                 (r_password b).

(** The validators of [registerValidation] ([routes/auth.js]); the names
    are checked trimmed, the address as sent. *)
Definition registerValidation (b : RegisterBody) : list FieldError :=
  (check (between 2 50 (strLen (trim (dflt "" (r_firstName b))))) (Field "firstName")
         "First name must be between 2 and 50 characters"
   ++ check (between 2 50 (strLen (trim (dflt "" (r_lastName b))))) (Field "lastName")
         "Last name must be between 2 and 50 characters"
   ++ check (isEmail (dflt "" (r_email b))) (Field "email")
         "Please provide a valid email address"
   ++ check (8 <=? strLen (dflt "" (r_password b))) (Field "password")
         "Password must be at least 8 characters long"
   ++ check (passwordPattern (dflt "" (r_password b))) (Field "password")
         "Password must contain at least one uppercase letter, one lowercase letter, and one number")%list.

(** [String.prototype.toLowerCase] on code units below 256: the letters
    A to Z and the capital letters of Latin-1 (192 to 222 without 215). *)
Definition lowerUnit (c : ascii) : ascii :=
  let n := nat_of_ascii c in
  if ((65 <=? n)%nat && (n <=? 90)%nat)
     || ((192 <=? n)%nat && (n <=? 222)%nat && negb (n =? 215)%nat)
  then ascii_of_nat (n + 32)
  else c.

Definition toLowerCase (s : string) : string :=
  string_of_list_ascii (map lowerUnit (list_ascii_of_string s)).

(** The rest of [/\S+@\S+\.\S+/] after the [@]: a run of characters that
    are not white space, at least one of them before a dot that another
    such character follows; [seen] tells that the run has begun. *)
Fixpoint afterAt (seen : bool) (l : list ascii) : bool :=
  match l with
  | c1 :: ((c2 :: _) as r) =>
      negb (isSpace c1)
      && ((seen && Ascii.eqb c1 "." && negb (isSpace c2)) || afterAt true r)
  | _ => false
  end.

(** [/\S+@\S+\.\S+/.test(s)]: somewhere a character that is not white
    space, then [@], then the rest. *)
Fixpoint emailShapeIn (l : list ascii) : bool :=
  match l with
  | c0 :: ((c1 :: r) as t) =>
      (negb (isSpace c0) && Ascii.eqb c1 "@" && afterAt false r)
      || emailShapeIn t
  | _ => false
  end.

Definition emailShape (s : string) : bool := emailShapeIn (list_ascii_of_string s).

(** The state of the sign-up form ([Signup.jsx]). *)
Record SignupForm := mkSignupForm {
  s_firstName : string;
  s_lastName : string;
  s_email : string;
  s_password : string;
  s_confirmPassword : string
}.

(** One member of the [newErrors] object, if the condition of its branch
    holds. *)
Definition errorIf (cond : bool) (key msg : string) : list (string * string) :=
  if cond then [(key, msg)] else [].

(** [validateForm] of the sign-up page: the members of [newErrors], in the
    order they are assigned. *)
Definition signupValidateForm (f : SignupForm) (agreedToTerms : bool)
  : list (string * string) :=
  ((if negb (truthy (trim (s_firstName f)))
    then [("firstName", "First name is required")]
    else errorIf (strLen (trim (s_firstName f)) <? 2) "firstName"
                 "First name must be at least 2 characters")
   ++ (if negb (truthy (trim (s_lastName f)))
       then [("lastName", "Last name is required")]
       else errorIf (strLen (trim (s_lastName f)) <? 2) "lastName"
                    "Last name must be at least 2 characters")
   ++ (if negb (truthy (s_email f))
       then [("email", "Email is required")]
       else errorIf (negb (emailShape (s_email f))) "email" "Email is invalid")
   ++ (if negb (truthy (s_password f))
       then [("password", "Password is required")]
       else if strLen (s_password f) <? 8
       then [("password", "Password must be at least 8 characters")]
       else errorIf (negb (passwordPattern (s_password f))) "password"
                    "Password must contain at least one uppercase letter, one lowercase letter, and one number")
   ++ (if negb (truthy (s_confirmPassword f))
       then [("confirmPassword", "Please confirm your password")]
       else errorIf (negb (String.eqb (s_password f) (s_confirmPassword f)))
                    "confirmPassword" "Passwords do not match")
   ++ errorIf (negb agreedToTerms) "terms"
              "You must agree to the terms and conditions")%list.

(** The body that [handleSubmit] of the sign-up page posts. *)
Definition signupBody (f : SignupForm) : RegisterBody :=
  mkRegisterBody (Some (trim (s_firstName f))) (Some (trim (s_lastName f)))
                 (Some (toLowerCase (s_email f))) (Some (s_password f)).

(** The state of the login form and its [validateForm] ([Login.jsx]). *)
Record LoginForm := mkLoginForm {
  lf_email : string;
  lf_password : string
}.

Definition loginValidateForm (f : LoginForm) : list (string * string) :=
  ((if negb (truthy (lf_email f))
    then [("email", "Email is required")]
    else errorIf (negb (emailShape (lf_email f))) "email" "Email is invalid")
   ++ (if negb (truthy (lf_password f))
       then [("password", "Password is required")]
       else errorIf (strLen (lf_password f) <? 6) "password"
                    "Password must be at least 6 characters"))%list.

(** The body that [handleSubmit] of the login page posts. *)
Definition loginBody (f : LoginForm) : LoginBody :=
  mkLoginBody (Some (toLowerCase (lf_email f))) (Some (lf_password f)).

(** ** The client: token storage and authentication state
       ([services/api.js], [context/AuthContext.jsx]) *)

(** The user value that the client keeps, with [JSON.stringify] and
    [JSON.parse] on it; [parseJSON] gives [None] where [JSON.parse]
    throws.  [toBoolean] is the truthiness of such a value: an object is
    truthy, [null], [false], [0] and the empty string are not. *)
Variable ClientUser : Type.
Variable stringify : ClientUser -> string.
Variable parseJSON : string -> option ClientUser.
Variable toBoolean : ClientUser -> bool.

(** [localStorage] *)
Definition Storage : Type := string -> option string.

Definition getItem (k : string) (st : Storage) : option string := st k.

Definition setItem (k v : string) (st : Storage) : Storage :=
  fun k' => if String.eqb k' k then Some v else st k'.

Definition removeItem (k : string) (st : Storage) : Storage :=
  fun k' => if String.eqb k' k then None else st k'.

Definition emptyStorage : Storage := fun _ => None.

(** [tokenManager] *)
Definition setToken (token : string) (st : Storage) : Storage :=
  setItem "keepnotes_token" token st.

Definition getToken (st : Storage) : option string :=
  getItem "keepnotes_token" st.

Definition removeToken (st : Storage) : Storage :=
  removeItem "keepnotes_user" (removeItem "keepnotes_token" st).

Definition setUser (user : ClientUser) (st : Storage) : Storage :=
  setItem "keepnotes_user" (stringify user) st.

(** What [getUser] comes to: [null], a user, or the exception of
    [JSON.parse]. *)
Inductive StoredUser :=
  | NoUser
  | TheUser (u : ClientUser)
  | Unreadable.

Definition getUser (st : Storage) : StoredUser :=
  match getItem "keepnotes_user" st with
  | Some user =>
      if truthy user
      then match parseJSON user with
           | Some u => TheUser u
           | None => Unreadable
           end
      else NoUser
  | None => NoUser
  end.

(** The request interceptor: the [Authorization] header it sets, if any. *)
Definition authorizationHeader (st : Storage) : option string :=
  match getToken st with
  | Some token => if truthy token then Some ("Bearer " ++ token) else None
  | None => None
  end.

(** The response interceptor: what an answer of the given status does to
    the storage. *)
Definition onResponseError (status : Z) (st : Storage) : Storage :=
  if status =? 401
  then removeItem "keepnotes_user" (removeItem "keepnotes_token" st)
  else st.

(** The state of [AuthProvider]. *)
Record AuthState := mkAuthState {
  a_user : option ClientUser;
  a_isAuthenticated : bool;
  a_isLoading : bool
}.

Definition initialAuth : AuthState := mkAuthState None false true.

(** The effect run when the application starts, with its test
    [token && userData]; [None] when [getUser] throws. *)
Definition authOnStart (st : Storage) (a : AuthState) : option AuthState :=
  match getUser st with
  | Unreadable => None
  | TheUser userData =>
      if truthyOpt (getToken st) && toBoolean userData
      then Some (mkAuthState (Some userData) true false)
      else Some (mkAuthState (a_user a) (a_isAuthenticated a) false)
  | NoUser => Some (mkAuthState (a_user a) (a_isAuthenticated a) false)
  end.

(** [login] and [logout] of the context, on the storage and the state. *)
Definition authLogin (token : string) (userData : ClientUser)
    (st : Storage) (a : AuthState) : Storage * AuthState :=
  (setUser userData (setToken token st),
   mkAuthState (Some userData) true (a_isLoading a)).

Definition authLogout (st : Storage) (a : AuthState) : Storage * AuthState :=
  (removeToken st, mkAuthState None false (a_isLoading a)).

(** ** The client: the home page ([pages/Home.jsx]) *)

Fixpoint startsWith (l sub : list ascii) : bool :=
  match sub, l with
  | [], _ => true
  | _ :: _, [] => false
  | c :: sub', d :: l' => Ascii.eqb d c && startsWith l' sub'
  end.

Fixpoint includesIn (l sub : list ascii) : bool :=
  startsWith l sub
  || match l with
     | [] => false
     | _ :: r => includesIn r sub
     end.

(** [String.prototype.includes] *)
Definition includes (s sub : string) : bool :=
  includesIn (list_ascii_of_string s) (list_ascii_of_string sub).

(** [filteredNotes] *)
Definition filteredNotes (notes : list Note) (searchTerm : string) : list Note :=
  filter (fun note =>
            includes (toLowerCase (title note)) (toLowerCase searchTerm)
            || includes (toLowerCase (content note)) (toLowerCase searchTerm)
            || includes (toLowerCase (category note)) (toLowerCase searchTerm))
         notes.

(** [loadNotes]: the list that the page keeps after
    [notesAPI.getAllNotes()], a request without parameters, was answered
    by the server. *)
Definition loadNotes (uid : ObjectId) (s : Store) : list Note :=
  notesOf (fst (route_getNotes uid plainQuery s)).

(** The updates of the list in [handleCreateNote], [handleDeleteNote] and
    [handleUpdateNote], once the server has answered. *)
Definition afterCreate (createdNote : Note) (prev : list Note) : list Note :=
  createdNote :: prev.

Definition afterDelete (noteId : ObjectId) (prev : list Note) : list Note :=
  filter (fun note => negb (N.eqb (_id note) noteId)) prev.

Definition afterUpdate (noteId : ObjectId) (updated : Note) (prev : list Note) : list Note :=
  map (fun note => if N.eqb (_id note) noteId then updated else note) prev.

(** ** More sample data *)

Definition threeNotes : Store :=
  ([plainNote 5 2] ++ plainNote 7 1 :: [plainNote 9 1])%list.

(** Five notes of user 1, each updated at another time, and a listing of
    two notes a page. *)
Definition datedNotes : Store :=
  map (fun i => set_updatedAt (Z.of_nat i) (plainNote (N.of_nat i) 1)) (seq 1 5).

Definition twoPerPage : ListQuery :=
  mkListQuery None (Some 2) None None None None None None.

Definition ada : User :=
  mkUser 1 "Ada" "Byron" "ada@example.com" "hash of Enchantress1" true None.

Definition adaForm : SignupForm :=
  mkSignupForm " Ada " "Byron" "Ada@Example.com" "Enchantress1" "Enchantress1".

(** A first name of 51 letters. *)
Definition longName : string := string_of_list_ascii (repeat "a"%char 51).

Definition longForm : SignupForm :=
  mkSignupForm longName "Byron" "Ada@Example.com" "Enchantress1" "Enchantress1".

(** A stand-in for JSON on a user that is a name. *)
Definition sampleStringify (u : string) : string := String "u" u.

Definition sampleParse (s : string) : option string :=
  match s with
  | String _ r => Some r
  | EmptyString => None
  end.

(** The truthiness of a string. *)
Definition sampleToBoolean (u : string) : bool := truthy u.

(** ** Notions used in the statements *)

(** The note that POST stores for a body that passes the validators. *)
Definition createdNote (uid newId : ObjectId) (now : Date) (b : CreateBody) : Note :=
  mkNote newId (trim (dflt "" (b_title b)))
         (trim (dflt "" (b_content b)))
         (dflt "personal" (b_category b))
         (match b_tags b with
          | Some sent => filter truthy (map trim sent)
          | None => []
          end)
         false false (dflt "#ffffff" (b_color b)) uid now now.

(** The notes of the collection that belong to other users than [uid]. *)
Definition othersOf (uid : ObjectId) (s : Store) : list Note :=
  filter (fun m => negb (N.eqb (userId m) uid)) s.

(** The rank that the specification describes for a search: every field
    of the text index that holds the term counts with its weight in the
    index.  [holdsTerm term text] tells whether a text holds the term. *)
Definition fieldHolds (holdsTerm : string -> string -> bool)
    (term field : string) (n : Note) : bool :=
  if String.eqb field "title" then holdsTerm term (title n)
  else if String.eqb field "content" then holdsTerm term (content n)
  else if String.eqb field "tags" then existsb (holdsTerm term) (tags n)
  else false.

Definition weightedScore (holdsTerm : string -> string -> bool)
    (index : TextIndex) (term : string) (n : Note) : Z :=
  fold_right Z.add 0
    (map (fun field =>
            if fieldHolds holdsTerm term field n
            then dflt 0 (weightOf field (weights index))
            else 0)
         (indexedFields index)).

(** A list that runs from the highest rank to the lowest. *)
Definition rankedByScore (holdsTerm : string -> string -> bool)
    (index : TextIndex) (term : string) (l : list Note) : Prop :=
  StronglySorted (fun a b => weightedScore holdsTerm index term b
                             <= weightedScore holdsTerm index term a) l.

(** No two notes of [l] carry the same value of the sort key: the order
    that a sort on [sortBy] gives them is then the same whatever it does
    with ties. *)
Fixpoint distinctKeys (sortBy : string) (l : list Note) : bool :=
  match l with
  | [] => true
  | a :: r =>
      forallb (fun b => match keyCompare sortBy a b with Eq => false | _ => true end) r
      && distinctKeys sortBy r
  end.

(** The part of [l] before its first line terminator. *)
Fixpoint firstLine (l : list ascii) : list ascii :=
  match l with
  | [] => []
  | c :: r => if isLineTerminator c then [] else c :: firstLine r
  end.

(** A class of characters none of which is a line terminator. *)
Definition offTerminators (p : ascii -> bool) : Prop :=
  forall c, p c = true -> isLineTerminator c = false.


(** ** Sample data for the search and for large page numbers *)

(** A stand-in for [$text]: some field of the text index is the term. *)
Definition sampleIndexMatch (term : string) (n : Note) : bool :=
  existsb (fun field => fieldHolds String.eqb term field n)
          (indexedFields noteTextIndex).

(** Two notes of user 1 that match "alpha": the older one in its title,
    the newer one in a tag. *)
Definition titleHit : Note :=
  mkNote 2 "alpha" "Plan" "personal" [] false false "#ffffff" 1 100 1000.

Definition tagHit : Note :=
  mkNote 1 "Groceries" "Milk" "personal" ["alpha"] false false "#ffffff" 1 100 2000.

Definition rankStore : Store := [titleHit; tagHit].

Definition searchAlpha : ListQuery :=
  mkListQuery None None None None None (Some "alpha") None None.

(** A request for page 2^53 + 1. *)
Definition hugePage : ListQuery :=
  mkListQuery (Some 9007199254740993) None None None None None None None.


(** * Properties *)

Local Open Scope list_scope.

(** ** [trim] *)

Lemma dropSpaces_length (l : list ascii) :
  (List.length (dropSpaces l) <= List.length l)%nat.
Proof.
  induction l as [|c r IH]; simpl; [lia|].
  destruct (isSpace c); simpl; lia.
Qed.

Lemma dropSpaces_idem (l : list ascii) :
  dropSpaces (dropSpaces l) = dropSpaces l.
Proof.
  induction l as [|c r IH]; simpl; [reflexivity|].
  destruct (isSpace c) eqn:E; [exact IH|].
  simpl. now rewrite E.
Qed.

(** A list that [dropSpaces] leaves alone is empty or starts with a
    character that is not white space. *)
Lemma dropSpaces_fixed (l : list ascii) :
  dropSpaces l = l ->
  l = [] \/ exists c t, l = c :: t /\ isSpace c = false.
Proof.
  destruct l as [|c t]; [now left|].
  simpl. destruct (isSpace c) eqn:E; intros H.
  - pose proof (dropSpaces_length t) as L. rewrite H in L. simpl in L. lia.
  - right. now exists c, t.
Qed.

(** [dropSpaces] removes a prefix. *)
Lemma dropSpaces_suffix (l : list ascii) :
  exists p, l = (p ++ dropSpaces l)%list.
Proof.
  induction l as [|c r [p IH]]; simpl.
  - now exists [].
  - destruct (isSpace c).
    + exists (c :: p). simpl. now rewrite <- IH.
    + now exists [].
Qed.

Lemma dropSpaces_rev_fixed (a : list ascii) :
  dropSpaces a = a ->
  dropSpaces (rev (dropSpaces (rev a))) = rev (dropSpaces (rev a)).
Proof.
  intros Ha.
  destruct (dropSpaces_suffix (rev a)) as [p Hp].
  remember (dropSpaces (rev a)) as b eqn:Hb.
  assert (Hra : a = (rev b ++ rev p)%list).
  { rewrite <- rev_app_distr, <- Hp. now rewrite rev_involutive. }
  destruct (rev b) as [|c t] eqn:Erb; [reflexivity|].
  destruct (dropSpaces_fixed a Ha) as [E | (c' & t' & E & Hc)].
  - rewrite E in Hra. discriminate.
  - rewrite E in Hra. simpl in Hra. injection Hra as -> _.
    simpl. now rewrite Hc.
Qed.

Theorem trim_idempotent (s : string) : trim (trim s) = trim s.
Proof.
  unfold trim. rewrite list_ascii_of_string_of_list_ascii.
  remember (dropSpaces (list_ascii_of_string s)) as a eqn:Ha.
  assert (Fa : dropSpaces a = a) by (subst a; apply dropSpaces_idem).
  rewrite (dropSpaces_rev_fixed a Fa).
  rewrite rev_involutive, dropSpaces_idem.
  reflexivity.
Qed.

Lemma map_trim_idem (l : list string) : map trim (map trim l) = map trim l.
Proof.
  induction l as [|x r IH]; simpl; [reflexivity|].
  now rewrite trim_idempotent, IH.
Qed.

Lemma map_trim_kept (l : list string) :
  map trim (filter truthy (map trim l)) = filter truthy (map trim l).
Proof.
  induction l as [|x r IH]; simpl; [reflexivity|].
  destruct (truthy (trim x)); simpl; [|exact IH].
  now rewrite trim_idempotent, IH.
Qed.

(** ** Sorting, skipping, limiting *)

Lemma insertSorted_perm le x l : Permutation (insertSorted le x l) (x :: l).
Proof.
  induction l as [|y r IH]; simpl; [reflexivity|].
  destruct (le x y); [reflexivity|].
  rewrite IH. apply perm_swap.
Qed.

Lemma sortNotes_perm le l : Permutation (sortNotes le l) l.
Proof.
  induction l as [|x r IH]; simpl; [reflexivity|].
  rewrite insertSorted_perm. now constructor.
Qed.

Lemma firstn_incl {A} (k : nat) (l : list A) (x : A) :
  In x (firstn k l) -> In x l.
Proof.
  revert l. induction k as [|k IH]; intros [|y r]; simpl; try easy.
  intros [H|H]; [now left | right; now apply IH].
Qed.

Lemma applyLimit_incl k l n : In n (applyLimit k l) -> In n l.
Proof.
  unfold applyLimit. destruct (k =? 0); [easy|]. apply firstn_incl.
Qed.

Lemma applySkip_incl k l n : In n (applySkip k l) -> In n l.
Proof.
  unfold applySkip. revert l.
  induction (Z.to_nat k) as [|m IH]; intros l; simpl; [easy|].
  destruct l; simpl; [easy|]. intros H. right. now apply IH.
Qed.

(** Every note of a page satisfies the filter the page was asked with. *)
Lemma findUserNotes_sound uid o s n :
  In n (fst (findUserNotes uid o s)) ->
  In n s /\ matches (userNotesQuery uid o) n = true.
Proof.
  unfold findUserNotes, bind, find, ret. simpl. intros H.
  apply applyLimit_incl, applySkip_incl in H.
  apply (Permutation_in _ (sortNotes_perm _ _)) in H.
  now apply filter_In in H.
Qed.

Lemma findUserNotes_length uid o s :
  0 < dflt 50 (o_limit o) -> 0 <= dflt 0 (o_skip o) ->
  Z.of_nat (List.length (fst (findUserNotes uid o s)))
  = Z.min (dflt 50 (o_limit o))
      (Z.max 0 (Z.of_nat (List.length (filter (matches (userNotesQuery uid o)) s))
                - dflt 0 (o_skip o))).
Proof.
  intros Hl Hs. unfold findUserNotes, bind, find, ret. simpl.
  unfold applyLimit, applySkip.
  destruct (Z.eqb_spec (dflt 50 (o_limit o)) 0) as [E|_]; [lia|].
  rewrite length_firstn, length_skipn.
  rewrite (Permutation_length (sortNotes_perm _ _)).
  lia.
Qed.

(** ** The combined lookup of the per-note routes *)

Lemma matches_byIdAndOwner id uid n :
  matches (byIdAndOwner id uid) n = N.eqb (_id n) id && N.eqb (userId n) uid.
Proof.
  unfold matches, byIdAndOwner; simpl. now rewrite !andb_true_r.
Qed.

Lemma lookup_none id uid s :
  List.find (matches (byIdAndOwner id uid)) s = None
  <-> forall n, In n s -> ~ (_id n = id /\ userId n = uid).
Proof.
  split.
  - intros H n Hin [Hi Hu].
    pose proof (find_none _ _ H n Hin) as F.
    rewrite matches_byIdAndOwner in F.
    apply andb_false_iff in F as [F|F]; apply N.eqb_neq in F; contradiction.
  - intros H. destruct (List.find _ s) as [n|] eqn:E; [|reflexivity].
    apply find_some in E as [Hin Hm].
    rewrite matches_byIdAndOwner in Hm.
    apply andb_true_iff in Hm as [Hi Hu].
    apply N.eqb_eq in Hi, Hu. exfalso. now apply (H n Hin).
Qed.

Lemma lookup_some id uid s n :
  List.find (matches (byIdAndOwner id uid)) s = Some n ->
  In n s /\ _id n = id /\ userId n = uid.
Proof.
  intros E. apply find_some in E as [Hin Hm].
  rewrite matches_byIdAndOwner in Hm.
  apply andb_true_iff in Hm as [Hi Hu].
  apply N.eqb_eq in Hi, Hu. easy.
Qed.

Lemma removeFirst_none p s :
  List.find p s = None -> removeFirst p s = s.
Proof.
  induction s as [|x r IH]; simpl; [reflexivity|].
  destruct (p x); [discriminate|]. intros E. now rewrite IH.
Qed.

Ltac run_route :=
  unfold perNote, getNote, updateNote, deleteNote, togglePin, toggleArchive,
    bind, findOne, findOneAndDelete, save, ret.

Lemma perNote_none op uid id now s :
  List.find (matches (byIdAndOwner id uid)) s = None ->
  perNote op uid id now s = (notFound (verbOf op), s).
Proof.
  intros E. destruct op; run_route; rewrite E; simpl; try reflexivity.
  now rewrite removeFirst_none.
Qed.

(** With a note found the answer is a 200 or a 500, and it is computed
    from that note alone. *)
Lemma perNote_some op uid id now s n :
  List.find (matches (byIdAndOwner id uid)) s = Some n ->
  fst (perNote op uid id now s) <> notFound (verbOf op)
  /\ forall s', List.find (matches (byIdAndOwner id uid)) s' = Some n ->
       fst (perNote op uid id now s') = fst (perNote op uid id now s).
Proof.
  intros E. split.
  - destruct op; run_route; rewrite E; simpl;
      try match goal with |- context [schemaValid ?x] => destruct (schemaValid x) end;
      simpl; discriminate.
  - intros s' E'. destruct op; run_route; rewrite E, E'; simpl;
      try match goal with |- context [schemaValid ?x] => destruct (schemaValid x) end;
      reflexivity.
Qed.

(** C1. GetById, Update, Delete, TogglePin and ToggleArchive, asked by
    user [uid] for note [id], answer the 404 "Note not found" of their
    route exactly when the collection holds no note whose id is [id] and
    whose owner is [uid], and then leave the collection as it was.  The
    answer for an id that no note carries and the answer for an id carried
    by a note of another user are the same value.  The collection enters
    the answer only through the one lookup by [{_id, userId}]: two
    collections on which that lookup returns the same result get the same
    answer. *)
Theorem per_note_not_found (op : NoteOp) (uid id : ObjectId) (now : Date) (s : Store) :
  (fst (perNote op uid id now s) = notFound (verbOf op)
   <-> forall n, In n s -> ~ (_id n = id /\ userId n = uid))
  /\ (fst (perNote op uid id now s) = notFound (verbOf op) ->
      snd (perNote op uid id now s) = s)
  /\ (forall s1 s2,
        (forall n, In n s1 -> _id n <> id) ->
        (forall n, In n s2 -> _id n = id -> userId n <> uid) ->
        fst (perNote op uid id now s1) = fst (perNote op uid id now s2))
  /\ (forall s',
        fst (findOne (byIdAndOwner id uid) s') = fst (findOne (byIdAndOwner id uid) s) ->
        fst (perNote op uid id now s') = fst (perNote op uid id now s)).
Proof.
  assert (A : forall t,
             fst (perNote op uid id now t) = notFound (verbOf op)
             <-> List.find (matches (byIdAndOwner id uid)) t = None).
  { intros t. destruct (List.find (matches (byIdAndOwner id uid)) t) as [n|] eqn:E.
    - destruct (perNote_some op uid id now t n E) as [Hne _].
      split; [contradiction | discriminate].
    - rewrite (perNote_none _ _ _ _ _ E). simpl. easy. }
  repeat split.
  - intros H. now apply lookup_none, A.
  - intros H. now apply A, lookup_none.
  - intros H. apply A in H. now rewrite (perNote_none _ _ _ _ _ H).
  - intros s1 s2 H1 H2.
    rewrite (perNote_none op uid id now s1), (perNote_none op uid id now s2);
      [reflexivity | |]; apply lookup_none; intros n Hin [Hi Hu].
    + now apply (H2 n Hin).
    + now apply (H1 n Hin).
  - intros s'. unfold findOne. simpl. intros E.
    destruct (List.find (matches (byIdAndOwner id uid)) s) as [n|] eqn:Es.
    + now apply (perNote_some op uid id now s n Es).
    + now rewrite (perNote_none _ _ _ _ _ E), (perNote_none _ _ _ _ _ Es).
Qed.

(** ** Listing *)

Lemma matches_owner_archived uid o n :
  matches (userNotesQuery uid o) n = true ->
  userId n = uid /\ isArchived n = dflt false (o_isArchived o).
Proof.
  unfold matches, userNotesQuery; simpl. intros H.
  repeat (apply andb_true_iff in H as [H ?]).
  split; [now apply N.eqb_eq | now apply Bool.eqb_prop].
Qed.

(** The listing handler unfolded: the page, and the count taken with
    [countQuery]; the collection is only read. *)
Lemma getNotes_unfold uid q s :
  getNotes uid q s
  = (Success 200 "Notes retrieved successfully"
       (DNotes (fst (findUserNotes uid (listOptions q) s))
          (let total := Z.of_nat (List.length (filter (matches (countQuery uid q)) s)) in
           mkPagination (pageOf q) (mathCeilDiv total (limitOf q)) total
                        (pageOf q <? mathCeilDiv total (limitOf q))
                        (1 <? pageOf q))),
     s).
Proof. reflexivity. Qed.

Lemma route_getNotes_cases uid q s :
  route_getNotes uid q s = getNotes uid q s
  \/ exists errors, route_getNotes uid q s = (Invalid errors, s).
Proof.
  unfold route_getNotes, validated.
  destruct (queryValidation q) as [|e r]; [now left|].
  right. now exists (e :: r).
Qed.

(** C2. A listing whose request leaves [isArchived] out filters on
    [isArchived = false], in the page query and in the count query, and
    every note of the answer is unarchived and owned by the requesting
    user; a listing asked with [isArchived = "true"] answers only archived
    notes of the requesting user.  The route answers either a rejection by
    the validators or what the handler answers. *)
Theorem list_archived_scope (uid : ObjectId) (q : ListQuery) (s : Store) :
  exists notes pg,
    getNotes uid q s
      = (Success 200 "Notes retrieved successfully" (DNotes notes pg), s)
    /\ (route_getNotes uid q s = getNotes uid q s
        \/ exists errors, route_getNotes uid q s = (Invalid errors, s))
    /\ (q_isArchived q = None ->
          f_isArchived (userNotesQuery uid (listOptions q)) = Some false
          /\ f_isArchived (countQuery uid q) = Some false
          /\ forall n, In n notes -> In n s /\ isArchived n = false /\ userId n = uid)
    /\ (q_isArchived q = Some "true" ->
          f_isArchived (userNotesQuery uid (listOptions q)) = Some true
          /\ f_isArchived (countQuery uid q) = Some true
          /\ forall n, In n notes -> In n s /\ isArchived n = true /\ userId n = uid).
Proof.
  rewrite getNotes_unfold. eexists _, _. split; [reflexivity|].
  split; [apply route_getNotes_cases|].
  split; intros Hq; (split; [|split]);
    try (unfold userNotesQuery, countQuery, listOptions, archivedOf; simpl;
         now rewrite Hq);
    intros n Hn; apply findUserNotes_sound in Hn as [Hin Hm];
    apply matches_owner_archived in Hm as [Hu Ha];
    unfold listOptions, archivedOf in Ha; simpl in Ha; rewrite Hq in Ha;
    simpl in Ha; easy.
Qed.

Lemma check_nil ok p msg : check ok p msg = [] -> ok = true.
Proof. unfold check. destruct ok; [reflexivity | discriminate]. Qed.

(** Integers of magnitude up to 2^53 are doubles. *)
Lemma roundDouble_safe z : Z.abs z <= 2 ^ 53 -> roundDouble z = z.
Proof.
  intros H. unfold roundDouble. cbv zeta.
  destruct (Z.leb_spec (Z.abs z) (2 ^ 53)); [reflexivity | lia].
Qed.

(** Rounding keeps a positive integer positive. *)
Lemma roundDouble_pos z : 1 <= z -> 1 <= roundDouble z.
Proof.
  intros H. unfold roundDouble. cbv zeta.
  destruct (Z.leb_spec (Z.abs z) (2 ^ 53)) as [_|Hbig]; [exact H|].
  rewrite (Z.abs_eq z) in * by lia. rewrite (Z.sgn_pos z) by lia.
  set (e := Z.log2 z - 52).
  assert (He : 0 < e).
  { unfold e. assert (53 <= Z.log2 z); [|lia].
    apply Z.log2_le_pow2; lia. }
  assert (Hu : 0 < 2 ^ e) by (apply Z.pow_pos_nonneg; lia).
  assert (Hle : 2 ^ e <= z).
  { transitivity (2 ^ Z.log2 z).
    - apply Z.pow_le_mono_r; unfold e; lia.
    - apply Z.log2_spec. lia. }
  assert (Hm : 1 <= z / 2 ^ e).
  { apply Z.div_le_lower_bound; lia. }
  destruct ((2 ^ e <? 2 * (z mod 2 ^ e))
            || ((2 ^ e =? 2 * (z mod 2 ^ e)) && Z.odd (z / 2 ^ e))); nia.
Qed.

Lemma queryValidation_bounds q :
  queryValidation q = [] ->
  1 <= pageParam q /\ 1 <= limitParam q <= 100.
Proof.
  unfold queryValidation, pageParam, limitParam. intros H.
  apply app_eq_nil in H as [Hp H]. apply app_eq_nil in H as [Hl _].
  split.
  - destruct (q_page q) as [p|]; simpl in *; [|lia].
    apply check_nil in Hp. lia.
  - destruct (q_limit q) as [l|]; simpl in *; [|lia].
    apply check_nil in Hl. unfold between in Hl. lia.
Qed.

(** A limit that passes [queryValidation] is parsed exactly, and the
    parsed page is positive. *)
Lemma queryValidation_parsed q :
  queryValidation q = [] ->
  1 <= pageOf q /\ limitOf q = limitParam q /\ 1 <= limitOf q <= 100.
Proof.
  intros H. destruct (queryValidation_bounds q H) as [Hp Hl].
  unfold pageOf, limitOf, parseInt.
  rewrite (roundDouble_safe (limitParam q)) by lia.
  split; [now apply roundDouble_pos | split; [reflexivity | exact Hl]].
Qed.

(** While [page * limit] is a safe integer the arithmetic of the handler
    is exact. *)
Lemma safe_exact q :
  queryValidation q = [] ->
  pageParam q * limitParam q <= maxSafeInteger ->
  pageOf q = pageParam q
  /\ limitOf q = limitParam q
  /\ skipOf q = (pageParam q - 1) * limitParam q.
Proof.
  intros H Hsafe. destruct (queryValidation_bounds q H) as [Hp Hl].
  unfold maxSafeInteger in Hsafe.
  assert (Hpage : pageParam q <= 2 ^ 53 - 1) by nia.
  unfold skipOf, pageOf, limitOf, parseInt.
  rewrite (roundDouble_safe (limitParam q)) by lia.
  rewrite (roundDouble_safe (pageParam q)) by lia.
  rewrite (roundDouble_safe (pageParam q - 1)) by lia.
  rewrite roundDouble_safe by nia.
  easy.
Qed.

(** [mathCeilDiv a b] is the least integer [t] with [a <= t * b]. *)
Lemma mathCeilDiv_spec a b :
  0 < b ->
  (mathCeilDiv a b - 1) * b < a <= mathCeilDiv a b * b.
Proof.
  intros Hb. unfold mathCeilDiv.
  pose proof (Z.mul_div_le (- a) b Hb).
  pose proof (Z.mul_succ_div_gt (- a) b Hb).
  nia.
Qed.

(** The page query and the count query are the same filter. *)
Lemma countQuery_same uid q :
  countQuery uid q = userNotesQuery uid (listOptions q).
Proof.
  unfold countQuery, userNotesQuery, listOptions, whenTruthy; simpl.
  destruct (q_isPinned q); reflexivity.
Qed.

(** C3. For a listing request that passes [queryValidation] and whose
    [page * limit] is a safe integer (at most 2^53 - 1): the handler skips
    [(page - 1) * limit] notes and limits the page to [limit]; the count
    query is the filter of the page query (owner, isArchived, category,
    isPinned, search), counted over the whole collection; [currentPage] is
    [page]; [totalPages] is the ceiling of [totalNotes / limit];
    [hasNextPage] is [page < totalPages] and [hasPrevPage] is [page > 1];
    the page holds [min limit (max 0 (totalNotes - skip))] notes.  With 25
    matching notes, [limit = 10] and [page = 3] the page holds 5 notes,
    [totalPages] is 3, [hasNextPage] is false and [hasPrevPage] is true. *)
Theorem list_pagination (uid : ObjectId) (q : ListQuery) (s : Store)
    (Hvalid : queryValidation q = [])
    (Hsafe : pageParam q * limitParam q <= maxSafeInteger) :
  exists notes pg,
    route_getNotes uid q s
      = (Success 200 "Notes retrieved successfully" (DNotes notes pg), s)
    /\ o_skip (listOptions q) = Some ((pageParam q - 1) * limitParam q)
    /\ o_limit (listOptions q) = Some (limitParam q)
    /\ countQuery uid q = userNotesQuery uid (listOptions q)
    /\ currentPage pg = pageParam q
    /\ pg_totalNotes pg
       = Z.of_nat (List.length (filter (matches (userNotesQuery uid (listOptions q))) s))
    /\ (totalPages pg - 1) * limitParam q < pg_totalNotes pg
         <= totalPages pg * limitParam q
    /\ hasNextPage pg = (pageParam q <? totalPages pg)
    /\ hasPrevPage pg = (1 <? pageParam q)
    /\ Z.of_nat (List.length notes)
       = Z.min (limitParam q)
               (Z.max 0 (pg_totalNotes pg - (pageParam q - 1) * limitParam q))
    /\ (pg_totalNotes pg = 25 -> limitParam q = 10 -> pageParam q = 3 ->
        List.length notes = 5%nat /\ totalPages pg = 3
        /\ hasNextPage pg = false /\ hasPrevPage pg = true).
Proof.
  destruct (queryValidation_bounds q Hvalid) as [Hp Hl].
  destruct (safe_exact q Hvalid Hsafe) as (Epage & Elimit & Eskip).
  unfold route_getNotes. rewrite Hvalid. unfold validated.
  rewrite getNotes_unfold. eexists _, _. split; [reflexivity|].
  cbv zeta. simpl currentPage. simpl pg_totalNotes. simpl totalPages.
  simpl hasNextPage. simpl hasPrevPage.
  rewrite countQuery_same.
  set (total := Z.of_nat (List.length
                 (filter (matches (userNotesQuery uid (listOptions q))) s))).
  assert (Hlen : Z.of_nat (List.length (fst (findUserNotes uid (listOptions q) s)))
                 = Z.min (limitParam q)
                     (Z.max 0 (total - (pageParam q - 1) * limitParam q))).
  { rewrite findUserNotes_length; cbn [listOptions o_limit o_skip dflt];
      rewrite ?Eskip, ?Elimit; [reflexivity | lia | nia]. }
  rewrite Epage, Elimit.
  change (o_skip (listOptions q)) with (Some (skipOf q)).
  change (o_limit (listOptions q)) with (Some (limitOf q)).
  rewrite Eskip, Elimit.
  pose proof (mathCeilDiv_spec total (limitParam q) ltac:(lia)) as Hc.
  repeat split; try reflexivity; try lia; try exact Hlen.
Qed.

(** ** Statistics *)

Lemma statsMatch_active uid s :
  filter (matches (statsMatch uid)) s = activeNotes uid s.
Proof.
  unfold activeNotes. apply filter_ext. intros n.
  unfold matches, statsMatch; simpl. rewrite !andb_true_r.
  now destruct (isArchived n).
Qed.

(** The accumulators of [$group] after a run over [l]. *)
Lemma fold_groupStep l g :
  fold_left groupStep l g
  = mkGroupDoc (g_totalNotes g + Z.of_nat (List.length l))
               (g_pinnedNotes g + countWhere isPinned l)
               (g_categoryCounts g ++ map category l)%list.
Proof.
  revert g. induction l as [|n r IH]; intros g.
  - simpl. unfold countWhere. simpl. rewrite app_nil_r, !Z.add_0_r.
    now destruct g.
  - cbn [fold_left]. rewrite IH. unfold groupStep, countWhere. simpl.
    rewrite <- app_assoc. simpl.
    f_equal; [lia|].
    destruct (isPinned n); simpl; lia.
Qed.

Lemma sizeOfEq_map c l :
  sizeOfEq c (map category l) = countWhere (fun n => String.eqb (category n) c) l.
Proof.
  unfold sizeOfEq, countWhere. f_equal.
  induction l as [|n r IH]; simpl; [reflexivity|].
  rewrite (String.eqb_sym c (category n)).
  destruct (String.eqb (category n) c); simpl; now rewrite IH.
Qed.

(** C4. Statistics of a user are taken over the notes the user owns that
    are not archived: [totalNotes] is their number, [pinnedNotes] the
    number of pinned ones among them, and [categories] carries the four
    keys personal, work, creative and study with the number of notes of
    each; the collection is only read.  When the user owns no unarchived
    note the answer is the all-zero document, never an empty answer. *)
Theorem stats_counts (uid : ObjectId) (s : Store) :
  getStats uid s
    = (Success 200 "Statistics retrieved successfully" (DStats (statisticsSpec uid s)), s)
  /\ (activeNotes uid s = [] ->
      getStats uid s
        = (Success 200 "Statistics retrieved successfully"
             (DStats (mkStats 0 0 (mkCategories 0 0 0 0))), s)).
Proof.
  assert (E : getStats uid s
    = (Success 200 "Statistics retrieved successfully" (DStats (statisticsSpec uid s)), s)).
  { unfold getStats, getUserStats, bind, find, ret. rewrite statsMatch_active.
    unfold statisticsSpec. cbv zeta.
    destruct (activeNotes uid s) as [|n r] eqn:Ea; [reflexivity|].
    unfold stageGroup. rewrite fold_groupStep. simpl g_categoryCounts.
    unfold map at 1. unfold stageProject. simpl g_totalNotes.
    simpl g_pinnedNotes. simpl g_categoryCounts.
    rewrite <- (map_cons category n r), !sizeOfEq_map.
    reflexivity. }
  split; [exact E|].
  intros Hnone. rewrite E. unfold statisticsSpec. now rewrite Hnone.
Qed.

(** ** Authentication *)

(** C5. A login request that passes [loginValidation] is answered, with
    the users collection left as it was,
    - by "Invalid credentials" when no user is found for the normalized
      address;
    - by "Account deactivated" when the user found is not active, whatever
      [comparePassword] says of the password sent: the check stands after
      the lookup and before the comparison;
    - by the same "Invalid credentials" when the user found is active and
      the password does not match.
    The two answers are different values, and a matching password of an
    active user is answered by a 200 with a token. *)
Theorem login_outcomes (now : Date) (b : LoginBody) (s : Users)
    (Hvalid : loginValidation b = []) :
  (findByEmail (normalizeEmail (dflt "" (l_email b))) s = None ->
   route_login now b s = (invalidCredentials, s))
  /\ (forall u,
        findByEmail (normalizeEmail (dflt "" (l_email b))) s = Some u ->
        isActive u = false ->
        route_login now b s = (accountDeactivated, s))
  /\ (forall u,
        findByEmail (normalizeEmail (dflt "" (l_email b))) s = Some u ->
        isActive u = true ->
        comparePassword u (dflt "" (l_password b)) = false ->
        route_login now b s = (invalidCredentials, s))
  /\ (forall u,
        findByEmail (normalizeEmail (dflt "" (l_email b))) s = Some u ->
        isActive u = true ->
        comparePassword u (dflt "" (l_password b)) = true ->
        exists summary,
          fst (route_login now b s)
          = AuthSuccess 200 "Login successful" (generateToken (user_id u) now) summary
          /\ sum_id summary = user_id u
          /\ sum_lastLogin summary = Some now)
  /\ invalidCredentials <> accountDeactivated.
Proof.
  unfold route_login. rewrite Hvalid. unfold login.
  repeat split.
  - intros E. now rewrite E.
  - intros u E Ha. now rewrite E, Ha.
  - intros u E Ha Hc. now rewrite E, Ha, Hc.
  - intros u E Ha Hc. rewrite E, Ha, Hc. simpl.
    eexists. split; [reflexivity|]. now split.
  - discriminate.
Qed.

(** C7. A forgot-password request whose address passes [isEmail] is
    answered by the one message "If an account with that email exists, a
    password reset link has been sent.", whatever the users collection
    holds, and the collection is left as it was.  The existence of the
    account shows only in what the handler writes to the console. *)
Theorem forgot_password_uniform (reqEmail : option string) (s : Users)
    (Hvalid : isEmail (dflt "" reqEmail) = true) :
  fst (fst (route_forgotPassword reqEmail s)) = resetRequested
  /\ snd (route_forgotPassword reqEmail s) = s
  /\ (forall s', fst (fst (route_forgotPassword reqEmail s'))
                 = fst (fst (route_forgotPassword reqEmail s)))
  /\ (findByEmail (normalizeEmail (dflt "" reqEmail)) s = None ->
      snd (fst (route_forgotPassword reqEmail s)) = [])
  /\ (forall u, findByEmail (normalizeEmail (dflt "" reqEmail)) s = Some u ->
      snd (fst (route_forgotPassword reqEmail s))
      = [("Password reset requested for user: " ++ email u)%string]).
Proof.
  unfold route_forgotPassword, check. rewrite Hvalid. unfold forgotPassword.
  repeat split.
  - now destruct (findByEmail _ s).
  - now destruct (findByEmail _ s).
  - intros s'. now destruct (findByEmail _ s), (findByEmail _ s').
  - intros E. now rewrite E.
  - intros u E. now rewrite E.
Qed.

(** ** Writing a note back *)

Lemma existsb_id_replace k n' s :
  existsb (fun y => N.eqb (_id y) k) (replaceById n' s)
  = existsb (fun y => N.eqb (_id y) k) s.
Proof.
  induction s as [|x r IH]; simpl; [reflexivity|].
  destruct (N.eqb_spec (_id x) (_id n')) as [E|E]; simpl.
  - now rewrite E.
  - now rewrite IH.
Qed.

Lemma uniqueIds_replace n' s :
  uniqueIds s = true -> uniqueIds (replaceById n' s) = true.
Proof.
  induction s as [|x r IH]; simpl; [easy|].
  intros H. apply andb_true_iff in H as [Hx Hr].
  destruct (N.eqb_spec (_id x) (_id n')) as [E|E]; simpl.
  - rewrite <- E. now rewrite Hx, Hr.
  - rewrite existsb_id_replace, Hx. simpl. now apply IH.
Qed.

(** Under unique ids, the note a lookup found is the one [replaceById]
    overwrites, and the lookup finds the new version afterwards. *)
Lemma lookup_replace id uid s n n' :
  uniqueIds s = true ->
  List.find (matches (byIdAndOwner id uid)) s = Some n ->
  _id n' = id -> userId n' = uid ->
  List.find (matches (byIdAndOwner id uid)) (replaceById n' s) = Some n'.
Proof.
  intros Hu Hf Hi Ho. induction s as [|x r IH]; simpl in *; [discriminate|].
  apply andb_true_iff in Hu as [Hx Hr].
  assert (Mn' : matches (byIdAndOwner id uid) n' = true).
  { rewrite matches_byIdAndOwner, Hi, Ho, !N.eqb_refl. reflexivity. }
  destruct (N.eqb_spec (_id x) (_id n')) as [E|E].
  - simpl. now rewrite Mn'.
  - simpl.
    destruct (matches (byIdAndOwner id uid) x) eqn:Mx.
    + rewrite matches_byIdAndOwner in Mx. apply andb_true_iff in Mx as [Mx _].
      apply N.eqb_eq in Mx. congruence.
    + now apply IH.
Qed.

Lemma find_split (p : Note -> bool) s n :
  List.find p s = Some n -> exists pre post, s = (pre ++ n :: post)%list.
Proof.
  induction s as [|x r IH]; simpl; [discriminate|].
  destruct (p x).
  - intros [= ->]. now exists [], r.
  - intros H. destruct (IH H) as (pre & post & ->). now exists (x :: pre), post.
Qed.

(** Under unique ids, [replaceById] rewrites the one note of that id, in
    place, and nothing else. *)
Lemma replace_at pre n post n' :
  uniqueIds (pre ++ n :: post) = true ->
  _id n' = _id n ->
  replaceById n' (pre ++ n :: post) = (pre ++ n' :: post)%list.
Proof.
  intros Hu Hi. induction pre as [|x r IH]; simpl in *.
  - now rewrite Hi, N.eqb_refl.
  - apply andb_true_iff in Hu as [Hx Hr].
    destruct (N.eqb_spec (_id x) (_id n')) as [E|E].
    + exfalso. apply negb_true_iff in Hx.
      assert (T : existsb (fun y => N.eqb (_id y) (_id x)) (r ++ n :: post) = true).
      { apply existsb_exists. exists n. split.
        - apply in_or_app. right. now left.
        - apply N.eqb_eq. congruence. }
      congruence.
    + now rewrite IH.
Qed.

(** [save] of a valid new version [n'] of the note [n] that the lookup
    found: [n] is rewritten in place, the rest of the collection stays, and
    the lookup finds the new version afterwards. *)
Lemma save_at id uid now pre n post n' :
  uniqueIds (pre ++ n :: post) = true ->
  List.find (matches (byIdAndOwner id uid)) (pre ++ n :: post) = Some n ->
  schemaValid n' = true ->
  _id n' = _id n -> userId n' = userId n ->
  save now n' (pre ++ n :: post)
    = (Some (preSave now n'), (pre ++ preSave now n' :: post)%list)
  /\ List.find (matches (byIdAndOwner id uid)) (pre ++ preSave now n' :: post)%list
     = Some (preSave now n')
  /\ uniqueIds (pre ++ preSave now n' :: post)%list = true.
Proof.
  intros Hu Hf Hv Hi Ho.
  destruct (lookup_some _ _ _ _ Hf) as (_ & Hid & Huid).
  assert (Er : replaceById (preSave now n') (pre ++ n :: post)
               = (pre ++ preSave now n' :: post)%list)
    by now apply replace_at.
  unfold save. rewrite Hv, Er. split; [reflexivity|]. split.
  - rewrite <- Er. apply (lookup_replace id uid _ n); simpl; congruence.
  - rewrite <- Er. now apply uniqueIds_replace.
Qed.

(** ** The collection stays well formed *)

Lemma schemaValid_preSave now n : schemaValid (preSave now n) = schemaValid n.
Proof. reflexivity. Qed.

Lemma forallb_replaceById (p : Note -> bool) n' s :
  forallb p s = true -> p n' = true -> forallb p (replaceById n' s) = true.
Proof.
  intros Hs Hn. induction s as [|x r IH]; [reflexivity|].
  cbn [forallb replaceById] in *.
  apply andb_true_iff in Hs as [Hx Hr].
  destruct (N.eqb (_id x) (_id n')); cbn [forallb].
  - now rewrite Hn, Hr.
  - now rewrite Hx, IH.
Qed.

Lemma wellFormed_save now n s :
  wellFormed s = true -> wellFormed (snd (save now n s)) = true.
Proof.
  unfold wellFormed, save. intros H.
  destruct (schemaValid n) eqn:Hn; [|exact H]. cbn [snd].
  apply andb_true_iff in H as [Hu Hv]. apply andb_true_iff. split.
  - now apply uniqueIds_replace.
  - apply forallb_replaceById; [exact Hv|]. now rewrite schemaValid_preSave.
Qed.

Lemma uniqueIds_append s n :
  uniqueIds s = true ->
  existsb (fun x => N.eqb (_id x) (_id n)) s = false ->
  uniqueIds (s ++ [n]) = true.
Proof.
  induction s as [|x r IH]; simpl; [reflexivity|].
  intros Hu Hf. apply andb_true_iff in Hu as [Hx Hr].
  apply orb_false_iff in Hf as [Hxn Hrn].
  rewrite existsb_app. simpl. rewrite (N.eqb_sym (_id n) (_id x)), Hxn.
  apply negb_true_iff in Hx. rewrite Hx. simpl. now apply IH.
Qed.

Lemma wellFormed_saveNew now n s :
  wellFormed s = true -> wellFormed (snd (saveNew now n s)) = true.
Proof.
  unfold wellFormed, saveNew. intros H.
  destruct (schemaValid n) eqn:Hn; [|exact H]. cbn [andb].
  destruct (existsb (fun x => N.eqb (_id x) (_id n)) s) eqn:Hf; [exact H|].
  cbn [negb snd].
  apply andb_true_iff in H as [Hu Hv]. apply andb_true_iff. split.
  - now apply (uniqueIds_append s (preSave now n)).
  - rewrite forallb_app, Hv. cbn [forallb andb].
    now rewrite schemaValid_preSave, Hn.
Qed.

Lemma existsb_removeFirst (q p : Note -> bool) s :
  existsb q s = false -> existsb q (removeFirst p s) = false.
Proof.
  induction s as [|x r IH]; simpl; [easy|].
  intros H. apply orb_false_iff in H as [Hx Hr].
  destruct (p x); [exact Hr|]. simpl. now rewrite Hx, IH.
Qed.

Lemma wellFormed_removeFirst p s :
  wellFormed s = true -> wellFormed (removeFirst p s) = true.
Proof.
  unfold wellFormed. intros H. apply andb_true_iff in H as [Hu Hv].
  apply andb_true_iff. split.
  - clear Hv. induction s as [|x r IH]; simpl in *; [reflexivity|].
    apply andb_true_iff in Hu as [Hx Hr].
    destruct (p x); [exact Hr|]. simpl.
    apply negb_true_iff in Hx.
    now rewrite (existsb_removeFirst _ p r Hx), IH.
  - clear Hu. induction s as [|x r IH]; simpl in *; [reflexivity|].
    apply andb_true_iff in Hv as [Hx Hr].
    destruct (p x); [exact Hr|]. simpl. now rewrite Hx, IH.
Qed.

(** X24. No route of the notes router leads out of the well-formed
    collections, so the notes a lookup finds are valid under the schema
    and alone with their id. *)
Theorem routes_keep_wellFormed (s : Store) :
  wellFormed s = true ->
  (forall op uid id now, wellFormed (snd (perNote op uid id now s)) = true)
  /\ (forall uid newId now b,
        wellFormed (snd (route_createNote uid newId now b s)) = true)
  /\ (forall uid q, snd (route_getNotes uid q s) = s)
  /\ (forall uid, snd (getStats uid s) = s).
Proof.
  intros Hs. split; [|split; [|split]].
  - intros op uid id now.
    destruct op; run_route;
      destruct (List.find (matches (byIdAndOwner id uid)) s) as [n|] eqn:E;
      simpl; try exact Hs.
    + pose proof (wellFormed_save now (applyUpdate b n) s Hs) as W.
      unfold save in W. now destruct (schemaValid (applyUpdate b n)).
    + now apply wellFormed_removeFirst.
    + now apply wellFormed_removeFirst.
    + pose proof (wellFormed_save now (set_isPinned (negb (isPinned n)) n) s Hs) as W.
      unfold save in W.
      now destruct (schemaValid (set_isPinned (negb (isPinned n)) n)).
    + pose proof (wellFormed_save now (set_isArchived (negb (isArchived n)) n) s Hs) as W.
      unfold save in W.
      now destruct (schemaValid (set_isArchived (negb (isArchived n)) n)).
  - intros uid newId now b. unfold route_createNote, validated. cbv zeta.
    destruct (createNoteValidation (sanitizeCreate b)); [|exact Hs].
    unfold createNote.
    destruct (b_title (sanitizeCreate b)) as [t|]; [|exact Hs].
    destruct (b_content (sanitizeCreate b)) as [c|]; [|exact Hs].
    unfold bind, ret.
    match goal with |- context [saveNew now ?x s] =>
      pose proof (wellFormed_saveNew now x s Hs) as W;
      destruct (saveNew now x s) as [[saved|] s'] end; exact W.
  - intros uid q. destruct (route_getNotes_cases uid q s) as [E | [errors E]];
      rewrite E; [now rewrite getNotes_unfold | reflexivity].
  - intros uid. reflexivity.
Qed.

Lemma wellFormed_found id uid s n :
  wellFormed s = true ->
  fst (findOne (byIdAndOwner id uid) s) = Some n ->
  uniqueIds s = true /\ schemaValid n = true.
Proof.
  unfold wellFormed. intros H Hf. apply andb_true_iff in H as [Hu Hv].
  split; [exact Hu|]. simpl in Hf.
  destruct (lookup_some _ _ _ _ Hf) as (Hin & _).
  rewrite forallb_forall in Hv. now apply Hv.
Qed.

(** ** Toggles *)

(** C10. Let the lookup of [uid] for [id] find the note [n], valid under
    the schema, at some place of a collection with unique ids.  TogglePin
    answers the id with the negated [isPinned] and rewrites [n] in place by
    a note that differs from [n] in [isPinned], negated, and in
    [updatedAt] only; a second TogglePin answers the id with the original
    flag and leaves at that place [n] itself, up to [updatedAt].
    ToggleArchive does the same with [isArchived]. *)
Theorem toggle_involutive (uid id : ObjectId) (t1 t2 : Date)
    (pre post : list Note) (n : Note)
    (Hunique : uniqueIds (pre ++ n :: post) = true)
    (Hfound : fst (findOne (byIdAndOwner id uid) (pre ++ n :: post)) = Some n)
    (Hvalid : schemaValid n = true) :
  let pinned :=
    mkNote (_id n) (title n) (content n) (category n) (tags n)
           (negb (isPinned n)) (isArchived n) (color n) (userId n)
           (createdAt n) t1 in
  let archived :=
    mkNote (_id n) (title n) (content n) (category n) (tags n)
           (isPinned n) (negb (isArchived n)) (color n) (userId n)
           (createdAt n) t1 in
  togglePin uid id t1 (pre ++ n :: post)
    = (Success 200
         ("Note " ++ (if negb (isPinned n) then "pinned" else "unpinned")
            ++ " successfully")%string
         (DPinned id (negb (isPinned n))),
       pre ++ pinned :: post)
  /\ togglePin uid id t2 (pre ++ pinned :: post)
    = (Success 200
         ("Note " ++ (if isPinned n then "pinned" else "unpinned")
            ++ " successfully")%string
         (DPinned id (isPinned n)),
       pre ++ set_updatedAt t2 n :: post)
  /\ toggleArchive uid id t1 (pre ++ n :: post)
    = (Success 200
         ("Note " ++ (if negb (isArchived n) then "archived" else "unarchived")
            ++ " successfully")%string
         (DArchived id (negb (isArchived n))),
       pre ++ archived :: post)
  /\ toggleArchive uid id t2 (pre ++ archived :: post)
    = (Success 200
         ("Note " ++ (if isArchived n then "archived" else "unarchived")
            ++ " successfully")%string
         (DArchived id (isArchived n)),
       pre ++ set_updatedAt t2 n :: post).
Proof.
  intros pinned archived. simpl in Hfound.
  destruct (lookup_some _ _ _ _ Hfound) as (_ & Hid & Huid).
  assert (One : forall n1,
            _id n1 = _id n -> userId n1 = userId n -> schemaValid n1 = true ->
            forall t n2,
              _id n2 = _id n1 -> userId n2 = userId n1 -> schemaValid n2 = true ->
              save t1 n1 (pre ++ n :: post) = (Some (preSave t1 n1), pre ++ preSave t1 n1 :: post)
              /\ List.find (matches (byIdAndOwner id uid)) (pre ++ preSave t1 n1 :: post)
                 = Some (preSave t1 n1)
              /\ save t n2 (pre ++ preSave t1 n1 :: post)
                 = (Some (preSave t n2), pre ++ preSave t n2 :: post)).
  { intros n1 I1 O1 V1 t n2 I2 O2 V2.
    destruct (save_at id uid t1 pre n post n1 Hunique Hfound V1 I1 O1) as (S1 & F1 & U1).
    destruct (save_at id uid t pre (preSave t1 n1) post n2 U1 F1 V2) as (S2 & _ & _);
      [simpl; congruence | simpl; congruence |].
    easy. }
  repeat split.
  - destruct (One (set_isPinned (negb (isPinned n)) n) eq_refl eq_refl Hvalid
                  t2 n eq_refl eq_refl Hvalid) as (S1 & _ & _).
    unfold togglePin, bind, findOne, ret. rewrite Hfound, S1. simpl.
    now rewrite Hid.
  - destruct (One (set_isPinned (negb (isPinned n)) n) eq_refl eq_refl Hvalid
                  t2 (set_isPinned (isPinned n) pinned) eq_refl eq_refl Hvalid)
      as (_ & F1 & S2).
    unfold togglePin, bind, findOne, ret.
    change (preSave t1 (set_isPinned (negb (isPinned n)) n)) with pinned in F1, S2.
    rewrite F1. simpl isPinned at 1. rewrite negb_involutive, S2. simpl.
    rewrite Hid. destruct n; reflexivity.
  - destruct (One (set_isArchived (negb (isArchived n)) n) eq_refl eq_refl Hvalid
                  t2 n eq_refl eq_refl Hvalid) as (S1 & _ & _).
    unfold toggleArchive, bind, findOne, ret. rewrite Hfound, S1. simpl.
    now rewrite Hid.
  - destruct (One (set_isArchived (negb (isArchived n)) n) eq_refl eq_refl Hvalid
                  t2 (set_isArchived (isArchived n) archived) eq_refl eq_refl Hvalid)
      as (_ & F1 & S2).
    unfold toggleArchive, bind, findOne, ret.
    change (preSave t1 (set_isArchived (negb (isArchived n)) n)) with archived in F1, S2.
    rewrite F1. simpl isArchived at 1. rewrite negb_involutive, S2. simpl.
    rewrite Hid. destruct n; reflexivity.
Qed.

(** ** Update *)

Lemma checkTags_nil i l :
  checkTags i l = [] -> forallb (fun t => strLen t <=? 30) l = true.
Proof.
  revert i. induction l as [|t r IH]; intros i; simpl; [easy|].
  intros H. apply app_eq_nil in H as [Ht Hr].
  apply check_nil in Ht. rewrite Ht. simpl. now apply (IH (S i)).
Qed.

Lemma forallb_filter {A} (p q : A -> bool) l :
  forallb p l = true -> forallb p (filter q l) = true.
Proof.
  induction l as [|x r IH]; simpl; [easy|].
  intros H. apply andb_true_iff in H as [Hx Hr].
  destruct (q x); simpl; [rewrite Hx; simpl|]; now apply IH.
Qed.

Lemma forallb_map {A B} (p : B -> bool) (f : A -> B) l :
  forallb p (map f l) = forallb (fun x => p (f x)) l.
Proof.
  induction l as [|x r IH]; simpl; [reflexivity|]. now rewrite IH.
Qed.

(** The note that PUT saves for the sanitized body, field by field. *)
Lemma applyUpdate_sanitized b n :
  applyUpdate (sanitizeUpdate b) n
  = mkNote (_id n)
      (match u_title b with Some t => trim t | None => title n end)
      (match u_content b with Some c => trim c | None => content n end)
      (dflt (category n) (u_category b))
      (match u_tags b with
       | Some tags => filter truthy (map trim tags)
       | None => tags n
       end)
      (dflt (isPinned n) (u_isPinned b))
      (dflt (isArchived n) (u_isArchived b))
      (dflt (color n) (u_color b))
      (userId n) (createdAt n) (updatedAt n).
Proof.
  destruct n, b as [[t|] [c|] [g|] [tg|] [p|] [a|] [cl|]];
    cbv [applyUpdate sanitizeUpdate assign set_title set_content set_category
         set_tags set_isPinned set_isArchived set_color option_map dflt
         u_title u_content u_category u_tags u_isPinned u_isArchived u_color
         _id title content category tags isPinned isArchived color userId
         createdAt updatedAt];
    rewrite ?trim_idempotent, ?map_trim_idem, ?map_trim_kept;
    reflexivity.
Qed.

Lemma update_keeps_valid b n :
  schemaValid n = true ->
  updateNoteValidation (sanitizeUpdate b) = [] ->
  schemaValid (applyUpdate (sanitizeUpdate b) n) = true.
Proof.
  intros Hn Hb. rewrite applyUpdate_sanitized.
  unfold schemaValid in Hn |- *.
  cbn [title content category tags color].
  apply andb_true_iff in Hn as [Hn Ncolor].
  apply andb_true_iff in Hn as [Hn Ntags].
  apply andb_true_iff in Hn as [Hn Ncategory].
  apply andb_true_iff in Hn as [Ntitle Ncontent].
  unfold updateNoteValidation, sanitizeUpdate in Hb.
  cbn [u_title u_content u_category u_tags u_isPinned u_isArchived u_color] in Hb.
  apply app_eq_nil in Hb as [Btitle Hb].
  apply app_eq_nil in Hb as [Bcontent Hb].
  apply app_eq_nil in Hb as [Bcategory Hb].
  apply app_eq_nil in Hb as [_ Hb].
  apply app_eq_nil in Hb as [Btags Hb].
  apply app_eq_nil in Hb as [_ Hb].
  apply app_eq_nil in Hb as [_ Bcolor].
  apply andb_true_iff. split; [apply andb_true_iff; split;
    [apply andb_true_iff; split; [apply andb_true_iff; split|]|]|].
  - destruct (u_title b); [exact (check_nil _ _ _ Btitle) | exact Ntitle].
  - destruct (u_content b); [exact (check_nil _ _ _ Bcontent) | exact Ncontent].
  - destruct (u_category b); [exact (check_nil _ _ _ Bcategory) | exact Ncategory].
  - destruct (u_tags b) as [tg|]; [|exact Ntags].
    apply forallb_filter. exact (checkTags_nil 0 _ Btags).
  - destruct (u_color b); [|exact Ncolor].
    cbn [dflt]. rewrite (check_nil _ _ _ Bcolor). apply orb_true_r.
Qed.

(** C6. Let the lookup of [uid] for [id] find the note [n], valid under
    the schema, at some place of a collection with unique ids, and let the
    body pass [updateNoteValidation].  The route answers 200 with the note
    it saved and rewrites [n] in place, the rest of the collection
    untouched.  In the saved note every field that the body carries holds
    the value sent (trimmed for title, content and tags, empty tags
    dropped), every field of title, content, category, tags, isPinned,
    isArchived and color that the body leaves out holds its value in [n],
    id, owner and creation date are those of [n], and [updatedAt] is the
    time of the save.  A body that carries only [isPinned: true] changes
    [isPinned] (and [updatedAt]) and nothing else. *)
Theorem update_frame (uid id : ObjectId) (now : Date) (b : UpdateBody)
    (pre post : list Note) (n : Note)
    (Hunique : uniqueIds (pre ++ n :: post) = true)
    (Hfound : fst (findOne (byIdAndOwner id uid) (pre ++ n :: post)) = Some n)
    (Hvalid : schemaValid n = true)
    (Hbody : updateNoteValidation (sanitizeUpdate b) = []) :
  let n' :=
    mkNote (_id n)
      (match u_title b with Some t => trim t | None => title n end)
      (match u_content b with Some c => trim c | None => content n end)
      (match u_category b with Some c => c | None => category n end)
      (match u_tags b with
       | Some tags => filter truthy (map trim tags)
       | None => tags n
       end)
      (match u_isPinned b with Some p => p | None => isPinned n end)
      (match u_isArchived b with Some a => a | None => isArchived n end)
      (match u_color b with Some c => c | None => color n end)
      (userId n) (createdAt n) now in
  route_updateNote uid id now b (pre ++ n :: post)
    = (Success 200 "Note updated successfully" (DNote n'), pre ++ n' :: post)
  /\ (b = mkUpdateBody None None None None (Some true) None None ->
      n' = mkNote (_id n) (title n) (content n) (category n) (tags n) true
                  (isArchived n) (color n) (userId n) (createdAt n) now).
Proof.
  intros n'. split; [|intros ->; reflexivity].
  simpl in Hfound.
  unfold route_updateNote. cbv zeta. rewrite Hbody. unfold validated.
  unfold updateNote, bind, findOne, ret. rewrite Hfound.
  destruct (save_at id uid now pre n post (applyUpdate (sanitizeUpdate b) n)
              Hunique Hfound (update_keeps_valid b n Hvalid Hbody))
    as (S1 & _ & _).
  - rewrite applyUpdate_sanitized. reflexivity.
  - rewrite applyUpdate_sanitized. reflexivity.
  - rewrite S1. rewrite applyUpdate_sanitized. reflexivity.
Qed.

(** ** Create *)

Lemma checkTags_ok i l :
  forallb (fun t => strLen t <=? 30) l = true -> checkTags i l = [].
Proof.
  revert i. induction l as [|t r IH]; intros i; simpl; [easy|].
  intros H. apply andb_true_iff in H as [Ht Hr].
  rewrite Ht. simpl. now apply IH.
Qed.

Lemma validated_invalid errors (handler : M Response) s :
  errors <> [] -> validated errors handler s = (Invalid errors, s).
Proof. destruct errors; [congruence | reflexivity]. Qed.

(** Dropping the empty strings keeps every other string as often as it
    occurred. *)
Lemma count_occ_truthy l x :
  truthy x = true ->
  count_occ string_dec (filter truthy l) x = count_occ string_dec l x.
Proof.
  intros Hx. induction l as [|y r IH]; simpl; [reflexivity|].
  destruct (truthy y) eqn:Ey; simpl.
  - destruct (string_dec y x); now rewrite IH.
  - destruct (string_dec y x) as [->|_]; [congruence | exact IH].
Qed.

(** C8. For a create request that carries a tags array [sent]:
    - with more than 10 elements the validators reject it ("Cannot have
      more than 10 tags") and nothing is stored;
    - with at most 10 elements (10 among them), each at most 30 characters
      long once trimmed, a body whose other fields pass the validators and
      a fresh id, the note is created with status 201 and appended to the
      collection; its tags are the trimmed elements of [sent], in order,
      without those that are empty once trimmed; nothing is deduplicated:
      a non-empty trimmed tag is stored as often as it was sent. *)
Theorem create_tags (uid newId : ObjectId) (now : Date) (b : CreateBody)
    (sent : list string) (s : Store)
    (Hsent : b_tags b = Some sent) :
  (10 < Z.of_nat (List.length sent) ->
   exists errors,
     route_createNote uid newId now b s = (Invalid errors, s)
     /\ In (Field "tags", "Cannot have more than 10 tags"%string) errors)
  /\ (Z.of_nat (List.length sent) <= 10 ->
      forallb (fun t => strLen (trim t) <=? 30) sent = true ->
      createNoteValidation
        (sanitizeCreate
           (mkCreateBody (b_title b) (b_content b) (b_category b) None (b_color b)))
      = [] ->
      existsb (fun x => N.eqb (_id x) newId) s = false ->
      exists note,
        route_createNote uid newId now b s
          = (Success 201 "Note created successfully" (DNote note), s ++ [note])
        /\ note
           = mkNote newId (trim (dflt ""%string (b_title b)))
                    (trim (dflt ""%string (b_content b)))
                    (dflt "personal"%string (b_category b))
                    (filter truthy (map trim sent)) false false
                    (dflt "#ffffff"%string (b_color b)) uid now now
        /\ forall x, truthy x = true ->
             count_occ string_dec (tags note) x
             = count_occ string_dec (map trim sent) x).
Proof.
  split.
  - intros Hmany. exists (createNoteValidation (sanitizeCreate b)).
    assert (Hin : In (Field "tags", "Cannot have more than 10 tags"%string)
                     (createNoteValidation (sanitizeCreate b))).
    { unfold createNoteValidation, sanitizeCreate. simpl. rewrite Hsent. simpl.
      rewrite length_map.
      apply in_or_app. right. apply in_or_app. right. apply in_or_app. right.
      apply in_or_app. left.
      apply Z.ltb_lt in Hmany. rewrite Hmany. now left. }
    split; [|exact Hin].
    unfold route_createNote. cbv zeta. apply validated_invalid.
    intros E. now rewrite E in Hin.
  - intros Hfew Hlen Hrest Hfresh.
    unfold createNoteValidation, sanitizeCreate in Hrest. simpl in Hrest.
    apply app_eq_nil in Hrest as [Vtitle Hrest].
    apply app_eq_nil in Hrest as [Vcontent Hrest].
    apply app_eq_nil in Hrest as [Vcategory Vcolor].
    assert (Hv : createNoteValidation (sanitizeCreate b) = []).
    { unfold createNoteValidation, sanitizeCreate. simpl.
      rewrite Vtitle, Vcontent, Vcategory, Vcolor, Hsent. simpl.
      rewrite length_map.
      replace (10 <? Z.of_nat (List.length sent)) with false
        by (symmetry; apply Z.ltb_ge; lia).
      simpl. rewrite checkTags_ok; [reflexivity|].
      now rewrite forallb_map. }
    apply check_nil in Vtitle, Vcontent, Vcategory.
    unfold route_createNote. cbv zeta. rewrite Hv. unfold validated.
    unfold createNote, sanitizeCreate. simpl. rewrite Hsent. simpl.
    unfold bind, saveNew, ret, newNote.
    rewrite !trim_idempotent, map_trim_idem, map_trim_kept.
    set (note := mkNote newId _ _ _ _ false false _ uid now now).
    assert (Hvalid : schemaValid note = true).
    { unfold schemaValid, note. simpl.
      rewrite Vtitle, Vcontent. simpl.
      apply andb_true_iff. split; [apply andb_true_iff; split|].
      - destruct (b_category b) as [c|]; [exact Vcategory | discriminate].
      - apply forallb_filter. now rewrite forallb_map.
      - destruct (b_color b) as [c|]; simpl in *; [|reflexivity].
        apply check_nil in Vcolor. rewrite Vcolor. apply orb_true_r. }
    rewrite Hvalid. simpl _id. rewrite Hfresh. simpl.
    exists (preSave now note). split; [reflexivity|]. split; [reflexivity|].
    intros x Hx. simpl. now apply count_occ_truthy.
Qed.

(** * Further properties of the notes router *)

(** ** Create, then read *)

Lemma find_app (p : Note -> bool) l1 l2 :
  List.find p l1 = None -> List.find p (l1 ++ l2) = List.find p l2.
Proof.
  induction l1 as [|x r IH]; simpl; [easy|].
  destruct (p x); [discriminate | exact IH].
Qed.

Lemma fresh_not_found id uid s :
  existsb (fun x => N.eqb (_id x) id) s = false ->
  List.find (matches (byIdAndOwner id uid)) s = None.
Proof.
  intros Hf. apply lookup_none. intros n Hin [Hi _].
  assert (T : existsb (fun x => N.eqb (_id x) id) s = true).
  { apply existsb_exists. exists n. split; [exact Hin | now apply N.eqb_eq]. }
  congruence.
Qed.

Lemma createdNote_valid uid newId now b :
  createNoteValidation (sanitizeCreate b) = [] ->
  schemaValid (createdNote uid newId now b) = true.
Proof.
  unfold createNoteValidation, sanitizeCreate.
  cbn [b_title b_content b_category b_tags b_color dflt].
  intros H.
  apply app_eq_nil in H as [Vtitle H].
  apply app_eq_nil in H as [Vcontent H].
  apply app_eq_nil in H as [Vcategory H].
  apply app_eq_nil in H as [_ H].
  apply app_eq_nil in H as [Vtags Vcolor].
  apply check_nil in Vtitle, Vcontent, Vcategory.
  unfold schemaValid, createdNote. cbn [title content category tags color].
  rewrite Vtitle, Vcontent. cbn [andb].
  apply andb_true_iff. split; [apply andb_true_iff; split|].
  - destruct (b_category b) as [c|]; [exact Vcategory | discriminate].
  - destruct (b_tags b) as [sent|]; [|reflexivity].
    apply forallb_filter. exact (checkTags_nil 0 _ Vtags).
  - destruct (b_color b) as [c|]; cbn [dflt optional] in *; [|reflexivity].
    rewrite (check_nil _ _ _ Vcolor). apply orb_true_r.
Qed.

Lemma route_createNote_success uid newId now b s :
  createNoteValidation (sanitizeCreate b) = [] ->
  existsb (fun x => N.eqb (_id x) newId) s = false ->
  route_createNote uid newId now b s
  = (Success 201 "Note created successfully" (DNote (createdNote uid newId now b)),
     s ++ [createdNote uid newId now b]).
Proof.
  intros Hv Hfresh.
  pose proof (createdNote_valid uid newId now b Hv) as Hvalid.
  unfold route_createNote. cbv zeta. rewrite Hv. unfold validated.
  unfold createNote, sanitizeCreate. cbn [b_title b_content b_category b_tags b_color].
  unfold bind, saveNew, ret, newNote.
  rewrite !trim_idempotent.
  assert (Et : map trim
                 match option_map (map trim) (b_tags b) with
                 | Some tags => filter truthy (map trim tags)
                 | None => []
                 end
               = match b_tags b with
                 | Some sent => filter truthy (map trim sent)
                 | None => []
                 end).
  { destruct (b_tags b) as [sent|]; [|reflexivity].
    cbn [option_map]. now rewrite map_trim_idem, map_trim_kept. }
  rewrite Et. fold (createdNote uid newId now b).
  rewrite Hvalid. cbn [_id createdNote]. rewrite Hfresh. reflexivity.
Qed.

(** X1. A create request that passes the validators, under a fresh id, is
    answered 201 with the stored note; a GetById of the creating user for
    that id then answers 200 with the same note, which carries the
    trimmed title and content, the category, the owner and the time of
    creation; any other user gets the 404 of an unknown id. *)
Theorem create_then_get (uid newId : ObjectId) (now : Date) (b : CreateBody)
    (s : Store)
    (Hvalid : createNoteValidation (sanitizeCreate b) = [])
    (Hfresh : existsb (fun x => N.eqb (_id x) newId) s = false) :
  exists note,
    route_createNote uid newId now b s
      = (Success 201 "Note created successfully" (DNote note), s ++ [note])
    /\ getNote uid newId (s ++ [note])
       = (Success 200 "Note retrieved successfully" (DNote note), s ++ [note])
    /\ _id note = newId /\ userId note = uid
    /\ title note = trim (dflt ""%string (b_title b))
    /\ content note = trim (dflt ""%string (b_content b))
    /\ b_category b = Some (category note)
    /\ isPinned note = false /\ isArchived note = false
    /\ createdAt note = now /\ updatedAt note = now
    /\ (forall other, other <> uid ->
          getNote other newId (s ++ [note]) = (notFound "view", s ++ [note])).
Proof.
  exists (createdNote uid newId now b).
  split; [now apply route_createNote_success|].
  split.
  { unfold getNote, bind, findOne, ret.
    rewrite find_app by (now apply fresh_not_found).
    cbn [List.find]. rewrite matches_byIdAndOwner. cbn [_id userId createdNote].
    now rewrite !N.eqb_refl. }
  repeat split.
  - unfold createNoteValidation, sanitizeCreate in Hvalid.
    cbn [b_category] in Hvalid.
    apply app_eq_nil in Hvalid as [_ Hvalid].
    apply app_eq_nil in Hvalid as [_ Hvalid].
    apply app_eq_nil in Hvalid as [Vc _]. apply check_nil in Vc.
    cbn [category createdNote].
    destruct (b_category b) as [c|]; [reflexivity | discriminate].
  - intros other Hother. unfold getNote, bind, findOne, ret.
    rewrite find_app by (now apply fresh_not_found).
    cbn [List.find]. rewrite matches_byIdAndOwner. cbn [_id userId createdNote].
    rewrite N.eqb_refl. cbn [andb].
    destruct (N.eqb_spec uid other) as [E|_]; [congruence | reflexivity].
Qed.

(** ** Delete *)

(** Under unique ids no other note carries the id of a given one. *)
Lemma unique_no_other pre n post x :
  uniqueIds (pre ++ n :: post) = true ->
  In x (pre ++ post) -> _id x <> _id n.
Proof.
  induction pre as [|y r IH]; simpl; intros Hu Hin.
  - apply andb_true_iff in Hu as [Hn _]. apply negb_true_iff in Hn.
    intros E.
    assert (T : existsb (fun z => N.eqb (_id z) (_id n)) post = true).
    { apply existsb_exists. exists x. split; [exact Hin | now apply N.eqb_eq]. }
    congruence.
  - apply andb_true_iff in Hu as [Hy Hr]. destruct Hin as [-> | Hin].
    + apply negb_true_iff in Hy. intros E.
      assert (T : existsb (fun z => N.eqb (_id z) (_id x)) (r ++ n :: post) = true).
      { apply existsb_exists. exists n. split.
        - apply in_or_app. right. now left.
        - apply N.eqb_eq. congruence. }
      congruence.
    + now apply IH.
Qed.

Lemma uniqueIds_remove pre n post :
  uniqueIds (pre ++ n :: post) = true -> uniqueIds (pre ++ post) = true.
Proof.
  induction pre as [|y r IH]; simpl; intros Hu.
  - now apply andb_true_iff in Hu as [_ Hu].
  - apply andb_true_iff in Hu as [Hy Hr]. rewrite (IH Hr), andb_true_r.
    apply negb_true_iff in Hy. apply negb_true_iff.
    rewrite existsb_app in *. simpl in Hy.
    apply orb_false_iff in Hy as [H1 H2]. apply orb_false_iff in H2 as [_ H2].
    now rewrite H1, H2.
Qed.

(** Under unique ids the note a lookup found is the first match, so it is
    the one [findOneAndDelete] removes. *)
Lemma removeFirst_at id uid pre n post :
  uniqueIds (pre ++ n :: post) = true ->
  List.find (matches (byIdAndOwner id uid)) (pre ++ n :: post) = Some n ->
  removeFirst (matches (byIdAndOwner id uid)) (pre ++ n :: post) = pre ++ post.
Proof.
  intros Hu Hf.
  destruct (lookup_some _ _ _ _ Hf) as (_ & Hid & Huid).
  assert (Mn : matches (byIdAndOwner id uid) n = true).
  { rewrite matches_byIdAndOwner, Hid, Huid, !N.eqb_refl. reflexivity. }
  assert (Hpre : forall x, In x pre -> matches (byIdAndOwner id uid) x = false).
  { intros x Hx. rewrite matches_byIdAndOwner.
    pose proof (unique_no_other pre n post x Hu) as Hne.
    destruct (N.eqb_spec (_id x) id) as [E|_]; [|reflexivity].
    exfalso. apply Hne; [apply in_or_app; now left | congruence]. }
  clear Hu Hf. induction pre as [|y r IH]; simpl.
  - now rewrite Mn.
  - rewrite (Hpre y (or_introl eq_refl)). f_equal. apply IH.
    intros x Hx. apply Hpre. now right.
Qed.

(** X2. Let the lookup of [uid] for [id] find the note [n] at some place
    of a collection with unique ids.  Delete answers 200 with the id and
    removes that one document, the order and content of the rest
    unchanged; afterwards GetById and a second Delete for the id answer
    404, and the second Delete removes nothing. *)
Theorem delete_removes (uid id : ObjectId) (pre post : list Note) (n : Note)
    (Hunique : uniqueIds (pre ++ n :: post) = true)
    (Hfound : fst (findOne (byIdAndOwner id uid) (pre ++ n :: post)) = Some n) :
  deleteNote uid id (pre ++ n :: post)
    = (Success 200 "Note deleted successfully" (DId id), pre ++ post)
  /\ getNote uid id (pre ++ post) = (notFound "view", pre ++ post)
  /\ deleteNote uid id (pre ++ post) = (notFound "delete", pre ++ post)
  /\ uniqueIds (pre ++ post) = true.
Proof.
  simpl in Hfound.
  destruct (lookup_some _ _ _ _ Hfound) as (_ & Hid & Huid).
  assert (Hgone : List.find (matches (byIdAndOwner id uid)) (pre ++ post) = None).
  { apply lookup_none. intros x Hx [Hi _].
    apply (unique_no_other pre n post x Hunique Hx). congruence. }
  split; [|split; [|split]].
  - unfold deleteNote, bind, findOneAndDelete, ret.
    rewrite Hfound, (removeFirst_at id uid pre n post Hunique Hfound).
    now rewrite Hid.
  - exact (perNote_none GetById uid id 0 _ Hgone).
  - exact (perNote_none Delete uid id 0 _ Hgone).
  - exact (uniqueIds_remove pre n post Hunique).
Qed.

(** ** Notes of other users *)

Lemma applyUpdate_keeps_key b n :
  _id (applyUpdate b n) = _id n /\ userId (applyUpdate b n) = userId n.
Proof.
  destruct n, b as [[t|] [c|] [g|] [tg|] [p|] [a|] [cl|]];
    cbv [applyUpdate assign set_title set_content set_category set_tags
         set_isPinned set_isArchived set_color option_map
         u_title u_content u_category u_tags u_isPinned u_isArchived u_color
         _id title content category tags isPinned isArchived color userId
         createdAt updatedAt];
    split; reflexivity.
Qed.

Lemma othersOf_at uid pre n post :
  userId n = uid -> othersOf uid (pre ++ n :: post) = othersOf uid (pre ++ post).
Proof.
  intros Hn. unfold othersOf. rewrite !filter_app. cbn [filter].
  now rewrite Hn, N.eqb_refl.
Qed.

(** X3. In a collection with unique ids, no per-note request of a user
    (read, update, delete, pin, archive), whatever id it names, and no
    create request of that user changes, removes or reorders a note of
    another user. *)
Theorem owner_isolation (uid : ObjectId) (s : Store)
    (Hunique : uniqueIds s = true) :
  (forall op id now,
     othersOf uid (snd (perNote op uid id now s)) = othersOf uid s)
  /\ (forall newId now b,
        othersOf uid (snd (route_createNote uid newId now b s)) = othersOf uid s).
Proof.
  split.
  - intros op id now.
    destruct (List.find (matches (byIdAndOwner id uid)) s) as [n|] eqn:Hf.
    2: { now rewrite (perNote_none op uid id now s Hf). }
    destruct (lookup_some _ _ _ _ Hf) as (_ & Hid & Huid).
    destruct (find_split _ _ _ Hf) as (pre & post & ->).
    assert (Hsave : forall n', _id n' = _id n -> userId n' = userId n ->
              othersOf uid (snd (save now n' (pre ++ n :: post)))
              = othersOf uid (pre ++ n :: post)).
    { intros n' Hi Ho. unfold save. destruct (schemaValid n'); [|reflexivity].
      cbn [snd]. rewrite replace_at by (simpl; congruence).
      rewrite !othersOf_at; [reflexivity | exact Huid | simpl; congruence]. }
    destruct op; run_route; rewrite Hf.
    + reflexivity.
    + fold (save now (applyUpdate b n) (pre ++ n :: post)).
      destruct (applyUpdate_keeps_key b n) as [Ki Ko].
      specialize (Hsave (applyUpdate b n) Ki Ko).
      destruct (save now (applyUpdate b n) (pre ++ n :: post)) as [[saved|] s'];
        exact Hsave.
    + cbn [snd]. rewrite (removeFirst_at id uid pre n post Hunique Hf).
      symmetry. now apply othersOf_at.
    + fold (save now (set_isPinned (negb (isPinned n)) n) (pre ++ n :: post)).
      specialize (Hsave (set_isPinned (negb (isPinned n)) n) eq_refl eq_refl).
      destruct (save now (set_isPinned (negb (isPinned n)) n) (pre ++ n :: post))
        as [[saved|] s']; exact Hsave.
    + fold (save now (set_isArchived (negb (isArchived n)) n) (pre ++ n :: post)).
      specialize (Hsave (set_isArchived (negb (isArchived n)) n) eq_refl eq_refl).
      destruct (save now (set_isArchived (negb (isArchived n)) n) (pre ++ n :: post))
        as [[saved|] s']; exact Hsave.
  - intros newId now b. unfold route_createNote, validated. cbv zeta.
    destruct (createNoteValidation (sanitizeCreate b)); [|reflexivity].
    unfold createNote.
    destruct (b_title (sanitizeCreate b)) as [t|]; [|reflexivity].
    destruct (b_content (sanitizeCreate b)) as [c|]; [|reflexivity].
    unfold bind, ret, saveNew.
    match goal with |- context [schemaValid ?x && ?y] =>
      destruct (schemaValid x && y) end; [|reflexivity].
    cbn [snd]. unfold othersOf. rewrite filter_app. cbn [filter].
    cbn [userId preSave set_updatedAt newNote]. rewrite N.eqb_refl.
    cbn [negb]. now rewrite app_nil_r.
Qed.

(** ** The order of a listing *)

Section InsertionSort.

Variable le : Note -> Note -> bool.
Hypothesis le_total : forall a b, le a b = false -> le b a = true.

Let R (a b : Note) : Prop := le a b = true.

Lemma insertSorted_HdRel y x l :
  R y x -> HdRel R y l -> HdRel R y (insertSorted le x l).
Proof.
  intros Hyx Hl. destruct l as [|z r]; simpl; [now constructor|].
  destruct (le x z); constructor; [exact Hyx|].
  now inversion Hl.
Qed.

Lemma insertSorted_sorted x l : Sorted R l -> Sorted R (insertSorted le x l).
Proof.
  induction l as [|y r IH]; simpl; intros Hs.
  - repeat constructor.
  - destruct (le x y) eqn:E.
    + constructor; [exact Hs | now constructor].
    + inversion Hs as [|? ? Hr Hd]; subst. constructor; [now apply IH|].
      apply insertSorted_HdRel; [now apply le_total | exact Hd].
Qed.

Lemma sortNotes_sorted l : Sorted R (sortNotes le l).
Proof.
  induction l as [|x r IH]; simpl; [constructor|].
  now apply insertSorted_sorted.
Qed.

End InsertionSort.

Lemma Sorted_skipn {A} (R : A -> A -> Prop) k l :
  Sorted R l -> Sorted R (skipn k l).
Proof.
  revert l. induction k as [|k IH]; intros l Hs; [exact Hs|].
  destruct l as [|x r]; [constructor|]. simpl. apply IH. now inversion Hs.
Qed.

Lemma Sorted_firstn {A} (R : A -> A -> Prop) k l :
  Sorted R l -> Sorted R (firstn k l).
Proof.
  revert k. induction l as [|x r IH]; intros k Hs.
  - rewrite firstn_nil. constructor.
  - destruct k as [|k]; [constructor|]. simpl.
    inversion Hs as [|? ? Hr Hd]; subst. constructor; [now apply IH|].
    destruct r as [|y r'], k as [|k]; simpl; constructor. now inversion Hd.
Qed.

Lemma Sorted_weaken {A} (R1 R2 : A -> A -> Prop) l :
  (forall a b, R1 a b -> R2 a b) -> Sorted R1 l -> Sorted R2 l.
Proof.
  intros Hw. induction 1 as [|x r Hs IH Hd]; constructor; [exact IH|].
  destruct Hd; constructor. now apply Hw.
Qed.

Lemma keyCompare_antisym sortBy a b :
  keyCompare sortBy b a = CompOpp (keyCompare sortBy a b).
Proof.
  unfold keyCompare.
  destruct (String.eqb sortBy "createdAt"); [apply Z.compare_antisym|].
  destruct (String.eqb sortBy "updatedAt"); [apply Z.compare_antisym|].
  destruct (String.eqb sortBy "title"); [apply String.compare_antisym|].
  reflexivity.
Qed.

Lemma sortLe_total sortBy dir a b :
  sortLe sortBy dir a b = false -> sortLe sortBy dir b a = true.
Proof.
  unfold sortLe. destruct (dir <? 0).
  - rewrite (keyCompare_antisym sortBy b a).
    destruct (keyCompare sortBy b a); simpl; congruence.
  - rewrite (keyCompare_antisym sortBy a b).
    destruct (keyCompare sortBy a b); simpl; congruence.
Qed.

(** The page of a listing as a window of [selected]. *)
Lemma getNotes_window uid q s :
  notesOf (fst (getNotes uid q s))
  = applyLimit (limitOf q) (applySkip (skipOf q) (selected uid q s)).
Proof. reflexivity. Qed.

(** X4. The notes of a listing come in the order asked for: each note and
    its successor on the page are in the order of [sortBy] and
    [sortOrder].  Without these parameters the page runs from the most
    recently updated note to the least recently updated one; with
    [sortBy=createdAt] and [sortOrder=asc] it runs from the oldest note
    to the newest. *)
Theorem listing_sorted (uid : ObjectId) (q : ListQuery) (s : Store) :
  Sorted (fun a b => sortLe (dflt "updatedAt"%string (q_sortBy q)) (directionOf q) a b = true)
         (notesOf (fst (getNotes uid q s)))
  /\ (q_sortBy q = None -> q_sortOrder q = None ->
      StronglySorted (fun a b => updatedAt b <= updatedAt a)
                     (notesOf (fst (getNotes uid q s))))
  /\ (q_sortBy q = Some "createdAt"%string -> q_sortOrder q = Some "asc"%string ->
      StronglySorted (fun a b => createdAt a <= createdAt b)
                     (notesOf (fst (getNotes uid q s)))).
Proof.
  assert (G : Sorted (fun a b => sortLe (dflt "updatedAt"%string (q_sortBy q))
                                        (directionOf q) a b = true)
                     (notesOf (fst (getNotes uid q s)))).
  { rewrite getNotes_window. unfold applyLimit, applySkip.
    destruct (limitOf q =? 0); [|apply Sorted_firstn]; apply Sorted_skipn;
      apply sortNotes_sorted; apply sortLe_total. }
  split; [exact G|]. split; intros Hb Ho.
  - apply Sorted_StronglySorted; [intros a b c; lia|].
    revert G. apply Sorted_weaken. intros a b.
    unfold directionOf. rewrite Hb, Ho. unfold sortLe, keyCompare. cbn.
    destruct (Z.compare_spec (updatedAt b) (updatedAt a)); [lia | lia | intros; discriminate].
  - apply Sorted_StronglySorted; [intros a b c; lia|].
    revert G. apply Sorted_weaken. intros a b.
    unfold directionOf. rewrite Hb, Ho. unfold sortLe, keyCompare. cbn.
    destruct (Z.compare_spec (createdAt a) (createdAt b)); [lia | lia | intros; discriminate].
Qed.

(** ** Pages *)

Lemma firstn_plus {A} (a b : nat) (l : list A) :
  firstn (a + b) l = firstn a l ++ firstn b (skipn a l).
Proof.
  revert l. induction a as [|a IH]; intros l; [reflexivity|].
  destruct l as [|x r]; simpl; [now rewrite firstn_nil|].
  now rewrite IH.
Qed.

(** Consecutive windows of width [m] add up to a prefix. *)
Lemma concat_windows {A} (m : nat) (l : list A) (k : nat) :
  List.concat (map (fun p => firstn m (skipn ((p - 1) * m) l)) (seq 1 k))
  = firstn (k * m) l.
Proof.
  induction k as [|k IH]; [reflexivity|].
  rewrite seq_S, map_app, concat_app, IH. simpl.
  rewrite app_nil_r, Nat.sub_0_r.
  now rewrite (Nat.add_comm m (k * m)), firstn_plus.
Qed.

Lemma selected_withPage uid p q s : selected uid (withPage p q) s = selected uid q s.
Proof. reflexivity. Qed.

Lemma selected_perm uid q s :
  Permutation (selected uid q s) (filter (matches (countQuery uid q)) s).
Proof.
  unfold selected. rewrite countQuery_same. apply sortNotes_perm.
Qed.

Lemma queryValidation_withPage p q :
  1 <= p -> queryValidation q = [] -> queryValidation (withPage p q) = [].
Proof.
  unfold queryValidation. intros Hp H.
  apply app_eq_nil in H as [_ H]. cbn [withPage q_page q_limit q_category
    q_isPinned q_isArchived q_sortBy q_sortOrder optional].
  rewrite H. replace (1 <=? p) with true by (symmetry; apply Z.leb_le; lia).
  reflexivity.
Qed.

Lemma pageParam_withPage p q : pageParam (withPage p q) = p.
Proof. reflexivity. Qed.

Lemma limitParam_withPage p q : limitParam (withPage p q) = limitParam q.
Proof. reflexivity. Qed.

(** The notes on page [p] of a validated request, while [p * limit] is a
    safe integer. *)
Lemma page_window uid q s p :
  1 <= p -> p * limitParam q <= maxSafeInteger -> queryValidation q = [] ->
  route_getNotes uid (withPage p q) s = getNotes uid (withPage p q) s
  /\ notesOf (fst (getNotes uid (withPage p q) s))
     = firstn (Z.to_nat (limitParam q))
         (skipn ((Z.to_nat p - 1) * Z.to_nat (limitParam q)) (selected uid q s)).
Proof.
  intros Hp Hsafe Hv. destruct (queryValidation_bounds q Hv) as [_ Hl].
  pose proof (queryValidation_withPage p q Hp Hv) as Hv'.
  destruct (safe_exact (withPage p q) Hv') as (_ & Elimit & Eskip).
  { now rewrite pageParam_withPage, limitParam_withPage. }
  rewrite pageParam_withPage, limitParam_withPage in Eskip.
  rewrite limitParam_withPage in Elimit.
  split.
  - unfold route_getNotes. now rewrite Hv'.
  - rewrite getNotes_window, selected_withPage, Elimit, Eskip.
    unfold applyLimit, applySkip.
    destruct (Z.eqb_spec (limitParam q) 0) as [E|_]; [lia|].
    do 2 f_equal. rewrite Z2Nat.inj_mul by lia. f_equal.
    rewrite Z2Nat.inj_sub by lia. reflexivity.
Qed.

(** *** The order of the listing where no two notes tie *)

Lemma string_compare_trans (a b c : string) :
  String.compare a b <> Gt -> String.compare b c <> Gt -> String.compare a c <> Gt.
Proof.
  revert b c. induction a as [|x a IH]; intros [|y b] [|z c]; simpl;
    try congruence.
  unfold Ascii.compare.
  destruct (N.compare_spec (N_of_ascii x) (N_of_ascii y)),
           (N.compare_spec (N_of_ascii y) (N_of_ascii z)),
           (N.compare_spec (N_of_ascii x) (N_of_ascii z));
    try congruence; try lia.
  apply IH.
Qed.

Lemma keyCompare_trans sortBy a b c :
  keyCompare sortBy a b <> Gt -> keyCompare sortBy b c <> Gt ->
  keyCompare sortBy a c <> Gt.
Proof.
  unfold keyCompare.
  destruct (String.eqb sortBy "createdAt").
  { rewrite !Z.compare_le_iff. lia. }
  destruct (String.eqb sortBy "updatedAt").
  { rewrite !Z.compare_le_iff. lia. }
  destruct (String.eqb sortBy "title"); [apply string_compare_trans|].
  congruence.
Qed.

Lemma sortLe_spec sortBy dir a b :
  sortLe sortBy dir a b = true
  <-> (if dir <? 0 then keyCompare sortBy b a else keyCompare sortBy a b) <> Gt.
Proof.
  unfold sortLe.
  destruct (if dir <? 0 then keyCompare sortBy b a else keyCompare sortBy a b);
    split; congruence.
Qed.

Lemma sortLe_trans sortBy dir a b c :
  sortLe sortBy dir a b = true -> sortLe sortBy dir b c = true ->
  sortLe sortBy dir a c = true.
Proof.
  rewrite !sortLe_spec. destruct (dir <? 0); intros H1 H2.
  - exact (keyCompare_trans sortBy c b a H2 H1).
  - exact (keyCompare_trans sortBy a b c H1 H2).
Qed.

(** Two notes that the order puts either way round tie on the key. *)
Lemma sortLe_both sortBy dir a b :
  sortLe sortBy dir a b = true -> sortLe sortBy dir b a = true ->
  keyCompare sortBy a b = Eq.
Proof.
  rewrite !sortLe_spec. rewrite (keyCompare_antisym sortBy a b).
  destruct (dir <? 0), (keyCompare sortBy a b); simpl; congruence.
Qed.

Lemma distinctKeys_spec sortBy l :
  distinctKeys sortBy l = true ->
  forall a b, In a l -> In b l -> keyCompare sortBy a b = Eq -> a = b.
Proof.
  induction l as [|x r IH]; simpl; [easy|].
  intros H. apply andb_true_iff in H as [Hx Hr].
  rewrite forallb_forall in Hx.
  intros a b [Ea|Ha] [Eb|Hb] E; subst.
  - reflexivity.
  - specialize (Hx b Hb). now rewrite E in Hx.
  - specialize (Hx a Ha). rewrite keyCompare_antisym, E in Hx. discriminate Hx.
  - now apply IH.
Qed.

(** A list has one sorted arrangement at most, when the order puts no two
    of its members both ways round. *)
Lemma sorted_perm_unique (R : Note -> Note -> Prop) (l1 l2 : list Note) :
  (forall a b, In a l1 -> In b l1 -> R a b -> R b a -> a = b) ->
  StronglySorted R l1 -> StronglySorted R l2 -> Permutation l1 l2 -> l1 = l2.
Proof.
  revert l2. induction l1 as [|x r1 IH]; intros l2 Hanti S1 S2 P.
  - now apply Permutation_nil in P.
  - destruct l2 as [|y r2]; [now apply Permutation_sym, Permutation_nil in P|].
    apply StronglySorted_inv in S1 as [S1 F1].
    apply StronglySorted_inv in S2 as [S2 F2].
    rewrite Forall_forall in F1, F2.
    assert (E : x = y).
    { assert (Hx : In x (y :: r2)) by (apply (Permutation_in _ P); now left).
      assert (Hy : In y (x :: r1))
        by (apply (Permutation_in _ (Permutation_sym P)); now left).
      destruct Hx as [Hx|Hx]; [now symmetry|].
      destruct Hy as [Hy|Hy]; [exact Hy|].
      apply Hanti; [now left | now right | now apply F1 | now apply F2]. }
    subst y. f_equal. apply IH; try assumption.
    + intros a b Ha Hb. apply Hanti; now right.
    + now apply Permutation_cons_inv in P.
Qed.

(** Where no two selected notes tie on the sort key, every sorted
    arrangement of the selected notes is the listing order. *)
Lemma selected_unique uid q s l :
  distinctKeys (dflt "updatedAt"%string (q_sortBy q))
               (filter (matches (countQuery uid q)) s) = true ->
  Permutation l (filter (matches (countQuery uid q)) s) ->
  Sorted (fun a b => sortLe (dflt "updatedAt"%string (q_sortBy q)) (directionOf q) a b = true) l ->
  l = selected uid q s.
Proof.
  intros Hd P S.
  pose proof (distinctKeys_spec _ _ Hd) as Hties.
  set (R := fun a b => sortLe (dflt "updatedAt"%string (q_sortBy q))
                              (directionOf q) a b = true) in *.
  assert (T : Relations_1.Transitive R).
  { intros a b c. apply sortLe_trans. }
  apply (sorted_perm_unique R).
  - intros a b Ha Hb Rab Rba.
    apply Hties; try (apply (Permutation_in _ P); assumption).
    exact (sortLe_both _ _ _ _ Rab Rba).
  - now apply Sorted_StronglySorted.
  - apply Sorted_StronglySorted; [exact T|].
    apply sortNotes_sorted. apply sortLe_total.
  - rewrite P. apply Permutation_sym, selected_perm.
Qed.

(** X5. For a listing request that passes [queryValidation], over a
    collection of fewer than 2^53 - 100 notes that does not change between
    the requests, and where no two of the notes that the request selects
    tie on the sort key: the selected notes have one sorted arrangement
    only, and the pages 1, 2, ..., [totalPages], put one after the other,
    are that arrangement, so every selected note is on exactly one page
    position; and a page whose [page * limit] is a safe integer is answered
    200 and is empty exactly when its number is beyond [totalPages]. *)
Theorem pages_tile (uid : ObjectId) (q : ListQuery) (s : Store)
    (Hvalid : queryValidation q = [])
    (Hsize : Z.of_nat (List.length s) + 100 <= maxSafeInteger)
    (Hties : distinctKeys (dflt "updatedAt"%string (q_sortBy q))
                          (filter (matches (countQuery uid q)) s) = true) :
  let total := Z.of_nat (List.length (filter (matches (countQuery uid q)) s)) in
  let last := mathCeilDiv total (limitParam q) in
  let pages :=
    List.concat (map (fun p => notesOf (fst (route_getNotes uid (withPage (Z.of_nat p) q) s)))
                     (seq 1 (Z.to_nat last))) in
  Permutation pages (filter (matches (countQuery uid q)) s)
  /\ (forall l,
        Permutation l (filter (matches (countQuery uid q)) s) ->
        Sorted (fun a b => sortLe (dflt "updatedAt"%string (q_sortBy q))
                                  (directionOf q) a b = true) l ->
        pages = l)
  /\ (forall p, 1 <= p -> p * limitParam q <= maxSafeInteger ->
        exists notes pg,
          route_getNotes uid (withPage p q) s
            = (Success 200 "Notes retrieved successfully" (DNotes notes pg), s)
          /\ totalPages pg = last
          /\ (notes = [] <-> last < p)).
Proof.
  intros total last pages.
  destruct (queryValidation_bounds q Hvalid) as [_ Hl].
  pose proof (mathCeilDiv_spec total (limitParam q) ltac:(lia)) as Hc.
  fold last in Hc.
  assert (Hlen : Z.of_nat (List.length (selected uid q s)) = total).
  { unfold total. now rewrite (Permutation_length (selected_perm uid q s)). }
  assert (Htotal : total <= Z.of_nat (List.length s)).
  { unfold total. apply Nat2Z.inj_le, filter_length_le. }
  assert (Hpages : pages = selected uid q s).
  { unfold pages. rewrite (map_ext_in _
      (fun p => firstn (Z.to_nat (limitParam q))
                  (skipn ((p - 1) * Z.to_nat (limitParam q)) (selected uid q s)))).
    + rewrite concat_windows. apply firstn_all2.
      assert (0 <= last) by nia.
      apply Nat2Z.inj_le. rewrite Nat2Z.inj_mul, !Z2Nat.id by lia. lia.
    + intros p Hp. apply in_seq in Hp.
      destruct (page_window uid q s (Z.of_nat p) ltac:(lia) ltac:(nia) Hvalid) as [E W].
      rewrite E, W. now rewrite Nat2Z.id. }
  split; [|split].
  - rewrite Hpages. apply selected_perm.
  - intros l P S. rewrite Hpages. symmetry. now apply selected_unique.
  - intros p Hp Hsafe.
    destruct (page_window uid q s p Hp Hsafe Hvalid) as [E W].
    destruct (queryValidation_parsed (withPage p q)) as (_ & El & _).
    { now apply queryValidation_withPage. }
    rewrite limitParam_withPage in El.
    rewrite E, getNotes_unfold. eexists _, _. split; [reflexivity|].
    split; [cbn [totalPages]; now rewrite El|].
    rewrite getNotes_unfold in W. cbn [fst notesOf] in W.
    split.
    + intros Hnil.
      assert (L0 : List.length (fst (findUserNotes uid (listOptions (withPage p q)) s)) = 0%nat)
        by now rewrite Hnil.
      rewrite W, length_firstn, length_skipn in L0.
      assert (Z.of_nat (List.length (selected uid q s))
              <= Z.of_nat ((Z.to_nat p - 1) * Z.to_nat (limitParam q))) by lia.
      rewrite Nat2Z.inj_mul, Nat2Z.inj_sub, !Z2Nat.id in H by lia.
      nia.
    + intros Hbeyond. apply length_zero_iff_nil.
      rewrite W, length_firstn, length_skipn.
      assert (Z.of_nat (List.length (selected uid q s))
              <= Z.of_nat ((Z.to_nat p - 1) * Z.to_nat (limitParam q))).
      { rewrite Nat2Z.inj_mul, Nat2Z.inj_sub, !Z2Nat.id by lia. nia. }
      lia.
Qed.

(** ** Text search *)

Lemma getNotes_sorted uid q s :
  Sorted (fun a b => sortLe (dflt "updatedAt"%string (q_sortBy q)) (directionOf q) a b = true)
         (notesOf (fst (getNotes uid q s))).
Proof.
  rewrite getNotes_window. unfold applyLimit, applySkip.
  destruct (limitOf q =? 0); [|apply Sorted_firstn]; apply Sorted_skipn;
    apply sortNotes_sorted; apply sortLe_total.
Qed.

(** A search term adds the [$text] condition to the filter of the same
    request without [search], and nothing else. *)
Lemma countQuery_search uid q term n :
  q_search q = Some term -> truthy term = true ->
  matches (countQuery uid q) n
  = matches (countQuery uid (withSearch None q)) n && textMatch term n.
Proof.
  intros Hs Ht. unfold matches, countQuery.
  cbn [withSearch q_search q_category q_isPinned q_isArchived archivedOf
       f_id f_userId f_isArchived f_category f_isPinned f_text truthyOpt holds].
  rewrite Hs. cbn [truthyOpt]. rewrite Ht. cbn [holds].
  now rewrite andb_true_r.
Qed.

(** The first page of a validated request holds every selected note when
    there are no more of them than the limit. *)
Lemma first_page_all uid q s :
  queryValidation q = [] -> pageParam q = 1 ->
  Z.of_nat (List.length (filter (matches (countQuery uid q)) s)) <= limitParam q ->
  notesOf (fst (getNotes uid q s)) = selected uid q s.
Proof.
  intros Hv Hp Hfew. destruct (queryValidation_bounds q Hv) as [_ Hl].
  destruct (safe_exact q Hv) as (_ & Elimit & Eskip).
  { rewrite Hp. unfold maxSafeInteger. lia. }
  rewrite getNotes_window, Elimit, Eskip, Hp.
  unfold applyLimit, applySkip.
  destruct (Z.eqb_spec (limitParam q) 0) as [E|_]; [lia|].
  cbn [Z.sub Z.opp Z.add Z.pos_sub Z.mul Z.to_nat skipn].
  apply firstn_all2. rewrite (Permutation_length (selected_perm uid q s)). lia.
Qed.

(** C9. For a listing request that passes [queryValidation] and carries a
    search term that is not empty: the page query and the count query
    carry the same [$text] condition on the term and are the same filter,
    which is the filter of the request without [search] narrowed by the
    text match; [totalNotes] counts the notes of the collection that this
    filter accepts; every note of the page is such a note, and the notes
    of the page are in the order of [sortBy] and [sortOrder], whatever
    their rank in the text index; the first page holds every matching
    note when there are no more of them than [limit].  The text index
    itself is declared over title, content and tags with the weights 10,
    5 and 8, that is 10 : 8 : 5 for title, tags and content. *)
Theorem text_search_weights (uid : ObjectId) (q : ListQuery) (s : Store) (term : string)
    (Hvalid : queryValidation q = [])
    (Hsearch : q_search q = Some term)
    (Hterm : truthy term = true) :
  exists notes pg,
    route_getNotes uid q s
      = (Success 200 "Notes retrieved successfully" (DNotes notes pg), s)
    /\ f_text (userNotesQuery uid (listOptions q)) = Some term
    /\ f_text (countQuery uid q) = Some term
    /\ countQuery uid q = userNotesQuery uid (listOptions q)
    /\ (forall n, matches (countQuery uid q) n
                  = matches (countQuery uid (withSearch None q)) n && textMatch term n)
    /\ pg_totalNotes pg
       = Z.of_nat (List.length
           (filter (fun n => matches (countQuery uid (withSearch None q)) n
                             && textMatch term n) s))
    /\ (forall n, In n notes ->
          In n s /\ matches (countQuery uid (withSearch None q)) n = true
          /\ textMatch term n = true)
    /\ Sorted (fun a b => sortLe (dflt "updatedAt"%string (q_sortBy q))
                                 (directionOf q) a b = true) notes
    /\ (pageParam q = 1 -> pg_totalNotes pg <= limitParam q ->
        forall n, In n s ->
          matches (countQuery uid (withSearch None q)) n = true ->
          textMatch term n = true -> In n notes)
    /\ indexedFields noteTextIndex = ["title"; "content"; "tags"]%string
    /\ map (fun field => weightOf field (weights noteTextIndex))
           ["title"; "tags"; "content"]%string
       = [Some 10; Some 8; Some 5].
Proof.
  pose proof (fun n => countQuery_search uid q term n Hsearch Hterm) as Hm.
  assert (Hfilter : filter (matches (countQuery uid q)) s
                    = filter (fun n => matches (countQuery uid (withSearch None q)) n
                                       && textMatch term n) s).
  { apply filter_ext. exact Hm. }
  unfold route_getNotes. rewrite Hvalid. unfold validated.
  pose proof (getNotes_sorted uid q s) as Hsorted.
  pose proof (first_page_all uid q s Hvalid) as Hall.
  rewrite getNotes_unfold in *. cbn [fst notesOf] in Hsorted, Hall.
  eexists _, _. split; [reflexivity|].
  cbv zeta. cbn [pg_totalNotes].
  assert (Hf : f_text (countQuery uid q) = Some term).
  { unfold countQuery. cbn [f_text]. rewrite Hsearch. cbn [truthyOpt].
    now rewrite Hterm. }
  split; [now rewrite <- countQuery_same|]. split; [exact Hf|].
  split; [apply countQuery_same|]. split; [exact Hm|].
  split; [now rewrite Hfilter|].
  split.
  { intros n Hn. apply findUserNotes_sound in Hn as [Hin Hn].
    rewrite <- countQuery_same, Hm in Hn. apply andb_true_iff in Hn. easy. }
  split; [exact Hsorted|].
  split; [|split; reflexivity].
  intros Hp Hfew n Hin Hn Ht.
  rewrite Hall; [| exact Hp | exact Hfew].
  apply (Permutation_in _ (Permutation_sym (selected_perm uid q s))).
  apply filter_In. split; [exact Hin|]. rewrite Hm, Hn, Ht. reflexivity.
Qed.

(** ** Query strings that are not what they seem *)

(** X6. Only the string "true" switches a boolean parameter of the
    listing on.  Any other value of [isArchived], among them "1", which
    [isBoolean] accepts, gives the answer of a request without
    [isArchived]; any other value of [isPinned] selects the notes that
    are not pinned; and an empty [search] is no search. *)
Theorem only_true_is_true (uid : ObjectId) (q : ListQuery) (s : Store) (v : string)
    (Hv : v <> "true"%string) :
  (isBooleanStr v = true ->
   route_getNotes uid (withArchived (Some v) q) s
   = route_getNotes uid (withArchived None q) s)
  /\ getNotes uid (withArchived (Some v) q) s = getNotes uid (withArchived None q) s
  /\ (forall n, In n (notesOf (fst (getNotes uid (withPinned (Some v) q) s))) ->
                isPinned n = false)
  /\ (isBooleanStr "1" = true /\ isBooleanStr "0" = true)
  /\ getNotes uid (withSearch (Some ""%string) q) s = getNotes uid (withSearch None q) s.
Proof.
  assert (Ev : String.eqb v "true" = false) by now apply String.eqb_neq.
  assert (G : getNotes uid (withArchived (Some v) q) s
              = getNotes uid (withArchived None q) s).
  { rewrite !getNotes_unfold.
    assert (Eo : listOptions (withArchived (Some v) q) = listOptions (withArchived None q)).
    { unfold listOptions, archivedOf, pageOf, limitOf. cbn. now rewrite Ev. }
    assert (Ec : countQuery uid (withArchived (Some v) q)
                 = countQuery uid (withArchived None q)).
    { unfold countQuery, archivedOf. cbn. now rewrite Ev. }
    now rewrite Eo, Ec. }
  split; [|split; [exact G|split; [|split]]].
  - intros Eb. unfold route_getNotes.
    assert (Eq : queryValidation (withArchived (Some v) q)
                 = queryValidation (withArchived None q)).
    { unfold queryValidation.
      cbn [withArchived q_page q_limit q_category q_isPinned q_isArchived
           q_sortBy q_sortOrder optional].
      now rewrite Eb. }
    rewrite Eq. unfold validated.
    destruct (queryValidation (withArchived None q)); [exact G | reflexivity].
  - intros n Hn. rewrite getNotes_unfold in Hn. cbn [fst notesOf] in Hn.
    apply findUserNotes_sound in Hn as [_ Hm].
    unfold matches in Hm.
    apply andb_true_iff in Hm as [Hm _]. apply andb_true_iff in Hm as [_ Hm].
    cbn in Hm. rewrite Ev in Hm. now apply Bool.eqb_prop in Hm.
  - now split.
  - reflexivity.
Qed.

(** ** Statistics and listings *)

Lemma getStats_direct uid s :
  getStats uid s
  = (Success 200 "Statistics retrieved successfully" (DStats (statisticsSpec uid s)), s).
Proof.
  unfold getStats, getUserStats, bind, find, ret. rewrite statsMatch_active.
  unfold statisticsSpec. cbv zeta.
  destruct (activeNotes uid s) as [|n r] eqn:Ea; [reflexivity|].
  unfold stageGroup. rewrite fold_groupStep. simpl g_categoryCounts.
  unfold map at 1. unfold stageProject. simpl g_totalNotes.
  simpl g_pinnedNotes. simpl g_categoryCounts.
  rewrite <- (map_cons category n r), !sizeOfEq_map.
  reflexivity.
Qed.

Lemma countWhere_bounds p l : 0 <= countWhere p l <= Z.of_nat (List.length l).
Proof.
  unfold countWhere. pose proof (filter_length_le p l). lia.
Qed.

(** Notes whose category is one of the four fall into exactly one of the
    four counts. *)
Lemma category_counts_sum l :
  forallb (fun n => isIn (category n) categoryEnum) l = true ->
  countWhere (fun n => String.eqb (category n) "personal") l
  + countWhere (fun n => String.eqb (category n) "work") l
  + countWhere (fun n => String.eqb (category n) "creative") l
  + countWhere (fun n => String.eqb (category n) "study") l
  = Z.of_nat (List.length l).
Proof.
  unfold countWhere. induction l as [|n r IH]; [reflexivity|].
  cbn [forallb]. intros H. apply andb_true_iff in H as [Hn Hr].
  specialize (IH Hr). cbn [filter List.length].
  unfold isIn, categoryEnum in Hn. cbn [existsb] in Hn.
  destruct (String.eqb_spec (category n) "personal") as [E|N1].
  { rewrite ?E. cbn [String.eqb Ascii.eqb Bool.eqb andb List.length]. lia. }
  destruct (String.eqb_spec (category n) "work") as [E|N2].
  { rewrite ?E. cbn [String.eqb Ascii.eqb Bool.eqb andb List.length]. lia. }
  destruct (String.eqb_spec (category n) "creative") as [E|N3].
  { rewrite ?E. cbn [String.eqb Ascii.eqb Bool.eqb andb List.length]. lia. }
  destruct (String.eqb_spec (category n) "study") as [E|N4].
  { rewrite ?E. cbn [String.eqb Ascii.eqb Bool.eqb andb List.length]. lia. }
  cbn in Hn. discriminate Hn.
Qed.

(** X7. The statistics of a user are consistent: [pinnedNotes] lies
    between 0 and [totalNotes], the four category counts never add up to
    more than [totalNotes], and when every note of the collection is valid
    under the schema they add up to exactly [totalNotes]. *)
Theorem stats_consistent (uid : ObjectId) (s : Store) :
  exists st,
    getStats uid s = (Success 200 "Statistics retrieved successfully" (DStats st), s)
    /\ 0 <= pinnedNotes st <= totalNotes st
    /\ 0 <= personal (categories st) /\ 0 <= work (categories st)
    /\ 0 <= creative (categories st) /\ 0 <= study (categories st)
    /\ (forallb schemaValid s = true ->
        personal (categories st) + work (categories st)
        + creative (categories st) + study (categories st) = totalNotes st).
Proof.
  exists (statisticsSpec uid s). split; [apply getStats_direct|].
  unfold statisticsSpec. cbn [pinnedNotes totalNotes categories personal work creative study].
  split; [apply countWhere_bounds|].
  repeat (split; [apply countWhere_bounds|]).
  intros Hv. apply category_counts_sum.
  unfold activeNotes. apply forallb_filter.
  rewrite forallb_forall in Hv. apply forallb_forall. intros n Hn.
  specialize (Hv n Hn). unfold schemaValid in Hv.
  apply andb_true_iff in Hv as [Hv _]. apply andb_true_iff in Hv as [Hv _].
  now apply andb_true_iff in Hv as [_ Hv].
Qed.

Lemma filter_filter {A} (p q : A -> bool) l :
  filter p (filter q l) = filter (fun x => q x && p x) l.
Proof.
  induction l as [|x r IH]; [reflexivity|]. cbn [filter].
  destruct (q x); cbn [filter andb]; [destruct (p x)|]; now rewrite IH.
Qed.

(** X8. The statistics agree with the listings: [totalNotes] is the
    [totalNotes] of the listing without parameters, [pinnedNotes] that of
    the listing with [isPinned=true], and each category count that of the
    listing with that category. *)
Theorem stats_agree_with_listing (uid : ObjectId) (s : Store) :
  exists st,
    getStats uid s = (Success 200 "Statistics retrieved successfully" (DStats st), s)
    /\ (exists notes pg,
          getNotes uid plainQuery s
            = (Success 200 "Notes retrieved successfully" (DNotes notes pg), s)
          /\ pg_totalNotes pg = totalNotes st)
    /\ (exists notes pg,
          getNotes uid (withPinned (Some "true"%string) plainQuery) s
            = (Success 200 "Notes retrieved successfully" (DNotes notes pg), s)
          /\ pg_totalNotes pg = pinnedNotes st)
    /\ (forall c count,
          In (c, count)
             [("personal"%string, personal (categories st));
              ("work"%string, work (categories st));
              ("creative"%string, creative (categories st));
              ("study"%string, study (categories st))] ->
          exists notes pg,
            getNotes uid (withCategory (Some c) plainQuery) s
              = (Success 200 "Notes retrieved successfully" (DNotes notes pg), s)
            /\ pg_totalNotes pg = count).
Proof.
  exists (statisticsSpec uid s). split; [apply getStats_direct|].
  unfold statisticsSpec. cbn [pinnedNotes totalNotes categories personal work creative study].
  assert (Hc : forall c, truthy c = true ->
            Z.of_nat (List.length
              (filter (matches (countQuery uid (withCategory (Some c) plainQuery))) s))
            = countWhere (fun n => String.eqb (category n) c) (activeNotes uid s)).
  { intros c Hc. unfold countWhere, activeNotes. rewrite filter_filter.
    do 2 f_equal. apply filter_ext. intros n.
    unfold matches, countQuery, archivedOf. cbn. rewrite Hc. cbn.
    rewrite !andb_true_r. now destruct (isArchived n). }
  split; [|split].
  - rewrite getNotes_unfold. eexists _, _. split; [reflexivity|].
    cbn [pg_totalNotes]. do 2 f_equal. unfold activeNotes.
    apply filter_ext. intros n. unfold matches. cbn. rewrite !andb_true_r.
    now destruct (isArchived n).
  - rewrite getNotes_unfold. eexists _, _. split; [reflexivity|].
    cbn [pg_totalNotes]. unfold countWhere, activeNotes. rewrite filter_filter.
    do 2 f_equal. apply filter_ext. intros n. unfold matches. cbn.
    rewrite !andb_true_r. now destruct (isArchived n), (isPinned n).
  - intros c count Hin. rewrite getNotes_unfold. eexists _, _.
    split; [reflexivity|]. cbn [pg_totalNotes].
    cbn [In] in Hin.
    destruct Hin as [[= <- <-] | [[= <- <-] | [[= <- <-] | [[= <- <-] | []]]]];
      now apply Hc.
Qed.

(** ** Archiving and the listings *)

Lemma filter_length_at {A} (f : A -> bool) pre x post :
  Z.of_nat (List.length (filter f (pre ++ x :: post)))
  = Z.of_nat (List.length (filter f pre)) + (if f x then 1 else 0)
    + Z.of_nat (List.length (filter f post)).
Proof.
  rewrite filter_app, length_app. cbn [filter].
  destruct (f x); cbn [List.length]; lia.
Qed.

Lemma toggleArchive_store uid id t pre n post :
  uniqueIds (pre ++ n :: post) = true ->
  List.find (matches (byIdAndOwner id uid)) (pre ++ n :: post) = Some n ->
  schemaValid n = true ->
  snd (toggleArchive uid id t (pre ++ n :: post))
  = pre ++ set_updatedAt t (set_isArchived (negb (isArchived n)) n) :: post.
Proof.
  intros Hu Hf Hv.
  destruct (save_at id uid t pre n post (set_isArchived (negb (isArchived n)) n)
              Hu Hf Hv eq_refl eq_refl) as (S1 & _ & _).
  unfold toggleArchive, bind, findOne, ret. rewrite Hf, S1. reflexivity.
Qed.

(** X9. Let the lookup of [uid] for [id] find the note [n], valid under
    the schema, in a collection with unique ids.  ToggleArchive on a note
    that was not archived takes one note out of the listing without
    parameters and out of the statistics and puts one into the listing
    with [isArchived=true]; on an archived note it does the reverse.  The
    two listings together always count the same notes. *)
Theorem archive_moves (uid id : ObjectId) (t : Date) (pre post : list Note) (n : Note)
    (Hunique : uniqueIds (pre ++ n :: post) = true)
    (Hfound : fst (findOne (byIdAndOwner id uid) (pre ++ n :: post)) = Some n)
    (Hvalid : schemaValid n = true) :
  let s := pre ++ n :: post in
  let s' := snd (toggleArchive uid id t s) in
  let moved := if isArchived n then 1 else -1 in
  totalOf (fst (getNotes uid plainQuery s'))
    = totalOf (fst (getNotes uid plainQuery s)) + moved
  /\ totalOf (fst (getNotes uid (withArchived (Some "true"%string) plainQuery) s'))
     = totalOf (fst (getNotes uid (withArchived (Some "true"%string) plainQuery) s)) - moved
  /\ (exists st st',
        statsOf (fst (getStats uid s)) = Some st
        /\ statsOf (fst (getStats uid s')) = Some st'
        /\ totalNotes st' = totalNotes st + moved).
Proof.
  intros s s' moved. simpl in Hfound.
  destruct (lookup_some _ _ _ _ Hfound) as (_ & Hid & Huid).
  assert (Es' : s' = pre ++ set_updatedAt t (set_isArchived (negb (isArchived n)) n) :: post)
    by (now apply toggleArchive_store).
  rewrite Es'. unfold s, moved.
  set (n' := set_updatedAt t (set_isArchived (negb (isArchived n)) n)).
  assert (M1 : matches (countQuery uid plainQuery) n = negb (isArchived n)).
  { unfold matches. cbn. rewrite Huid, N.eqb_refl. now destruct (isArchived n). }
  assert (M2 : matches (countQuery uid plainQuery) n' = isArchived n).
  { unfold matches. cbn. rewrite Huid, N.eqb_refl. now destruct (isArchived n). }
  assert (A1 : matches (countQuery uid (withArchived (Some "true"%string) plainQuery)) n
               = isArchived n).
  { unfold matches. cbn. rewrite Huid, N.eqb_refl. now destruct (isArchived n). }
  assert (A2 : matches (countQuery uid (withArchived (Some "true"%string) plainQuery)) n'
               = negb (isArchived n)).
  { unfold matches. cbn. rewrite Huid, N.eqb_refl. now destruct (isArchived n). }
  split; [|split].
  - rewrite !getNotes_unfold. cbn [fst totalOf paginationOf pg_totalNotes].
    rewrite !filter_length_at, M1, M2. destruct (isArchived n); cbn [negb]; lia.
  - rewrite !getNotes_unfold. cbn [fst totalOf paginationOf pg_totalNotes].
    rewrite !filter_length_at, A1, A2. destruct (isArchived n); cbn [negb]; lia.
  - rewrite !getStats_direct. cbn [fst statsOf].
    eexists _, _. split; [reflexivity|]. split; [reflexivity|].
    unfold statisticsSpec. cbn [totalNotes]. unfold activeNotes.
    rewrite !filter_length_at. cbn [userId isArchived n' set_updatedAt set_isArchived].
    rewrite Huid, N.eqb_refl. destruct (isArchived n); cbn [negb andb]; lia.
Qed.

(** ** The tags of stored notes *)

Lemma forallb_removeFirst (q p : Note -> bool) s :
  forallb q s = true -> forallb q (removeFirst p s) = true.
Proof.
  induction s as [|x r IH]; [easy|]. cbn [forallb removeFirst].
  intros H. apply andb_true_iff in H as [Hx Hr].
  destruct (p x); [exact Hr|]. cbn [forallb]. now rewrite Hx, IH.
Qed.

Lemma sent_tags_normal sent :
  negb (10 <? Z.of_nat (List.length (map trim sent))) = true ->
  checkTags 0 (map trim sent) = [] ->
  (Z.of_nat (List.length (filter truthy (map trim sent))) <=? 10)
  && forallb (fun t => truthy t && String.eqb (trim t) t && (strLen t <=? 30))
             (filter truthy (map trim sent)) = true.
Proof.
  intros Hcount Hlen. apply checkTags_nil in Hlen.
  apply andb_true_iff. split.
  - pose proof (filter_length_le truthy (map trim sent)).
    apply negb_true_iff, Z.ltb_ge in Hcount. apply Z.leb_le. lia.
  - apply forallb_forall. intros t Ht. apply filter_In in Ht as [Hin Htruthy].
    rewrite forallb_forall in Hlen. rewrite Htruthy, (Hlen t Hin), andb_true_r.
    cbn [andb]. apply in_map_iff in Hin as (x & <- & _).
    rewrite trim_idempotent. apply String.eqb_refl.
Qed.

Lemma updated_tags_normal b n :
  tagsNormal n = true ->
  updateNoteValidation (sanitizeUpdate b) = [] ->
  tagsNormal (applyUpdate (sanitizeUpdate b) n) = true.
Proof.
  intros Hn Hb. rewrite applyUpdate_sanitized. unfold tagsNormal. cbn [tags].
  unfold updateNoteValidation, sanitizeUpdate in Hb.
  cbn [u_title u_content u_category u_tags u_isPinned u_isArchived u_color] in Hb.
  apply app_eq_nil in Hb as [_ Hb].
  apply app_eq_nil in Hb as [_ Hb].
  apply app_eq_nil in Hb as [_ Hb].
  apply app_eq_nil in Hb as [Bcount Hb].
  apply app_eq_nil in Hb as [Btags _].
  destruct (u_tags b) as [sent|]; [|exact Hn].
  cbn [option_map optional] in Bcount, Btags.
  apply sent_tags_normal; [exact (check_nil _ _ _ Bcount) | exact Btags].
Qed.

Lemma created_tags_normal uid newId now b :
  createNoteValidation (sanitizeCreate b) = [] ->
  tagsNormal (createdNote uid newId now b) = true.
Proof.
  intros Hb. unfold tagsNormal. cbn [tags createdNote].
  unfold createNoteValidation, sanitizeCreate in Hb.
  cbn [b_title b_content b_category b_tags b_color] in Hb.
  apply app_eq_nil in Hb as [_ Hb].
  apply app_eq_nil in Hb as [_ Hb].
  apply app_eq_nil in Hb as [_ Hb].
  apply app_eq_nil in Hb as [Bcount Hb].
  apply app_eq_nil in Hb as [Btags _].
  destruct (b_tags b) as [sent|]; [|reflexivity].
  cbn [option_map optional] in Bcount, Btags.
  apply sent_tags_normal; [exact (check_nil _ _ _ Bcount) | exact Btags].
Qed.

(** X10. If every note of the collection has at most ten tags, each
    trimmed, not empty and at most 30 characters long, then so has every
    note after any request to the create, update, delete, pin and archive
    routes, whatever the request carries: the routes never store an empty
    tag, a tag with white space around it, a tag over 30 characters or an
    eleventh tag. *)
Theorem routes_keep_tags_normal (s : Store)
    (Hs : forallb tagsNormal s = true) :
  (forall uid newId now b,
     forallb tagsNormal (snd (route_createNote uid newId now b s)) = true)
  /\ (forall uid id now b,
        forallb tagsNormal (snd (route_updateNote uid id now b s)) = true)
  /\ (forall uid id, forallb tagsNormal (snd (deleteNote uid id s)) = true)
  /\ (forall uid id now, forallb tagsNormal (snd (togglePin uid id now s)) = true)
  /\ (forall uid id now, forallb tagsNormal (snd (toggleArchive uid id now s)) = true).
Proof.
  assert (Hsave : forall uid id now n n',
            List.find (matches (byIdAndOwner id uid)) s = Some n ->
            tagsNormal n' = true ->
            forallb tagsNormal (snd (save now n' s)) = true).
  { intros uid id now n n' _ Hn'. unfold save.
    destruct (schemaValid n'); [|exact Hs]. cbn [snd].
    now apply forallb_replaceById. }
  assert (Hin : forall uid id n,
            List.find (matches (byIdAndOwner id uid)) s = Some n ->
            tagsNormal n = true).
  { intros uid id n Hf. apply find_some in Hf as [Hf _].
    rewrite forallb_forall in Hs. now apply Hs. }
  split; [|split; [|split; [|split]]].
  - intros uid newId now b.
    destruct (createNoteValidation (sanitizeCreate b)) as [|e r] eqn:Hv.
    2: { unfold route_createNote. cbv zeta. now rewrite Hv. }
    destruct (existsb (fun x => N.eqb (_id x) newId) s) eqn:Hf.
    + unfold route_createNote, validated. cbv zeta. rewrite Hv.
      unfold createNote.
      destruct (b_title (sanitizeCreate b)); [|exact Hs].
      destruct (b_content (sanitizeCreate b)); [|exact Hs].
      unfold bind, ret, saveNew. cbn [_id newNote]. rewrite Hf, andb_false_r.
      exact Hs.
    + rewrite (route_createNote_success uid newId now b s Hv Hf). cbn [snd].
      rewrite forallb_app, Hs. cbn [forallb andb].
      now rewrite (created_tags_normal uid newId now b Hv).
  - intros uid id now b. unfold route_updateNote, validated. cbv zeta.
    destruct (updateNoteValidation (sanitizeUpdate b)) as [|e r] eqn:Hv; [|exact Hs].
    unfold updateNote, bind, findOne, ret.
    destruct (List.find (matches (byIdAndOwner id uid)) s) as [n|] eqn:Hf; [|exact Hs].
    pose proof (Hsave uid id now n (applyUpdate (sanitizeUpdate b) n) Hf
                  (updated_tags_normal b n (Hin uid id n Hf) Hv)) as W.
    destruct (save now (applyUpdate (sanitizeUpdate b) n) s) as [[saved|] s'];
      exact W.
  - intros uid id. unfold deleteNote, bind, findOneAndDelete, ret.
    destruct (List.find (matches (byIdAndOwner id uid)) s);
      cbn [snd]; now apply forallb_removeFirst.
  - intros uid id now. unfold togglePin, bind, findOne, ret.
    destruct (List.find (matches (byIdAndOwner id uid)) s) as [n|] eqn:Hf; [|exact Hs].
    pose proof (Hsave uid id now n (set_isPinned (negb (isPinned n)) n) Hf
                  (Hin uid id n Hf)) as W.
    destruct (save now (set_isPinned (negb (isPinned n)) n) s) as [[saved|] s'];
      exact W.
  - intros uid id now. unfold toggleArchive, bind, findOne, ret.
    destruct (List.find (matches (byIdAndOwner id uid)) s) as [n|] eqn:Hf; [|exact Hs].
    pose proof (Hsave uid id now n (set_isArchived (negb (isArchived n)) n) Hf
                  (Hin uid id n Hf)) as W.
    destruct (save now (set_isArchived (negb (isArchived n)) n) s) as [[saved|] s'];
      exact W.
Qed.

(** ** [addTag] and [removeTag] *)

Lemma existsb_eqb_In tag l :
  existsb (String.eqb tag) l = true <-> In tag l.
Proof.
  rewrite existsb_exists. split.
  - intros (x & Hin & E). apply String.eqb_eq in E. now subst.
  - intros Hin. exists tag. split; [exact Hin | apply String.eqb_refl].
Qed.

Lemma map_trim_fixed l :
  map trim l = l <-> forall t, In t l -> trim t = t.
Proof.
  induction l as [|x r IH]; cbn [map In]; [easy|]. split.
  - intros [= Hx Hr] t [<- | Hin]; [exact Hx | now apply IH].
  - intros H. f_equal; [apply H; now left | apply IH; intros t Ht; apply H; now right].
Qed.

Lemma note_eta n :
  mkNote (_id n) (title n) (content n) (category n) (tags n) (isPinned n)
         (isArchived n) (color n) (userId n) (createdAt n) (updatedAt n) = n.
Proof. now destruct n. Qed.

Lemma addTag_new tag n :
  trim tag = tag -> truthy tag = true -> ~ In tag (tags n) ->
  addTag tag n
  = mkNote (_id n) (title n) (content n) (category n) (tags n ++ [tag])
           (isPinned n) (isArchived n) (color n) (userId n) (createdAt n)
           (updatedAt n).
Proof.
  intros Htrim Ht Hnot. unfold addTag. rewrite Ht.
  destruct (existsb (String.eqb tag) (tags n)) eqn:E.
  - apply existsb_eqb_In in E. contradiction.
  - cbn [andb negb]. unfold push_tag. now rewrite Htrim.
Qed.

Lemma count_occ_without tag t l :
  t <> tag ->
  count_occ string_dec (filter (fun x => negb (String.eqb x tag)) l) t
  = count_occ string_dec l t.
Proof.
  intros Hne. induction l as [|x r IH]; [reflexivity|].
  cbn [filter]. destruct (String.eqb_spec x tag) as [Ex|Nx]; cbn [negb count_occ].
  - destruct (string_dec x t) as [Et|_]; [congruence | exact IH].
  - destruct (string_dec x t); now rewrite IH.
Qed.

(** X11. For a tag without white space around it: [addTag] leaves the
    note alone when the tag is empty or already among the tags, and
    otherwise appends it after the existing tags, touching no other field;
    it never makes a duplicate out of a duplicate-free tag list, and
    adding the same tag twice is adding it once. *)
Theorem addTag_once (tag : string) (n : Note)
    (Htrim : trim tag = tag) :
  (truthy tag = false -> addTag tag n = n)
  /\ (In tag (tags n) -> addTag tag n = n)
  /\ (truthy tag = true -> ~ In tag (tags n) ->
      addTag tag n
      = mkNote (_id n) (title n) (content n) (category n) (tags n ++ [tag])
               (isPinned n) (isArchived n) (color n) (userId n) (createdAt n)
               (updatedAt n))
  /\ (NoDup (tags n) -> NoDup (tags (addTag tag n)))
  /\ addTag tag (addTag tag n) = addTag tag n.
Proof.
  assert (Hnew : truthy tag = true -> ~ In tag (tags n) ->
            addTag tag n
            = mkNote (_id n) (title n) (content n) (category n) (tags n ++ [tag])
                     (isPinned n) (isArchived n) (color n) (userId n) (createdAt n)
                     (updatedAt n))
    by (intros Ht Hnot; now apply addTag_new).
  assert (Hold : In tag (tags n) -> addTag tag n = n).
  { intros Hin. unfold addTag. apply existsb_eqb_In in Hin. rewrite Hin.
    now rewrite andb_false_r. }
  split; [|split; [exact Hold|split; [exact Hnew|split]]].
  - intros Hf. unfold addTag. now rewrite Hf.
  - intros Hnd. destruct (truthy tag) eqn:Ht.
    + destruct (in_dec string_dec tag (tags n)) as [Hin|Hnot].
      * now rewrite (Hold Hin).
      * rewrite (Hnew eq_refl Hnot). cbn [tags].
        apply NoDup_app; [exact Hnd | repeat constructor; easy |].
        intros x Hx [<- | []]. contradiction.
    + unfold addTag. now rewrite Ht.
  - destruct (truthy tag) eqn:Ht.
    + destruct (in_dec string_dec tag (tags n)) as [Hin|Hnot].
      * now rewrite !(Hold Hin).
      * rewrite (Hnew eq_refl Hnot).
        unfold addTag at 1. cbn [tags]. rewrite Ht.
        assert (E : existsb (String.eqb tag) (tags n ++ [tag]) = true).
        { apply existsb_eqb_In. apply in_or_app. right. now left. }
        now rewrite E.
    + unfold addTag. now rewrite Ht.
Qed.

(** X12. On a note whose stored tags are trimmed, as the schema leaves
    them: [removeTag] removes every occurrence of the tag and keeps the
    other tags in their order, touching no other field; it leaves a note
    without that tag alone; and it undoes an [addTag] of a tag that was
    not there. *)
Theorem removeTag_removes (tag : string) (n : Note)
    (Htrimmed : map trim (tags n) = tags n) :
  removeTag tag n
  = mkNote (_id n) (title n) (content n) (category n)
           (filter (fun t => negb (String.eqb t tag)) (tags n))
           (isPinned n) (isArchived n) (color n) (userId n) (createdAt n)
           (updatedAt n)
  /\ ~ In tag (tags (removeTag tag n))
  /\ (forall t, t <> tag ->
        count_occ string_dec (tags (removeTag tag n)) t
        = count_occ string_dec (tags n) t)
  /\ (~ In tag (tags n) -> removeTag tag n = n)
  /\ (trim tag = tag -> truthy tag = true -> ~ In tag (tags n) ->
      removeTag tag (addTag tag n) = n).
Proof.
  assert (Hfix : forall l, (forall t, In t l -> trim t = t) ->
            map trim (filter (fun t => negb (String.eqb t tag)) l)
            = filter (fun t => negb (String.eqb t tag)) l).
  { intros l Hl. apply map_trim_fixed. intros t Ht.
    apply filter_In in Ht as [Ht _]. now apply Hl. }
  assert (Hkeep : forall l, ~ In tag l ->
            filter (fun t => negb (String.eqb t tag)) l = l).
  { induction l as [|x r IH]; cbn [filter In]; [easy|]. intros Hnot.
    destruct (String.eqb_spec x tag) as [E|_]; [exfalso; apply Hnot; now left|].
    cbn [negb]. f_equal. apply IH. intros Hin. apply Hnot. now right. }
  pose proof (proj1 (map_trim_fixed (tags n)) Htrimmed) as Ht.
  assert (E : removeTag tag n
              = mkNote (_id n) (title n) (content n) (category n)
                       (filter (fun t => negb (String.eqb t tag)) (tags n))
                       (isPinned n) (isArchived n) (color n) (userId n)
                       (createdAt n) (updatedAt n)).
  { unfold removeTag, set_tags. now rewrite (Hfix (tags n) Ht). }
  split; [exact E|]. rewrite E. cbn [tags].
  split; [|split; [|split]].
  - intros Hin. apply filter_In in Hin as [_ Hne].
    now rewrite String.eqb_refl in Hne.
  - intros t Hne. now apply count_occ_without.
  - intros Hnot. rewrite (Hkeep (tags n) Hnot). apply note_eta.
  - intros Htrim Htruthy Hnot.
    unfold removeTag, set_tags. rewrite (addTag_new tag n Htrim Htruthy Hnot). cbn [_id title content category tags
      isPinned isArchived color userId createdAt updatedAt].
    rewrite filter_app. cbn [filter]. rewrite String.eqb_refl. cbn [negb].
    rewrite app_nil_r, (Hkeep (tags n) Hnot), Htrimmed. apply note_eta.
Qed.

(** * Properties of the users router *)

(** X13. A change-password request never succeeds with a new password
    equal to the current one, whatever [comparePassword] computes: it is
    answered by the validators, by "Invalid current password", by "Same
    password" or by a 500, and the users collection stays as it was.  A
    request is answered "Password changed successfully" only if the
    current password verifies against the stored one and the new one
    does not, and then the stored password is the hash of the new one. *)
Theorem change_password_differs (uid : ObjectId) (b : PasswordBody) (s : Users) :
  (c_newPassword b = c_currentPassword b ->
   fst (route_changePassword uid b s) <> passwordChanged
   /\ snd (route_changePassword uid b s) = s)
  /\ (fst (route_changePassword uid b s) = passwordChanged ->
      exists user,
        fst (findById uid s) = Some user
        /\ comparePassword user (dflt ""%string (c_currentPassword b)) = true
        /\ comparePassword user (dflt ""%string (c_newPassword b)) = false
        /\ 8 <= strLen (dflt ""%string (c_newPassword b))
        /\ c_confirmPassword b = c_newPassword b
        /\ snd (route_changePassword uid b s)
           = replaceUser (set_password (hashPassword (dflt ""%string (c_newPassword b))) user) s).
Proof.
  unfold route_changePassword, changePassword, bind, findById, ret, saveUser.
  split.
  - intros Esame. rewrite Esame.
    destruct (changePasswordValidation b); [|split; [discriminate | reflexivity]].
    destruct (List.find (fun u => N.eqb (user_id u) uid) s) as [user|];
      [|split; [discriminate | reflexivity]].
    destruct (comparePassword user (dflt ""%string (c_currentPassword b)));
      cbn [negb fst snd]; split; try discriminate; reflexivity.
  - destruct (changePasswordValidation b) as [|e r] eqn:Hv; [|discriminate].
    unfold changePasswordValidation in Hv.
    apply app_eq_nil in Hv as [_ Hv]. apply app_eq_nil in Hv as [Hlen Hv].
    apply app_eq_nil in Hv as [_ Hconf].
    apply check_nil in Hlen, Hconf.
    destruct (List.find (fun u => N.eqb (user_id u) uid) s) as [user|]; [|discriminate].
    destruct (comparePassword user (dflt ""%string (c_currentPassword b))) eqn:Ec;
      cbn [negb]; [|discriminate].
    destruct (comparePassword user (dflt ""%string (c_newPassword b))) eqn:En;
      [discriminate|].
    intros _. exists user.
    split; [reflexivity|].
    split; [first [exact Ec | reflexivity]|].
    split; [first [exact En | reflexivity]|].
    split; [now apply Z.leb_le|]. split; [|reflexivity].
    unfold optionEqb in Hconf.
    destruct (c_confirmPassword b), (c_newPassword b); try discriminate;
      try reflexivity.
    apply String.eqb_eq in Hconf. now subst.
Qed.




(** ** The dashboard *)

Lemma Sorted_map {A B} (R : A -> A -> Prop) (R' : B -> B -> Prop) (f : A -> B) l :
  (forall a b, R a b -> R' (f a) (f b)) -> Sorted R l -> Sorted R' (map f l).
Proof.
  intros Hf. induction 1 as [|x r Hs IH Hd]; cbn [map]; constructor; [exact IH|].
  destruct Hd; cbn [map]; constructor. now apply Hf.
Qed.

Lemma newestFive_spec q s :
  snd (newestFive q s) = s
  /\ (List.length (fst (newestFive q s)) <= 5)%nat
  /\ (forall n, In n (fst (newestFive q s)) -> In n s /\ matches q n = true)
  /\ StronglySorted (fun a b => ns_updatedAt b <= ns_updatedAt a)
                    (map summaryOf (fst (newestFive q s)))
  /\ ((List.length (filter (matches q) s) <= 5)%nat ->
      Permutation (fst (newestFive q s)) (filter (matches q) s)).
Proof.
  unfold newestFive, bind, find, ret. cbn [fst snd].
  unfold applyLimit. cbn [Z.eqb Z.to_nat Pos.to_nat Pos.iter_op Nat.add].
  split; [reflexivity|]. split; [apply firstn_le_length|]. split; [|split].
  - intros n Hn. apply firstn_incl in Hn.
    apply (Permutation_in _ (sortNotes_perm _ _)) in Hn.
    now apply filter_In in Hn.
  - apply Sorted_StronglySorted; [intros a b c; lia|].
    apply (Sorted_map (fun a b => sortLe "updatedAt" (-1) a b = true)).
    + intros a b. unfold sortLe, keyCompare, summaryOf. cbn.
      destruct (Z.compare_spec (updatedAt b) (updatedAt a)); [lia | lia | intros; discriminate].
    + apply Sorted_firstn. apply sortNotes_sorted. apply sortLe_total.
  - intros Hfew. rewrite firstn_all2; [apply sortNotes_perm|].
    now rewrite (Permutation_length (sortNotes_perm _ _)).
Qed.

Lemma getDashboard_unfold user now s :
  getDashboard user now s
  = (UserDashboard 200 "Dashboard data retrieved successfully"
       (mkDashboard
          (mkDashboardUser (user_id user) (getFullName user) (email user)
                           (lastLogin user))
          (statisticsSpec (user_id user) s)
          (Z.of_nat (List.length
             (filter (updatedWithin (user_id user) (startOfDay now)
                                    (nextDay (startOfDay now))) s)))
          (map summaryOf
             (fst (newestFive
                     (mkFilter None (Some (user_id user)) (Some false) None None None) s)))
          (map summaryOf
             (fst (newestFive
                     (mkFilter None (Some (user_id user)) (Some false) None (Some true) None)
                     s)))),
     s).
Proof.
  pose proof (getStats_direct (user_id user) s) as G.
  unfold getStats, bind, ret in G.
  unfold getDashboard, bind, ret.
  destruct (getUserStats (user_id user) s) as [stats s0].
  injection G as G ->. rewrite G. reflexivity.
Qed.

(** X15. The dashboard only reads the notes.  Its statistics are those
    of GET /api/notes/stats; [recentNotes] and [pinnedNotes] hold at most
    five summaries each, newest update first, of notes of the user that
    are not archived, the pinned list of pinned ones only; and when the
    user has at most five unarchived notes, [recentNotes] lists them all,
    so every summary of [pinnedNotes] is among [recentNotes]. *)
Theorem dashboard_summaries (user : User) (now : Date) (s : Store) :
  exists d,
    getDashboard user now s
      = (UserDashboard 200 "Dashboard data retrieved successfully" d, s)
    /\ statsOf (fst (getStats (user_id user) s)) = Some (d_statistics d)
    /\ (List.length (d_recentNotes d) <= 5)%nat
    /\ (List.length (d_pinnedNotes d) <= 5)%nat
    /\ StronglySorted (fun a b => ns_updatedAt b <= ns_updatedAt a) (d_recentNotes d)
    /\ StronglySorted (fun a b => ns_updatedAt b <= ns_updatedAt a) (d_pinnedNotes d)
    /\ (forall x, In x (d_recentNotes d) ->
          exists n, In n s /\ x = summaryOf n
                    /\ userId n = user_id user /\ isArchived n = false)
    /\ (forall x, In x (d_pinnedNotes d) ->
          exists n, In n s /\ x = summaryOf n
                    /\ userId n = user_id user /\ isArchived n = false
                    /\ isPinned n = true)
    /\ (totalNotes (d_statistics d) <= 5 ->
        Z.of_nat (List.length (d_recentNotes d)) = totalNotes (d_statistics d)
        /\ incl (d_pinnedNotes d) (d_recentNotes d))
    /\ 0 <= d_todayActivity d <= Z.of_nat (List.length s).
Proof.
  rewrite getDashboard_unfold. eexists. split; [reflexivity|].
  cbn [d_statistics d_recentNotes d_pinnedNotes d_todayActivity].
  set (uid := user_id user).
  set (qr := mkFilter None (Some uid) (Some false) None None None).
  set (qp := mkFilter None (Some uid) (Some false) None (Some true) None).
  destruct (newestFive_spec qr s) as (_ & Rlen & Rin & Rsort & Rall).
  destruct (newestFive_spec qp s) as (_ & Plen & Pin & Psort & _).
  assert (Eactive : filter (matches qr) s = activeNotes uid s).
  { unfold activeNotes. apply filter_ext. intros n. unfold matches, qr. cbn.
    rewrite !andb_true_r. now destruct (isArchived n). }
  assert (Mr : forall n, matches qr n = true -> userId n = uid /\ isArchived n = false).
  { intros n Hm. unfold matches, qr in Hm. cbn in Hm. rewrite !andb_true_r in Hm.
    apply andb_true_iff in Hm as [Hu Ha].
    split; [now apply N.eqb_eq | now apply Bool.eqb_prop]. }
  assert (Mp : forall n, matches qp n = true ->
                 userId n = uid /\ isArchived n = false /\ isPinned n = true).
  { intros n Hm. unfold matches, qp in Hm. cbn in Hm. rewrite !andb_true_r in Hm.
    apply andb_true_iff in Hm as [Hm Hp]. apply andb_true_iff in Hm as [Hu Ha].
    split; [now apply N.eqb_eq|]. split; now apply Bool.eqb_prop. }
  split; [now rewrite getStats_direct|].
  split; [now rewrite length_map|]. split; [now rewrite length_map|].
  split; [exact Rsort|]. split; [exact Psort|].
  split; [|split; [|split]].
  - intros x Hx. apply in_map_iff in Hx as (n & <- & Hn).
    destruct (Rin n Hn) as [Hin Hm]. exists n. split; [exact Hin|].
    split; [reflexivity | now apply Mr].
  - intros x Hx. apply in_map_iff in Hx as (n & <- & Hn).
    destruct (Pin n Hn) as [Hin Hm]. exists n. split; [exact Hin|].
    split; [reflexivity | now apply Mp].
  - unfold statisticsSpec. cbn [totalNotes]. intros Hfew.
    assert (Hperm : Permutation (fst (newestFive qr s)) (activeNotes uid s)).
    { rewrite <- Eactive. apply Rall. rewrite Eactive. lia. }
    split; [now rewrite length_map, (Permutation_length Hperm)|].
    intros x Hx. apply in_map_iff in Hx as (n & <- & Hn). apply in_map.
    apply (Permutation_in _ (Permutation_sym Hperm)).
    destruct (Pin n Hn) as [Hin Hm]. destruct (Mp n Hm) as (Hu & Ha & _).
    unfold activeNotes. apply filter_In. split; [exact Hin|].
    now rewrite Hu, Ha, N.eqb_refl.
  - pose proof (filter_length_le (updatedWithin uid (startOfDay now)
                                    (nextDay (startOfDay now))) s). lia.
Qed.

(** * Properties of the password pattern and of the forms *)

Lemma firstLine_prefix l : exists rest, l = firstLine l ++ rest.
Proof.
  induction l as [|c r [rest IH]]; [now exists []|]. cbn [firstLine].
  destruct (isLineTerminator c); [now exists (c :: r)|].
  exists rest. cbn [app]. now rewrite <- IH.
Qed.

Lemma firstLine_clean l :
  forallb (fun c => negb (isLineTerminator c)) (firstLine l) = true.
Proof.
  induction l as [|c r IH]; [reflexivity|]. cbn [firstLine].
  destruct (isLineTerminator c) eqn:E; [reflexivity|]. cbn [forallb]. now rewrite E.
Qed.

Lemma classes_off_terminators :
  offTerminators isLower /\ offTerminators isUpper /\ offTerminators isDigit.
Proof.
  repeat split; intros c; unfold isLower, isUpper, isDigit, isLineTerminator;
    cbv zeta; intros H; apply andb_true_iff in H as [H1 H2];
    apply Nat.leb_le in H1, H2; apply orb_false_iff; split; apply Nat.eqb_neq; lia.
Qed.

Lemma aheadOnLine_firstLine p l :
  offTerminators p -> aheadOnLine p l = true -> existsb p (firstLine l) = true.
Proof.
  intros Hp. induction l as [|c r IH]; [easy|]. cbn [aheadOnLine firstLine].
  intros H. apply orb_true_iff in H as [H|H].
  - rewrite (Hp c H). cbn [existsb]. now rewrite H.
  - apply andb_true_iff in H as [Hc Hr]. apply negb_true_iff in Hc. rewrite Hc.
    cbn [existsb]. rewrite (IH Hr). apply orb_true_r.
Qed.

Lemma aheadOnLine_line p line post :
  forallb (fun c => negb (isLineTerminator c)) line = true ->
  existsb p line = true -> aheadOnLine p (line ++ post) = true.
Proof.
  induction line as [|c r IH]; [easy|]. cbn [forallb existsb app aheadOnLine].
  intros Hc He. apply andb_true_iff in Hc as [Hc Hr].
  destruct (p c); [reflexivity|]. cbn [orb] in *. rewrite Hc. now apply IH.
Qed.

Lemma strongSomewhere_suffix l :
  strongSomewhere l = true <-> exists pre suffix, l = pre ++ suffix /\ strongAt suffix = true.
Proof.
  split.
  - induction l as [|c r IH]; cbn [strongSomewhere]; intros H;
      apply orb_true_iff in H as [H|H]; try discriminate.
    + now exists [], (c :: r).
    + destruct (IH H) as (pre & suffix & -> & Hs). now exists (c :: pre), suffix.
  - intros (pre & suffix & -> & Hs). induction pre as [|c r IH].
    + destruct suffix; cbn [app strongSomewhere]; now rewrite Hs.
    + cbn [app strongSomewhere]. rewrite IH. apply orb_true_r.
Qed.

(** X16. The password pattern of registration, of the password change
    and of the sign-up form accepts a password exactly when one line of
    it holds a lower-case letter, an upper-case letter and a digit; for a
    password without line breaks, exactly when it holds one of each. *)
Theorem password_pattern_rule (s : string) :
  (passwordPattern s = true
   <-> exists pre line post,
         list_ascii_of_string s = pre ++ line ++ post
         /\ forallb (fun c => negb (isLineTerminator c)) line = true
         /\ existsb isLower line = true
         /\ existsb isUpper line = true
         /\ existsb isDigit line = true)
  /\ (forallb (fun c => negb (isLineTerminator c)) (list_ascii_of_string s) = true ->
      passwordPattern s
      = existsb isLower (list_ascii_of_string s)
        && existsb isUpper (list_ascii_of_string s)
        && existsb isDigit (list_ascii_of_string s)).
Proof.
  destruct classes_off_terminators as (Hl & Hu & Hd).
  assert (Gen : passwordPattern s = true
   <-> exists pre line post,
         list_ascii_of_string s = pre ++ line ++ post
         /\ forallb (fun c => negb (isLineTerminator c)) line = true
         /\ existsb isLower line = true
         /\ existsb isUpper line = true
         /\ existsb isDigit line = true).
  { unfold passwordPattern. rewrite strongSomewhere_suffix. split.
    - intros (pre & suffix & E & Hs). unfold strongAt in Hs.
      apply andb_true_iff in Hs as [Hs H3]. apply andb_true_iff in Hs as [H1 H2].
      destruct (firstLine_prefix suffix) as [rest Er].
      exists pre, (firstLine suffix), rest. rewrite <- Er.
      split; [exact E|]. split; [apply firstLine_clean|].
      split; [|split]; now apply aheadOnLine_firstLine.
    - intros (pre & line & post & E & Hc & H1 & H2 & H3).
      exists pre, (line ++ post). split; [exact E|]. unfold strongAt.
      now rewrite !aheadOnLine_line. }
  split; [exact Gen|].
  intros Hclean.
  destruct (existsb isLower (list_ascii_of_string s)
            && existsb isUpper (list_ascii_of_string s)
            && existsb isDigit (list_ascii_of_string s)) eqn:E.
  - apply Gen. exists [], (list_ascii_of_string s), [].
    apply andb_true_iff in E as [E H3]. apply andb_true_iff in E as [H1 H2].
    rewrite app_nil_r. now repeat split.
  - destruct (passwordPattern s) eqn:Ep; [|reflexivity].
    destruct (proj1 Gen eq_refl) as (pre & line & post & El & _ & H1 & H2 & H3).
    assert (Hin : forall p, existsb p line = true ->
                            existsb p (list_ascii_of_string s) = true).
    { intros p Hp. rewrite El, !existsb_app, Hp. now rewrite orb_true_r. }
    rewrite (Hin _ H1), (Hin _ H2), (Hin _ H3) in E. discriminate.
Qed.

(** X17. Data that the sign-up form accepts is posted with trimmed names
    and a lower-cased address, and the validators of the server can then
    object only to a name of more than 50 characters, which the form does
    not check, and to an address that [isEmail] refuses: never to the
    password, whose rules are the same on both sides. *)
Theorem signup_form_then_server (f : SignupForm) (agreedToTerms : bool)
    (Hform : signupValidateForm f agreedToTerms = []) :
  registerValidation (signupBody f)
  = check (strLen (trim (s_firstName f)) <=? 50) (Field "firstName")
          "First name must be between 2 and 50 characters"
    ++ check (strLen (trim (s_lastName f)) <=? 50) (Field "lastName")
          "Last name must be between 2 and 50 characters"
    ++ check (isEmail (toLowerCase (s_email f))) (Field "email")
          "Please provide a valid email address"
  /\ agreedToTerms = true
  /\ s_confirmPassword f = s_password f
  /\ emailShape (s_email f) = true.
Proof.
  unfold signupValidateForm in Hform.
  apply app_eq_nil in Hform as [Ffirst Hform].
  apply app_eq_nil in Hform as [Flast Hform].
  apply app_eq_nil in Hform as [Femail Hform].
  apply app_eq_nil in Hform as [Fpass Hform].
  apply app_eq_nil in Hform as [Fconf Fterms].
  unfold errorIf in *.
  destruct (truthy (trim (s_firstName f))); cbn [negb] in Ffirst; [|discriminate].
  destruct (strLen (trim (s_firstName f)) <? 2) eqn:L1; [discriminate|].
  destruct (truthy (trim (s_lastName f))); cbn [negb] in Flast; [|discriminate].
  destruct (strLen (trim (s_lastName f)) <? 2) eqn:L2; [discriminate|].
  destruct (truthy (s_email f)); cbn [negb] in Femail; [|discriminate].
  destruct (emailShape (s_email f)); cbn [negb] in Femail; [|discriminate].
  destruct (truthy (s_password f)); cbn [negb] in Fpass; [|discriminate].
  destruct (strLen (s_password f) <? 8) eqn:L8; [discriminate|].
  destruct (passwordPattern (s_password f)) eqn:Pp; cbn [negb] in Fpass; [|discriminate].
  destruct (truthy (s_confirmPassword f)); cbn [negb] in Fconf; [|discriminate].
  destruct (String.eqb_spec (s_password f) (s_confirmPassword f)) as [Ec|];
    cbn [negb] in Fconf; [|discriminate].
  destruct agreedToTerms; cbn [negb] in Fterms; [|discriminate].
  split; [|now repeat split].
  unfold registerValidation, signupBody.
  cbn [r_firstName r_lastName r_email r_password dflt].
  rewrite !trim_idempotent, Pp. unfold between.
  apply Z.ltb_ge in L1, L2, L8.
  replace (2 <=? strLen (trim (s_firstName f))) with true by (symmetry; now apply Z.leb_le).
  replace (2 <=? strLen (trim (s_lastName f))) with true by (symmetry; now apply Z.leb_le).
  replace (8 <=? strLen (s_password f)) with true by (symmetry; now apply Z.leb_le).
  cbn [andb check]. now rewrite !app_nil_r.
Qed.

(** * Properties of the client *)

(** ** The session in the storage *)

(** X18. With a [JSON.parse] that reads back what [JSON.stringify]
    wrote, and a token that is not empty: after [login] every request
    carries ["Bearer " + token], and a start of the application finds the
    user and is authenticated when the user is a truthy value, as an
    object is, while with a user that is falsy, as [null] is, the start
    is not authenticated; after [logout] no request carries an
    [Authorization] header, the storage holds neither token nor user, and
    a start of the application is not authenticated; every other key of
    the storage is as it was before the login. *)
Theorem session_round_trip (token : string) (u : ClientUser) (st : Storage) (a : AuthState)
    (Hround : forall x, parseJSON (stringify x) = Some x)
    (Hobject : forall x, truthy (stringify x) = true)
    (Htoken : truthy token = true) :
  let st1 := fst (authLogin token u st a) in
  let a1 := snd (authLogin token u st a) in
  let st2 := fst (authLogout st1 a1) in
  let a2 := snd (authLogout st1 a1) in
  authorizationHeader st1 = Some ("Bearer " ++ token)%string
  /\ getUser st1 = TheUser u
  /\ a_user a1 = Some u /\ a_isAuthenticated a1 = true
  /\ authOnStart st1 initialAuth
     = Some (if toBoolean u
             then mkAuthState (Some u) true false
             else mkAuthState None false false)
  /\ authorizationHeader st2 = None
  /\ getToken st2 = None /\ getUser st2 = NoUser
  /\ a_user a2 = None /\ a_isAuthenticated a2 = false
  /\ authOnStart st2 initialAuth = Some (mkAuthState None false false)
  /\ (forall k, k <> "keepnotes_token"%string -> k <> "keepnotes_user"%string ->
        getItem k st1 = getItem k st /\ getItem k st2 = getItem k st).
Proof.
  cbv zeta. unfold authLogin, authLogout. cbn [fst snd].
  assert (T1 : getToken (setUser u (setToken token st)) = Some token) by reflexivity.
  assert (U1 : getUser (setUser u (setToken token st)) = TheUser u).
  { unfold getUser, getItem, setUser, setItem. cbn. now rewrite Hobject, Hround. }
  repeat match goal with |- _ /\ _ => split end; try reflexivity.
  - unfold authorizationHeader. now rewrite T1, Htoken.
  - exact U1.
  - unfold authOnStart. rewrite U1, T1. cbn [truthyOpt]. rewrite Htoken.
    now destruct (toBoolean u).
  - intros k Ht Hu. apply String.eqb_neq in Ht, Hu. split.
    + unfold getItem, setUser, setToken, setItem. now rewrite Hu, Ht.
    + unfold getItem, removeToken, removeItem, setUser, setToken, setItem.
      now rewrite Hu, Ht.
Qed.

(** X19. An answer of status 401 empties the session: whatever the
    storage held, it then holds neither token nor user, no request
    carries an [Authorization] header, and a start of the application is
    not authenticated, while every other key keeps its value; an answer
    of any other status leaves the storage as it was. *)
Theorem unauthorized_clears_session (status : Z) (st : Storage) :
  (status = 401 ->
   getToken (onResponseError status st) = None
   /\ getUser (onResponseError status st) = NoUser
   /\ authorizationHeader (onResponseError status st) = None
   /\ authOnStart (onResponseError status st) initialAuth
      = Some (mkAuthState None false false)
   /\ (forall k, k <> "keepnotes_token"%string -> k <> "keepnotes_user"%string ->
         getItem k (onResponseError status st) = getItem k st))
  /\ (status <> 401 -> onResponseError status st = st).
Proof.
  split.
  - intros ->. unfold onResponseError. cbn [Z.eqb Pos.eqb].
    repeat match goal with |- _ /\ _ => split end; try reflexivity.
    intros k Ht Hu. unfold getItem, removeItem.
    apply String.eqb_neq in Ht, Hu. now rewrite Hu, Ht.
  - intros Hne. unfold onResponseError. apply Z.eqb_neq in Hne. now rewrite Hne.
Qed.

(** ** The home page *)

Lemma lowerUnit_idem c : lowerUnit (lowerUnit c) = lowerUnit c.
Proof. destruct c as [[] [] [] [] [] [] [] []]; reflexivity. Qed.

Lemma toLowerCase_idem s : toLowerCase (toLowerCase s) = toLowerCase s.
Proof.
  unfold toLowerCase. rewrite list_ascii_of_string_of_list_ascii, map_map.
  f_equal. apply map_ext. intros c. apply lowerUnit_idem.
Qed.

Lemma startsWith_refl l : startsWith l l = true.
Proof.
  induction l as [|c r IH]; [reflexivity|]. cbn [startsWith].
  now rewrite Ascii.eqb_refl, IH.
Qed.

Lemma includes_refl s : includes s s = true.
Proof.
  unfold includes. destruct (list_ascii_of_string s) as [|c r] eqn:E; [reflexivity|].
  cbn [includesIn]. now rewrite startsWith_refl.
Qed.

Lemma includes_empty s : includes s "" = true.
Proof.
  unfold includes. cbn [list_ascii_of_string].
  now destruct (list_ascii_of_string s).
Qed.

(** X20. The search box of the home page: with an empty term every
    loaded note is shown; the notes shown are always loaded notes, in the
    order of the list; the case of the term does not matter; and a note
    whose title, content or category is the term up to case is shown. *)
Theorem home_search (notes : list Note) (term : string) :
  filteredNotes notes "" = notes
  /\ incl (filteredNotes notes term) notes
  /\ (exists keep, filteredNotes notes term = filter keep notes)
  /\ filteredNotes notes (toLowerCase term) = filteredNotes notes term
  /\ (forall n, In n notes ->
        toLowerCase (title n) = toLowerCase term
        \/ toLowerCase (content n) = toLowerCase term
        \/ toLowerCase (category n) = toLowerCase term ->
        In n (filteredNotes notes term)).
Proof.
  split; [|split; [|split; [|split]]].
  - unfold filteredNotes. change (toLowerCase "") with ""%string.
    induction notes as [|n r IH]; [reflexivity|].
    cbn [filter]. rewrite includes_empty. cbn [orb]. now rewrite IH.
  - intros n Hn. unfold filteredNotes in Hn. now apply filter_In in Hn.
  - eexists. reflexivity.
  - unfold filteredNotes. now rewrite toLowerCase_idem.
  - intros n Hin H. unfold filteredNotes. apply filter_In. split; [exact Hin|].
    destruct H as [E | [E | E]]; rewrite E, includes_refl;
      now rewrite ?orb_true_r.
Qed.

Lemma StronglySorted_app_cross {A} (R : A -> A -> Prop) l1 l2 :
  StronglySorted R (l1 ++ l2) ->
  forall a b, In a l1 -> In b l2 -> R a b.
Proof.
  induction l1 as [|x r IH]; cbn [app]; intros Hs a b Ha Hb; [easy|].
  inversion Hs as [|? ? Hr Hall]; subst. destruct Ha as [<- | Ha].
  - rewrite Forall_forall in Hall. apply Hall. apply in_or_app. now right.
  - now apply IH.
Qed.

(** X21. The home page asks for the listing without parameters, so it
    loads the first page only: at most 20 notes, all of them unarchived
    notes of the user, newest update first.  A user with at most 20
    unarchived notes sees them all; of a user with more, every unarchived
    note that is not loaded was updated no later than each loaded one. *)
Theorem home_loads_first_page (uid : ObjectId) (s : Store) :
  Z.of_nat (List.length (loadNotes uid s))
  = Z.min 20 (Z.of_nat (List.length (activeNotes uid s)))
  /\ (forall n, In n (loadNotes uid s) -> In n (activeNotes uid s))
  /\ StronglySorted (fun a b => updatedAt b <= updatedAt a) (loadNotes uid s)
  /\ ((List.length (activeNotes uid s) <= 20)%nat ->
      Permutation (loadNotes uid s) (activeNotes uid s))
  /\ (forall n m, In n (activeNotes uid s) -> ~ In n (loadNotes uid s) ->
        In m (loadNotes uid s) -> updatedAt n <= updatedAt m).
Proof.
  assert (Eactive : filter (matches (userNotesQuery uid (listOptions plainQuery))) s
                    = activeNotes uid s).
  { unfold activeNotes. apply filter_ext. intros n. unfold matches. cbn.
    rewrite !andb_true_r. now destruct (isArchived n). }
  assert (Eload : loadNotes uid s = firstn 20 (selected uid plainQuery s)) by reflexivity.
  assert (Hperm : Permutation (selected uid plainQuery s) (activeNotes uid s)).
  { unfold selected. rewrite Eactive. apply sortNotes_perm. }
  assert (Hsorted : StronglySorted (fun a b => updatedAt b <= updatedAt a)
                                   (selected uid plainQuery s)).
  { apply Sorted_StronglySorted; [intros a b c; lia|].
    apply (Sorted_weaken (fun a b => sortLe "updatedAt" (-1) a b = true)).
    - intros a b. unfold sortLe, keyCompare. cbn.
      destruct (Z.compare_spec (updatedAt b) (updatedAt a)); [lia | lia | intros; discriminate].
    - apply sortNotes_sorted. apply sortLe_total. }
  rewrite Eload. split; [|split; [|split; [|split]]].
  - rewrite length_firstn, (Permutation_length Hperm). lia.
  - intros n Hn. apply firstn_incl in Hn. now apply (Permutation_in _ Hperm).
  - apply StronglySorted_Sorted in Hsorted.
    apply Sorted_StronglySorted; [intros a b c; lia|]. now apply Sorted_firstn.
  - intros Hfew. rewrite firstn_all2; [exact Hperm|].
    now rewrite (Permutation_length Hperm).
  - intros n m Hn Hnot Hm.
    rewrite <- (firstn_skipn 20 (selected uid plainQuery s)) in Hsorted.
    apply (StronglySorted_app_cross _ _ _ Hsorted m n Hm).
    apply (Permutation_in _ (Permutation_sym Hperm)) in Hn.
    rewrite <- (firstn_skipn 20 (selected uid plainQuery s)) in Hn.
    apply in_app_or in Hn as [Hn | Hn]; [contradiction | exact Hn].
Qed.

(** X22. Data that the login form accepts is posted with a lower-cased
    address, and the validators of the server can then object to the
    address only, when [isEmail] refuses it: the password, at least six
    characters long for the form, is never empty. *)
Theorem login_form_then_server (f : LoginForm)
    (Hform : loginValidateForm f = []) :
  loginValidation (loginBody f)
  = check (isEmail (toLowerCase (lf_email f))) (Field "email")
          "Please provide a valid email address"
  /\ 6 <= strLen (lf_password f)
  /\ emailShape (lf_email f) = true.
Proof.
  unfold loginValidateForm in Hform.
  apply app_eq_nil in Hform as [Femail Fpass]. unfold errorIf in *.
  destruct (truthy (lf_email f)); cbn [negb] in Femail; [|discriminate].
  destruct (emailShape (lf_email f)); cbn [negb] in Femail; [|discriminate].
  destruct (truthy (lf_password f)) eqn:Tp; cbn [negb] in Fpass; [|discriminate].
  destruct (strLen (lf_password f) <? 6) eqn:L6; [discriminate|].
  apply Z.ltb_ge in L6.
  split; [|now split].
  unfold loginValidation, loginBody. cbn [l_email l_password dflt].
  rewrite Tp. cbn [check]. now rewrite app_nil_r.
Qed.

(** ** The list of the home page and the collection *)

Lemma Permutation_filter {A} (p : A -> bool) l l' :
  Permutation l l' -> Permutation (filter p l) (filter p l').
Proof.
  induction 1 as [|x l l' H IH|x y l|l l' l'' H1 IH1 H2 IH2]; cbn [filter].
  - constructor.
  - destruct (p x); [now constructor | exact IH].
  - destruct (p x), (p y); try reflexivity. apply perm_swap.
  - now transitivity (filter p l').
Qed.

Lemma loadNotes_all uid s :
  (List.length (activeNotes uid s) <= 20)%nat ->
  Permutation (loadNotes uid s) (activeNotes uid s).
Proof.
  intros Hfew.
  assert (Eactive : filter (matches (userNotesQuery uid (listOptions plainQuery))) s
                    = activeNotes uid s).
  { unfold activeNotes. apply filter_ext. intros n. unfold matches. cbn.
    rewrite !andb_true_r. now destruct (isArchived n). }
  assert (Hperm : Permutation (selected uid plainQuery s) (activeNotes uid s)).
  { unfold selected. rewrite Eactive. apply sortNotes_perm. }
  change (loadNotes uid s) with (firstn 20 (selected uid plainQuery s)).
  rewrite firstn_all2; [exact Hperm|]. now rewrite (Permutation_length Hperm).
Qed.

Lemma filter_keeps_all {A} (p : A -> bool) l :
  (forall x, In x l -> p x = true) -> filter p l = l.
Proof.
  induction l as [|x r IH]; [easy|]. intros H. cbn [filter].
  rewrite (H x (or_introl eq_refl)). f_equal. apply IH. intros y Hy. apply H. now right.
Qed.

(** X23. Let the home page hold the list it loaded for a user with at
    most 20 unarchived notes, in a collection with unique ids.  After a
    delete that the server answered with 200, the list as
    [handleDeleteNote] updates it holds exactly the notes that a reload
    would bring; after a create answered with 201, with fewer than 20
    unarchived notes before, so does the list as [handleCreateNote]
    updates it; and after an update of a shown note that does not archive
    it, so does the list as [handleUpdateNote] updates it. *)
Theorem home_list_in_step (uid : ObjectId) (s : Store)
    (Hunique : uniqueIds s = true)
    (Hfew : (List.length (activeNotes uid s) <= 20)%nat) :
  (forall id n,
     fst (findOne (byIdAndOwner id uid) s) = Some n ->
     fst (deleteNote uid id s) = Success 200 "Note deleted successfully" (DId id)
     /\ Permutation (afterDelete id (loadNotes uid s))
                    (loadNotes uid (snd (deleteNote uid id s))))
  /\ (forall newId now b,
        createNoteValidation (sanitizeCreate b) = [] ->
        existsb (fun x => N.eqb (_id x) newId) s = false ->
        (List.length (activeNotes uid s) < 20)%nat ->
        exists created,
          route_createNote uid newId now b s
            = (Success 201 "Note created successfully" (DNote created), s ++ [created])
          /\ Permutation (afterCreate created (loadNotes uid s))
                         (loadNotes uid (s ++ [created])))
  /\ (forall id now b n,
        fst (findOne (byIdAndOwner id uid) s) = Some n ->
        schemaValid n = true ->
        updateNoteValidation (sanitizeUpdate b) = [] ->
        isArchived n = false -> u_isArchived b <> Some true ->
        exists updated,
          fst (route_updateNote uid id now b s)
            = Success 200 "Note updated successfully" (DNote updated)
          /\ Permutation (afterUpdate id updated (loadNotes uid s))
                         (loadNotes uid (snd (route_updateNote uid id now b s)))).
Proof.
  split; [|split].
  - intros id n Hf. cbn [fst findOne] in Hf.
    destruct (lookup_some _ _ _ _ Hf) as (_ & Hid & Huid).
    destruct (find_split _ _ _ Hf) as (pre & post & ->).
    unfold deleteNote, bind, findOneAndDelete, ret. rewrite Hf. cbn [fst snd].
    rewrite (removeFirst_at id uid pre n post Hunique Hf).
    split; [now rewrite Hid|].
    assert (Hothers : forall x, In x (pre ++ post) -> negb (N.eqb (_id x) id) = true).
    { intros x Hx. apply negb_true_iff, N.eqb_neq.
      rewrite <- Hid. now apply (unique_no_other pre n post x Hunique). }
    assert (Eafter : filter (fun x => negb (N.eqb (_id x) id))
                            (activeNotes uid (pre ++ n :: post))
                     = activeNotes uid (pre ++ post)).
    { unfold activeNotes. rewrite filter_filter, !filter_app. cbn [filter].
      rewrite Hid, N.eqb_refl, andb_false_r.
      rewrite <- !filter_app, <- filter_filter.
      apply filter_keeps_all. intros x Hx. apply Hothers.
      now apply filter_In in Hx. }
    assert (Hfew' : (List.length (activeNotes uid (pre ++ post)) <= 20)%nat).
    { rewrite <- Eafter.
      pose proof (filter_length_le (fun x => negb (N.eqb (_id x) id))
                    (activeNotes uid (pre ++ n :: post))). lia. }
    rewrite (loadNotes_all uid (pre ++ post) Hfew'), <- Eafter.
    unfold afterDelete. apply Permutation_filter. now apply loadNotes_all.
  - intros newId now b Hv Hfresh Hroom.
    exists (createdNote uid newId now b).
    split; [now apply route_createNote_success|].
    assert (Eactive : activeNotes uid (s ++ [createdNote uid newId now b])
                      = activeNotes uid s ++ [createdNote uid newId now b]).
    { unfold activeNotes. rewrite filter_app. cbn [filter userId isArchived createdNote].
      now rewrite N.eqb_refl. }
    assert (Hfew' : (List.length (activeNotes uid (s ++ [createdNote uid newId now b]))
                     <= 20)%nat).
    { rewrite Eactive, length_app. cbn [List.length]. lia. }
    rewrite (loadNotes_all uid _ Hfew'), Eactive. unfold afterCreate.
    rewrite (loadNotes_all uid s Hfew). apply Permutation_cons_append.
  - intros id now b n Hf Hn Hb Hshown Hkeep. cbn [fst findOne] in Hf.
    destruct (lookup_some _ _ _ _ Hf) as (_ & Hid & Huid).
    destruct (find_split _ _ _ Hf) as (pre & post & ->).
    set (n' := applyUpdate (sanitizeUpdate b) n).
    destruct (applyUpdate_keeps_key (sanitizeUpdate b) n) as [Ki Ko].
    destruct (save_at id uid now pre n post n' Hunique Hf
                (update_keeps_valid b n Hn Hb) Ki Ko) as (S1 & _ & _).
    exists (preSave now n').
    assert (Er : route_updateNote uid id now b (pre ++ n :: post)
                 = (Success 200 "Note updated successfully" (DNote (preSave now n')),
                    pre ++ preSave now n' :: post)).
    { unfold route_updateNote. cbv zeta. rewrite Hb. unfold validated.
      unfold updateNote, bind, findOne, ret. rewrite Hf. fold n'. now rewrite S1. }
    rewrite Er. cbn [fst snd]. split; [reflexivity|].
    assert (Hshown' : isArchived (preSave now n') = false).
    { unfold n'. rewrite applyUpdate_sanitized. cbn [preSave set_updatedAt isArchived dflt].
      destruct (u_isArchived b) as [[|]|]; [congruence | reflexivity | exact Hshown]. }
    assert (Hown' : userId (preSave now n') = uid).
    { exact (eq_trans Ko Huid). }
    assert (Ea : activeNotes uid (pre ++ n :: post)
                 = activeNotes uid pre ++ n :: activeNotes uid post).
    { unfold activeNotes. rewrite filter_app. cbn [filter].
      now rewrite Huid, Hshown, N.eqb_refl. }
    assert (Ea' : activeNotes uid (pre ++ preSave now n' :: post)
                  = activeNotes uid pre ++ preSave now n' :: activeNotes uid post).
    { unfold activeNotes. rewrite filter_app. cbn [filter].
      now rewrite Hown', Hshown', N.eqb_refl. }
    assert (Hfew' : (List.length (activeNotes uid (pre ++ preSave now n' :: post))
                     <= 20)%nat).
    { rewrite Ea', length_app. cbn [List.length].
      rewrite Ea, length_app in Hfew. cbn [List.length] in Hfew. exact Hfew. }
    rewrite (loadNotes_all uid _ Hfew'), Ea'. unfold afterUpdate.
    rewrite (Permutation_map _ (loadNotes_all uid _ Hfew)), Ea.
    rewrite map_app. cbn [map]. rewrite Hid, N.eqb_refl.
    assert (Hsame : forall l, (forall x, In x l -> In x (pre ++ post)) ->
              map (fun note => if N.eqb (_id note) (_id n) then preSave now n' else note) l = l).
    { intros l Hl. rewrite <- (map_id l) at 2. apply map_ext_in. intros x Hx.
      pose proof (unique_no_other pre n post x Hunique (Hl x Hx)) as Hne.
      apply N.eqb_neq in Hne. now rewrite Hne. }
    rewrite <- Hid.
    rewrite !Hsame; [reflexivity | |]; intros x Hx; unfold activeNotes in Hx;
      apply filter_In in Hx as [Hx _]; apply in_or_app; [now right | now left].
Qed.

End Server.

(** * The theorems at work on sample data *)

Local Open Scope list_scope.

Lemma list_pagination_witness :
  exists notes pg,
    route_getNotes sampleTextMatch 1%N pageThree sampleStore
      = (Success 200 "Notes retrieved successfully" (DNotes notes pg), sampleStore)
    /\ pg_totalNotes pg = 25
    /\ List.length notes = 5%nat /\ totalPages pg = 3
    /\ hasNextPage pg = false /\ hasPrevPage pg = true.
Proof.
  assert (Hsafe : pageParam pageThree * limitParam pageThree <= maxSafeInteger)
    by (vm_compute; discriminate).
  destruct (list_pagination sampleTextMatch 1%N pageThree sampleStore eq_refl Hsafe)
    as (notes & pg & E & _ & _ & _ & _ & Ht & _ & _ & _ & _ & Hex).
  exists notes, pg. split; [exact E|]. split; [rewrite Ht; reflexivity|].
  apply Hex; [rewrite Ht; reflexivity | reflexivity | reflexivity].
Defined.

(** A deactivated account, asked with its right password. *)
Lemma login_outcomes_witness :
  route_login sampleIsEmail sampleNormalizeEmail sampleFindByEmail
              sampleComparePassword sampleFullName sampleJwtSign 2000
              (mkLoginBody (Some "Bob@Example.com"%string) (Some "Quarry22"%string))
              sampleUsers
  = (accountDeactivated, sampleUsers).
Proof.
  apply (proj1 (proj2
           (login_outcomes sampleIsEmail sampleNormalizeEmail sampleFindByEmail
              sampleComparePassword sampleFullName sampleJwtSign 2000
              (mkLoginBody (Some "Bob@Example.com"%string) (Some "Quarry22"%string))
              sampleUsers eq_refl))
           (mkUser 2 "Bob" "Stone" "bob@example.com" "hash of Quarry22" false (Some 500)));
    reflexivity.
Defined.

(** An address with an account and one without get the same answer. *)
Lemma forgot_password_uniform_witness :
  fst (fst (route_forgotPassword sampleIsEmail sampleNormalizeEmail sampleFindByEmail
              (Some "ada@example.com"%string) sampleUsers))
  = resetRequested
  /\ fst (fst (route_forgotPassword sampleIsEmail sampleNormalizeEmail sampleFindByEmail
              (Some "nobody@example.com"%string) sampleUsers))
  = resetRequested.
Proof.
  split.
  - exact (proj1 (forgot_password_uniform sampleIsEmail sampleNormalizeEmail
                    sampleFindByEmail (Some "ada@example.com"%string) sampleUsers
                    eq_refl)).
  - exact (proj1 (forgot_password_uniform sampleIsEmail sampleNormalizeEmail
                    sampleFindByEmail (Some "nobody@example.com"%string) sampleUsers
                    eq_refl)).
Defined.

(** Updating [{isPinned: true}] on note 7 of user 1. *)
Lemma update_frame_witness :
  route_updateNote sampleTextMatch 1%N 7%N 3000 onlyPinned
    ([plainNote 5 2] ++ plainNote 7 1 :: [plainNote 9 1])
  = (Success 200 "Note updated successfully"
       (DNote (mkNote 7 "Shopping" "Milk and bread" "personal" ["home"; "food"]%string
                      true false "#ffffff" 1 1000 3000)),
     [plainNote 5 2;
      mkNote 7 "Shopping" "Milk and bread" "personal" ["home"; "food"]%string
             true false "#ffffff" 1 1000 3000;
      plainNote 9 1]).
Proof.
  exact (proj1 (update_frame sampleTextMatch 1%N 7%N 3000 onlyPinned
                  [plainNote 5 2] [plainNote 9 1] (plainNote 7 1)
                  eq_refl eq_refl eq_refl eq_refl)).
Defined.

(** Ten tags are accepted, trimmed, the empty ones dropped and the
    repeated one kept three times; eleven tags are rejected. *)
Lemma create_tags_witness :
  (exists note,
     route_createNote 1%N 30%N 4000 (createWith tenTags) sampleStore
       = (Success 201 "Note created successfully" (DNote note), sampleStore ++ [note])
     /\ title note = "Plan"%string
     /\ tags note = ["work"; "work"; "work"; "a"; "b"; "c"; "d"; "e"]%string)
  /\ (exists errors,
        route_createNote 1%N 30%N 4000
          (createWith ("f"%string :: tenTags)) sampleStore
        = (Invalid errors, sampleStore)).
Proof.
  split.
  - destruct (proj2 (create_tags 1%N 30%N 4000 (createWith tenTags)
                       tenTags sampleStore eq_refl))
      as (note & E & En & _).
    + vm_compute. discriminate.
    + reflexivity.
    + reflexivity.
    + reflexivity.
    + exists note. split; [exact E|]. rewrite En. split; reflexivity.
  - destruct (proj1 (create_tags 1%N 30%N 4000
                       (createWith ("f"%string :: tenTags))
                       ("f"%string :: tenTags) sampleStore eq_refl))
      as (errors & E & _).
    + reflexivity.
    + now exists errors.
Defined.

(** Pinning note 7 of user 1 at time 3000 and unpinning it at time 4000. *)
Lemma toggle_involutive_witness :
  togglePin sampleTextMatch 1%N 7%N 3000
    ([plainNote 5 2] ++ plainNote 7 1 :: [plainNote 9 1])
  = (Success 200 "Note pinned successfully" (DPinned 7 true),
     [plainNote 5 2; set_updatedAt 3000 (set_isPinned true (plainNote 7 1));
      plainNote 9 1])
  /\ togglePin sampleTextMatch 1%N 7%N 4000
       [plainNote 5 2; set_updatedAt 3000 (set_isPinned true (plainNote 7 1));
        plainNote 9 1]
     = (Success 200 "Note unpinned successfully" (DPinned 7 false),
        [plainNote 5 2; set_updatedAt 4000 (plainNote 7 1); plainNote 9 1]).
Proof.
  destruct (toggle_involutive sampleTextMatch 1%N 7%N 3000 4000
              [plainNote 5 2] [plainNote 9 1] (plainNote 7 1)
              eq_refl eq_refl eq_refl)
    as (P1 & P2 & _ & _).
  split; [exact P1 | exact P2].
Defined.

(** ** Further runs of the model *)

Example trim_sample :
  trim (String (ascii_of_nat 9) "  two words  ") = "two words"%string
  /\ trim "   " = ""%string
  /\ trim (String (ascii_of_nat 160) "x") = "x"%string.
Proof. repeat split. Qed.

Example isHexColor_sample :
  isHexColor "#ffffff" = true /\ isHexColor "#Fa0" = true
  /\ isHexColor "#ffff" = false /\ isHexColor "ffffff" = false
  /\ isHexColor "#ggg" = false.
Proof. repeat split. Qed.

(** Note 27 belongs to user 2: user 1 gets the answer of an id that no
    note carries. *)
Example getNote_sample :
  fst (getNote sampleTextMatch 1 27 sampleStore)
  = Failure 404 "Note not found"
      "The requested note does not exist or you do not have permission to view it."
  /\ fst (getNote sampleTextMatch 1 99 sampleStore)
     = fst (getNote sampleTextMatch 1 27 sampleStore)
  /\ fst (getNote sampleTextMatch 2 27 sampleStore)
     = Success 200 "Note retrieved successfully" (DNote (plainNote 27 2)).
Proof. repeat split. Qed.

Example deleteNote_sample :
  deleteNote sampleTextMatch 2 27 sampleStore
  = (Success 200 "Note deleted successfully" (DId 27),
     map (fun i => plainNote (N.of_nat i) 1) (seq 1 25)
     ++ [set_isArchived true (plainNote 26 1)]).
Proof. reflexivity. Qed.

Example getStats_sample :
  fst (getStats sampleTextMatch 1 sampleStore)
  = Success 200 "Statistics retrieved successfully"
      (DStats (mkStats 25 0 (mkCategories 25 0 0 0)))
  /\ fst (getStats sampleTextMatch 3 sampleStore)
     = Success 200 "Statistics retrieved successfully"
         (DStats (mkStats 0 0 (mkCategories 0 0 0 0))).
Proof. repeat split. Qed.

(** The archived note 26 shows only when it is asked for; ["1"] passes
    [isBoolean] and is read as not ["true"]. *)
Example getNotes_archived_sample :
  (exists pg,
     fst (getNotes sampleTextMatch 1
            (mkListQuery None None None None (Some "true"%string) None None None)
            sampleStore)
     = Success 200 "Notes retrieved successfully"
         (DNotes [set_isArchived true (plainNote 26 1)] pg))
  /\ queryValidation
       (mkListQuery None None None None (Some "1"%string) None None None) = []
  /\ archivedOf (mkListQuery None None None None (Some "1"%string) None None None)
     = false.
Proof. repeat split. eexists. reflexivity. Qed.

Example login_sample :
  fst (route_login sampleIsEmail sampleNormalizeEmail sampleFindByEmail
         sampleComparePassword sampleFullName sampleJwtSign 2000
         (mkLoginBody (Some "ADA@example.com"%string) (Some "Enchantress1"%string))
         sampleUsers)
  = AuthSuccess 200 "Login successful" "signed"
      (mkUserSummary 1 "Ada" "Byron" "ada@example.com" "Ada Byron" (Some 2000))
  /\ fst (route_login sampleIsEmail sampleNormalizeEmail sampleFindByEmail
            sampleComparePassword sampleFullName sampleJwtSign 2000
            (mkLoginBody (Some "ada@example.com"%string) (Some "wrong"%string))
            sampleUsers)
     = fst (route_login sampleIsEmail sampleNormalizeEmail sampleFindByEmail
              sampleComparePassword sampleFullName sampleJwtSign 2000
              (mkLoginBody (Some "eve@example.com"%string) (Some "wrong"%string))
              sampleUsers).
Proof. repeat split. Qed.

(** * The further properties at work on sample data *)

Lemma create_then_get_witness :
  exists note,
    route_createNote 1 30 4000 (createWith tenTags) sampleStore
      = (Success 201 "Note created successfully" (DNote note), sampleStore ++ [note])
    /\ getNote sampleTextMatch 1 30 (sampleStore ++ [note])
       = (Success 200 "Note retrieved successfully" (DNote note), sampleStore ++ [note])
    /\ title note = "Plan"%string.
Proof.
  destruct (create_then_get sampleTextMatch 1 30 4000 (createWith tenTags) sampleStore
              eq_refl eq_refl)
    as (note & Ec & Eg & _ & _ & Et & _).
  exists note. split; [exact Ec|]. split; [exact Eg|]. rewrite Et. reflexivity.
Defined.

Lemma delete_removes_witness :
  deleteNote sampleTextMatch 1 7 threeNotes
    = (Success 200 "Note deleted successfully" (DId 7), [plainNote 5 2; plainNote 9 1])
  /\ getNote sampleTextMatch 1 7 [plainNote 5 2; plainNote 9 1]
     = (notFound "view", [plainNote 5 2; plainNote 9 1]).
Proof.
  destruct (delete_removes sampleTextMatch 1 7 [plainNote 5 2] [plainNote 9 1]
              (plainNote 7 1) eq_refl eq_refl)
    as (Ed & Eg & _).
  split; [exact Ed | exact Eg].
Defined.

(** User 1 asks to delete note 27, which belongs to user 2. *)
Lemma owner_isolation_witness :
  othersOf 1 (snd (perNote sampleTextMatch Delete 1 27 0 sampleStore))
  = othersOf 1 sampleStore.
Proof.
  exact (proj1 (owner_isolation sampleTextMatch 1 sampleStore eq_refl) Delete 27%N 0).
Defined.

(** Five notes updated at five times, two a page: the three pages are the
    notes from the newest to the oldest. *)
Lemma pages_tile_witness :
  List.concat
    (map (fun p => notesOf (fst (route_getNotes sampleTextMatch 1
                                   (withPage (Z.of_nat p) twoPerPage) datedNotes)))
         (seq 1 3))
  = rev datedNotes.
Proof.
  assert (Hsize : Z.of_nat (List.length datedNotes) + 100 <= maxSafeInteger)
    by (vm_compute; discriminate).
  apply (proj1 (proj2 (pages_tile sampleTextMatch 1 twoPerPage datedNotes
                         eq_refl Hsize eq_refl))).
  - change (filter (matches sampleTextMatch (countQuery 1 twoPerPage)) datedNotes)
      with datedNotes.
    apply Permutation_sym, Permutation_rev.
  - vm_compute. repeat constructor.
Defined.

Lemma only_true_is_true_witness :
  route_getNotes sampleTextMatch 1 (withArchived (Some "1"%string) plainQuery) sampleStore
  = route_getNotes sampleTextMatch 1 (withArchived None plainQuery) sampleStore.
Proof.
  apply (proj1 (only_true_is_true sampleTextMatch 1 plainQuery sampleStore "1"
                  ltac:(discriminate))).
  reflexivity.
Defined.

Lemma archive_moves_witness :
  totalOf (fst (getNotes sampleTextMatch 1 plainQuery
                  (snd (toggleArchive sampleTextMatch 1 7 3000 threeNotes))))
  = totalOf (fst (getNotes sampleTextMatch 1 plainQuery threeNotes)) + -1.
Proof.
  exact (proj1 (archive_moves sampleTextMatch 1 7 3000 [plainNote 5 2] [plainNote 9 1]
                  (plainNote 7 1) eq_refl eq_refl eq_refl)).
Defined.

Lemma routes_keep_tags_normal_witness :
  forallb tagsNormal
    (snd (route_createNote 1 30 4000 (createWith tenTags) sampleStore)) = true.
Proof.
  exact (proj1 (routes_keep_tags_normal sampleTextMatch sampleStore eq_refl)
               1%N 30%N 4000 (createWith tenTags)).
Defined.

Lemma routes_keep_wellFormed_witness :
  wellFormed (snd (perNote sampleTextMatch TogglePin 1 7 3000 sampleStore)) = true.
Proof.
  exact (proj1 (routes_keep_wellFormed sampleTextMatch sampleStore eq_refl)
               TogglePin 1%N 7%N 3000).
Defined.

Lemma addTag_once_witness :
  addTag "urgent" (addTag "urgent" (plainNote 7 1)) = addTag "urgent" (plainNote 7 1)
  /\ addTag "home" (plainNote 7 1) = plainNote 7 1.
Proof.
  destruct (addTag_once "urgent" (plainNote 7 1) eq_refl) as (_ & _ & _ & _ & Hidem).
  destruct (addTag_once "home" (plainNote 7 1) eq_refl) as (_ & Hold & _).
  split; [exact Hidem|]. apply Hold. now left.
Defined.

Lemma removeTag_removes_witness :
  removeTag "home" (plainNote 7 1)
  = mkNote 7 "Shopping" "Milk and bread" "personal" ["food"%string] false false
           "#ffffff" 1 1000 1000.
Proof.
  exact (proj1 (removeTag_removes "home" (plainNote 7 1) eq_refl)).
Defined.


(** The form accepts both; the server accepts the first and refuses the
    name of 51 letters of the second. *)
Lemma signup_form_then_server_witness :
  registerValidation sampleIsEmail (signupBody adaForm) = []
  /\ registerValidation sampleIsEmail (signupBody longForm)
     = [(Field "firstName", "First name must be between 2 and 50 characters"%string)].
Proof.
  split.
  - rewrite (proj1 (signup_form_then_server sampleIsEmail adaForm true eq_refl)).
    reflexivity.
  - rewrite (proj1 (signup_form_then_server sampleIsEmail longForm true eq_refl)).
    reflexivity.
Defined.

(** A login with a user that is truthy, and one with the empty string
    for a user. *)
Lemma session_round_trip_witness :
  authorizationHeader
    (fst (authLogin string sampleStringify "abc" "Ada"%string emptyStorage (initialAuth string)))
  = Some "Bearer abc"%string
  /\ authOnStart string sampleParse sampleToBoolean
       (fst (authLogin string sampleStringify "abc" "Ada"%string emptyStorage
                       (initialAuth string)))
       (initialAuth string)
     = Some (mkAuthState string (Some "Ada"%string) true false)
  /\ authOnStart string sampleParse sampleToBoolean
       (fst (authLogin string sampleStringify "abc" ""%string emptyStorage
                       (initialAuth string)))
       (initialAuth string)
     = Some (mkAuthState string None false false).
Proof.
  destruct (session_round_trip string sampleStringify sampleParse sampleToBoolean
              "abc" "Ada"%string emptyStorage (initialAuth string)
              (fun x => eq_refl) (fun x => eq_refl) eq_refl)
    as (Hh & _ & _ & _ & Hs & _).
  destruct (session_round_trip string sampleStringify sampleParse sampleToBoolean
              "abc" ""%string emptyStorage (initialAuth string)
              (fun x => eq_refl) (fun x => eq_refl) eq_refl)
    as (_ & _ & _ & _ & Hn & _).
  split; [exact Hh | split; [exact Hs | exact Hn]].
Defined.

Lemma login_form_then_server_witness :
  loginValidation sampleIsEmail
    (loginBody (mkLoginForm "Ada@Example.com" "secret"))
  = [].
Proof.
  rewrite (proj1 (login_form_then_server sampleIsEmail
                    (mkLoginForm "Ada@Example.com" "secret") eq_refl)).
  reflexivity.
Defined.

(** User 1 deletes note 7 on the page that shows the notes 7 and 9. *)
Lemma home_list_in_step_witness :
  Permutation (afterDelete 7 (loadNotes sampleTextMatch 1 threeNotes))
              (loadNotes sampleTextMatch 1
                 (snd (deleteNote sampleTextMatch 1 7 threeNotes))).
Proof.
  refine (proj2 (proj1 (home_list_in_step sampleTextMatch 1 threeNotes eq_refl _)
                   7%N (plainNote 7 1) eq_refl)).
  vm_compute. repeat constructor.
Defined.

(** ** Runs of the patterns and of the client *)

Example passwordPattern_sample :
  passwordPattern "Enchantress1" = true
  /\ passwordPattern "enchantress1" = false
  /\ passwordPattern "ENCHANTRESS1" = false
  /\ passwordPattern "Enchantress" = false
  /\ passwordPattern (String "a" (String (ascii_of_nat 10) "B1")) = false
  /\ passwordPattern (String "a" (String (ascii_of_nat 10) "aB1")) = true.
Proof. repeat split. Qed.

Example emailShape_sample :
  emailShape "a@b.c" = true
  /\ emailShape "see a@b.c now" = true
  /\ emailShape "a@b..c" = true
  /\ emailShape "a@.c" = false
  /\ emailShape "@b.c" = false
  /\ emailShape "a@b." = false
  /\ emailShape "a @b.c" = false
  /\ emailShape "a@b .c" = false
  /\ emailShape "ab.c" = false.
Proof. repeat split. Qed.

Example toLowerCase_sample :
  toLowerCase "Ada@Example.COM" = "ada@example.com"%string
  /\ toLowerCase (String (ascii_of_nat 201) "") = String (ascii_of_nat 233) ""
  /\ toLowerCase (String (ascii_of_nat 215) "") = String (ascii_of_nat 215) "".
Proof. repeat split. Qed.

Example includes_sample :
  includes "shopping list" "ping" = true
  /\ includes "shopping list" "" = true
  /\ includes "" "" = true
  /\ includes "shopping" "shopping list" = false
  /\ includes "shopping list" "pong" = false.
Proof. repeat split. Qed.

Example filteredNotes_sample :
  filteredNotes [plainNote 5 2; set_title "Work plan" (plainNote 7 1)] "SHOP"
  = [plainNote 5 2]
  /\ filteredNotes [plainNote 5 2; set_title "Work plan" (plainNote 7 1)] "personal"
     = [plainNote 5 2; set_title "Work plan" (plainNote 7 1)]
  /\ filteredNotes [plainNote 5 2] "home" = [].
Proof. repeat split. Qed.

(** A password change with the right current password and a new one, and
    one that repeats the current password. *)
Example changePassword_sample :
  route_changePassword sampleComparePassword (fun p => ("hash of " ++ p)%string) 1
    (mkPasswordBody (Some "Enchantress1"%string) (Some "Sorceress22"%string)
                    (Some "Sorceress22"%string))
    sampleUsers
  = (passwordChanged,
     [mkUser 1 "Ada" "Byron" "ada@example.com" "hash of Sorceress22" true None;
      mkUser 2 "Bob" "Stone" "bob@example.com" "hash of Quarry22" false (Some 500)])
  /\ fst (route_changePassword sampleComparePassword (fun p => ("hash of " ++ p)%string) 1
            (mkPasswordBody (Some "Enchantress1"%string) (Some "Enchantress1"%string)
                            (Some "Enchantress1"%string))
            sampleUsers)
     = UserFailure 400 "Same password"
         "New password must be different from your current password."
  /\ fst (route_changePassword sampleComparePassword (fun p => ("hash of " ++ p)%string) 1
            (mkPasswordBody (Some "Enchantress1"%string) (Some "Sorceress22"%string)
                            (Some "Sorceress23"%string))
            sampleUsers)
     = UserInvalid [(Field "confirmPassword",
                     "Password confirmation does not match new password"%string)].
Proof. repeat split. Qed.

Example dashboard_sample :
  exists d,
    fst (getDashboard sampleTextMatch sampleFullName (fun t => t / 86400000 * 86400000)
           (fun t => t + 86400000) ada 90000000 sampleStore)
    = UserDashboard 200 "Dashboard data retrieved successfully" d
    /\ totalNotes (d_statistics d) = 25
    /\ d_todayActivity d = 0
    /\ List.length (d_recentNotes d) = 5%nat
    /\ d_pinnedNotes d = [].
Proof. eexists. repeat split. Qed.

(** ** Numbers beyond the safe integers *)

Example roundDouble_sample :
  roundDouble (2 ^ 53) = 2 ^ 53
  /\ roundDouble (2 ^ 53 + 1) = 2 ^ 53
  /\ roundDouble (2 ^ 53 + 2) = 2 ^ 53 + 2
  /\ roundDouble (2 ^ 53 + 3) = 2 ^ 53 + 4
  /\ roundDouble (2 ^ 54 + 2) = 2 ^ 54
  /\ roundDouble (2 ^ 54 + 3) = 2 ^ 54 + 4
  /\ roundDouble (2 ^ 54 + 6) = 2 ^ 54 + 8
  /\ roundDouble (- (2 ^ 53 + 1)) = - 2 ^ 53
  /\ roundDouble 180143985094819820 = 180143985094819808.
Proof. repeat split; reflexivity. Qed.

(** C3 beyond the safe integers.  The request for page 2^53 + 1 passes the
    validators; [parseInt] makes page 2^53 of it, which the answer reports
    as [currentPage], and the skip handed to the query is
    180143985094819808, which is not [(page - 1) * limit], neither for the
    page asked for nor for the page as parsed. *)
Lemma list_pagination_rounds :
  queryValidation hugePage = []
  /\ pageParam hugePage = 9007199254740993
  /\ limitParam hugePage = 20
  /\ pageOf hugePage = 9007199254740992
  /\ option_map currentPage
       (paginationOf (fst (route_getNotes sampleTextMatch 1 hugePage sampleStore)))
     = Some 9007199254740992
  /\ o_skip (listOptions hugePage) = Some 180143985094819808
  /\ o_skip (listOptions hugePage)
     <> Some ((pageParam hugePage - 1) * limitParam hugePage)
  /\ o_skip (listOptions hugePage)
     <> Some ((pageOf hugePage - 1) * limitOf hugePage).
Proof.
  repeat split; try reflexivity; vm_compute; discriminate.
Qed.

(** A search for "alpha" over a note that holds it in its title and a
    newer note that holds it in a tag. *)
Lemma text_search_weights_witness :
  exists notes pg,
    route_getNotes sampleIndexMatch 1 searchAlpha rankStore
      = (Success 200 "Notes retrieved successfully" (DNotes notes pg), rankStore)
    /\ pg_totalNotes pg = 2
    /\ In titleHit notes /\ In tagHit notes.
Proof.
  destruct (text_search_weights sampleIndexMatch 1 searchAlpha rankStore "alpha"
              eq_refl eq_refl eq_refl)
    as (notes & pg & E & _ & _ & _ & _ & Ht & _ & _ & Hall & _).
  exists notes, pg. split; [exact E|]. split; [rewrite Ht; reflexivity|].
  assert (Hfew : pg_totalNotes pg <= limitParam searchAlpha)
    by (rewrite Ht; vm_compute; discriminate).
  split; apply (Hall eq_refl Hfew); try reflexivity; simpl; auto.
Defined.

(** C9 as the specification has it.  The listing answers the newer note,
    which holds the term in a tag only, before the older one, which holds
    it in its title: the page is not in the order of the weights. *)
Lemma text_search_not_ranked :
  route_getNotes sampleIndexMatch 1 searchAlpha rankStore
    = (Success 200 "Notes retrieved successfully"
         (DNotes [tagHit; titleHit] (mkPagination 1 1 2 false false)), rankStore)
  /\ weightedScore String.eqb noteTextIndex "alpha" tagHit = 8
  /\ weightedScore String.eqb noteTextIndex "alpha" titleHit = 10
  /\ ~ rankedByScore String.eqb noteTextIndex "alpha" [tagHit; titleHit].
Proof.
  split; [reflexivity|]. split; [reflexivity|]. split; [reflexivity|].
  intros H. apply StronglySorted_inv in H as [_ H].
  apply Forall_inv in H. vm_compute in H. now apply H.
Qed.
